(** * Portfolio dashboard: cache layer, vendor fetchers and aggregator

    A shallow embedding of the caching and aggregation core of the
    dashboard: the three cache stores ([scripcodeCache.ts],
    [priceCache.ts], [fundamentalsCache.ts]), the vendor fetchers
    ([bseIndia.ts]) and the aggregator ([portfolioData.ts]).

    Conventions.
    - A JavaScript [number] is an IEEE 754 binary64 value: Rocq's
      primitive [float].  Millisecond timestamps ([Date.now()]) are
      integers and are kept in [Z].
    - A [Map<string, V>] and a JSON object used as a dictionary are a
      [gmap string V]; arrays are lists.
    - [T | null] and [T | undefined] are [option T].
    - A [try { ... } catch] block is a computation in [Result] run by
      [tryCatch]. *)

From Stdlib Require Import ZArith String Ascii Floats DecimalString.
From Equations Require Import Equations.
From stdpp Require Import gmap strings list fin_maps.

Local Open Scope Z_scope.

(** ** Exceptions *)

Inductive Error : Type :=
| ENOENT          (* readFile rejects: missing or unreadable file *)
| EACCES          (* mkdir or writeFile rejects *)
| SyntaxError     (* JSON.parse or response.json() throws *)
| NetworkError    (* fetch rejects *)
| HttpError (status : Z).

Inductive Result (A : Type) : Type :=
| Ok (a : A)
| Throw (e : Error).
Arguments Ok {A} a.
Arguments Throw {A} e.

#[export] Instance Result_ret : MRet Result := fun A a => Ok a.
#[export] Instance Result_bind : MBind Result := fun A B f r =>
  match r with
  | Ok a => f a
  | Throw e => Throw e
  end.

(** [try { body } catch (error) { handler }] *)
Definition tryCatch {A : Type} (body : Result A) (handler : Error -> A) : A :=
  match body with
  | Ok a => a
  | Throw e => handler e
  end.

(** ** Cache files

    A cache file is read whole with [readFile], tested with
    [!content || content.trim() === ''] and handed to [JSON.parse].  Its
    content is kept as what these three see: nothing but white space, a
    text [JSON.parse] throws on, or a text that parses to a document, of
    the shape the TypeScript interface of the store declares. *)

Inductive Content (Doc : Type) : Type :=
| Whitespace
| Malformed
| Json (d : Doc).
Arguments Whitespace {Doc}.
Arguments Malformed {Doc}.
Arguments Json {Doc} d.

(** [None]: there is no readable file at the path. *)
Definition CacheFile (Doc : Type) : Type := option (Content Doc).

Section FileAccess.
Context {Doc : Type}.

Definition readFile (f : CacheFile Doc) : Result (Content Doc) :=
  match f with
  | Some c => Ok c
  | None => Throw ENOENT
  end.

(** [!cacheContent || cacheContent.trim() === ''] *)
Definition isBlank (c : Content Doc) : bool :=
  match c with
  | Whitespace => true
  | _ => false
  end.

Definition JSON_parse (c : Content Doc) : Result Doc :=
  match c with
  | Json d => Ok d
  | _ => Throw SyntaxError
  end.

(** [await mkdir(CACHE_DIR); await writeFile(file, JSON.stringify(doc))]
    on a disk that accepts writes or not. *)
Definition writeFile (writable : bool) (f : CacheFile Doc) (d : Doc)
  : Result (CacheFile Doc) :=
  if writable then Ok (Some (Json d)) else Throw EACCES.
End FileAccess.

(** Insertion of a list of entries into a map, in order: a later entry
    for a key replaces an earlier one ([forEach(... map.set(k, v))]). *)
Definition setAll {V : Type} (entries : list (string * V)) (m : gmap string V)
  : gmap string V :=
  foldl (fun acc kv => <[kv.1 := kv.2]> acc) m entries.

(** [obj[key] = value] on an object that started as [{}], seen as what
    [JSON.stringify] writes of it: its own properties.  The key
    ["__proto__"] names the accessor of [Object.prototype]; assigning to
    it changes the prototype (for a value that is an object) or does
    nothing (for a string), and makes no own property either way. *)
Definition assignProperty {V : Type} (key : string) (value : V) (obj : gmap string V)
  : gmap string V :=
  if decide (key = "__proto__"%string) then obj else <[key := value]> obj.

(** [forEach((v, k) => { obj[k] = v })] *)
Definition assignAll {V : Type} (entries : list (string * V)) (obj : gmap string V)
  : gmap string V :=
  foldl (fun acc kv => assignProperty kv.1 kv.2 acc) obj entries.

(** ** Scripcode cache (scripcodeCache.ts): symbol -> scripcode, no expiry *)

Module ScripcodeCache.

(** The document is a [ScripcodeMapping]
    ([interface ScripcodeMapping { [symbol: string]: string }]):
    a [gmap string string]. *)

Definition loadScripcodeCacheBody (f : CacheFile (gmap string string))
  : Result (gmap string string) :=
  cacheContent ← readFile f;
  if isBlank cacheContent then Ok ∅
  else
    cached ← JSON_parse cacheContent;
    (* new Map(Object.entries(cached)) *)
    Ok (setAll (map_to_list cached) ∅).

Definition loadScripcodeCache (f : CacheFile (gmap string string))
  : gmap string string :=
  tryCatch (loadScripcodeCacheBody f) (fun _ => ∅).

Definition saveScripcodeCache (writable : bool) (mappings : gmap string string)
    (f : CacheFile (gmap string string)) : CacheFile (gmap string string) :=
  tryCatch
    (let mappingObject := assignAll (map_to_list mappings) ∅ in
     writeFile writable f mappingObject)
    (fun _ => f).

Definition addScripcodeMapping (writable : bool) (symbol scripcode : string)
    (f : CacheFile (gmap string string)) : CacheFile (gmap string string) :=
  let existing := loadScripcodeCache f in
  saveScripcodeCache writable (<[symbol := scripcode]> existing) f.

End ScripcodeCache.

(** ** Price cache (priceCache.ts): scripcode -> {timestamp, data}, 2 minutes *)

Module PriceCache.
Section PriceCache.
(** The payload ([BSEStockData]) and what [JSON.parse (JSON.stringify d)]
    makes of it (the identity on a payload whose numbers are finite). *)
Context {Data : Type} (reparse : Data -> Data).

Record CachedPrice : Type := mkCachedPrice {
  timestamp : Z;
  data : Data
}.

(** The document is a [PriceCache]
    ([interface PriceCache { [scripcode: string]: CachedPrice }]):
    a [gmap string CachedPrice]. *)

Definition PRICE_CACHE_DURATION_MS : Z := 2 * 60 * 1000.

(** [now] is the value of [Date.now()]: one value for a whole [load] or
    [save], whose loops over the entries are synchronous. *)
Definition isPriceCacheValid (now : Z) (timestamp : Z) : bool :=
  (now - timestamp) <? PRICE_CACHE_DURATION_MS.

Definition loadPriceCacheBody (now : Z) (f : CacheFile (gmap string CachedPrice))
  : Result (gmap string Data) :=
  cacheContent ← readFile f;
  if isBlank cacheContent then Ok ∅
  else
    cached ← JSON_parse cacheContent;
    Ok (foldl
          (fun result entry =>
             let '(scripcode, cachedPrice) := entry in
             if isPriceCacheValid now (timestamp cachedPrice)
             then <[scripcode := data cachedPrice]> result
             else result)
          ∅ (map_to_list cached)).

Definition loadPriceCache (now : Z) (f : CacheFile (gmap string CachedPrice))
  : gmap string Data :=
  tryCatch (loadPriceCacheBody now f) (fun _ => ∅).

Definition savePriceCache (writable : bool) (now : Z)
    (prices : gmap string Data) (f : CacheFile (gmap string CachedPrice))
  : CacheFile (gmap string CachedPrice) :=
  tryCatch
    (let cacheObject :=
       foldl
         (fun obj entry =>
            assignProperty entry.1 {| timestamp := now; data := reparse entry.2 |} obj)
         ∅ (map_to_list prices) in
     writeFile writable f cacheObject)
    (fun _ => f).

Definition savePriceToCache (writable : bool) (now : Z)
    (scripcode : string) (d : Data) (f : CacheFile (gmap string CachedPrice))
  : CacheFile (gmap string CachedPrice) :=
  let existing := loadPriceCache now f in
  savePriceCache writable now (<[scripcode := d]> existing) f.

End PriceCache.
End PriceCache.

(** ** Fundamentals cache (fundamentalsCache.ts): one document, 24 hours *)

Module FundamentalsCache.
Section FundamentalsCache.
Context {Data : Type} (reparse : Data -> Data).

(** [data: [string, BSEFundamentalsData][] | Record<string, BSEFundamentalsData>] *)
Inductive CachedData : Type :=
| DataArray (items : list (string * Data))
| DataObject (fields : gmap string Data).

(** [interface CachedFundamentals { timestamp: number; data: ... }];
    a field the document lacks reads as [undefined]. *)
Record CachedFundamentals : Type := mkCachedFundamentals {
  timestamp : option Z;
  data : option CachedData
}.

(** [dataMap] filled from the [data] field, an array of pairs
    ([dataMap.set(item[0], item[1])], a later item for a key replacing an
    earlier one) or an object ([Object.entries]). *)
Definition entriesOf (d : CachedData) : gmap string Data :=
  match d with
  | DataArray items => setAll items ∅
  | DataObject fields => setAll (map_to_list fields) ∅
  end.

Definition CACHE_DURATION_MS : Z := 24 * 60 * 60 * 1000.

Definition isCacheValid (now : Z) (timestamp : Z) : bool :=
  (now - timestamp) <? CACHE_DURATION_MS.

Definition loadFundamentalsCacheBody (now : Z)
    (f : CacheFile CachedFundamentals) : Result (option (gmap string Data)) :=
  cacheContent ← readFile f;
  if isBlank cacheContent then Ok None
  else
    cached ← JSON_parse cacheContent;
    match timestamp cached, data cached with
    | None, _ | Some 0, _ | _, None => Ok None   (* !cached.timestamp || !cached.data *)
    | Some ts, Some d =>
        if isCacheValid now ts then Ok (Some (entriesOf d))   (* array or object *)
        else Ok None
    end.

Definition loadFundamentalsCache (now : Z) (f : CacheFile CachedFundamentals)
  : option (gmap string Data) :=
  tryCatch (loadFundamentalsCacheBody now f) (fun _ => None).

Definition saveFundamentalsCache (writable : bool) (now : Z)
    (m : gmap string Data) (f : CacheFile CachedFundamentals)
  : CacheFile CachedFundamentals :=
  tryCatch
    (let cached :=
       {| timestamp := Some now;
          data := Some (DataArray (prod_map id reparse <$> map_to_list m)) |} in
     writeFile writable f cached)
    (fun _ => f).

Definition clearFundamentalsCache (writable : bool)
    (f : CacheFile CachedFundamentals) : CacheFile CachedFundamentals :=
  if writable then Some Whitespace else f.

End FundamentalsCache.
End FundamentalsCache.

(** ** The fundamentals store as the specification words it

    "identifier -> {timestamp, fundamentals snapshot}", "save stamps each
    entry with the current write time", "load filters expired entries":
    a store with one timestamp an entry, to compare [FundamentalsCache]
    with. *)

Module PerEntryStore.
Section PerEntryStore.
Context {Data : Type} (reparse : Data -> Data).

Record Entry : Type := mkEntry {
  written : Z;
  snapshot : Data
}.

Definition duration : Z := 24 * 60 * 60 * 1000.

Definition age (now : Z) (e : Entry) : Z := now - written e.

Definition save (now : Z) (m : gmap string Data) : gmap string Entry :=
  (fun d => {| written := now; snapshot := reparse d |}) <$> m.

Definition load (now : Z) (doc : gmap string Entry) : gmap string Data :=
  snapshot <$> filter (fun kv => age now kv.2 < duration) doc.

End PerEntryStore.
End PerEntryStore.

(** ** JavaScript strings and numbers *)

Module Js.

(** Strings are sequences of code units below 256. *)

(** [/^\d+$/.test(s)]: one or more ASCII digits and nothing else. *)
Definition isDigit (c : ascii) : bool :=
  let n := nat_of_ascii c in (48 <=? n)%nat && (n <=? 57)%nat.

Fixpoint allDigits (s : string) : bool :=
  match s with
  | EmptyString => true
  | String c rest => isDigit c && allDigits rest
  end.

Definition testDigits (s : string) : bool :=
  match s with
  | EmptyString => false
  | _ => allDigits s
  end.

(** White space removed by [String.prototype.trim]: TAB, LF, VT, FF, CR,
    SP and NBSP. *)
Definition isWhiteSpace (c : ascii) : bool :=
  let n := nat_of_ascii c in
  ((9 <=? n)%nat && (n <=? 13)%nat) || (n =? 32)%nat || (n =? 160)%nat.

(** [s.trim() === ''] *)
Fixpoint trimIsEmpty (s : string) : bool :=
  match s with
  | EmptyString => true
  | String c rest => isWhiteSpace c && trimIsEmpty rest
  end.

(** Truthiness of a string that may be [null] or [undefined]. *)
Definition truthy (v : option string) : bool :=
  match v with
  | Some (String _ _) => true
  | _ => false
  end.

(** [a || b] with a string default. *)
Definition orElse (a : option string) (b : string) : string :=
  match a with
  | Some (String c rest) => String c rest
  | _ => b
  end.

(** [a || b] between two optional strings. *)
Definition orOpt (a b : option string) : option string :=
  if truthy a then a else b.

(** [s.replace(c, '')]: the first occurrence of the character goes. *)
Fixpoint removeFirst (c : ascii) (s : string) : string :=
  match s with
  | EmptyString => EmptyString
  | String d rest => if Ascii.eqb c d then rest else String d (removeFirst c rest)
  end.

(** [isNaN(x)] on a number. *)
Definition isNaN (x : float) : bool := PrimFloat.is_nan x.

(** *** [Number.prototype.toFixed]

    A finite double is [m * 2^e] for integers [m > 0] and [e]
    ([Prim2SF]).  [toFixed(f)] takes the integer [n] for which
    [n / 10^f - x] is closest to zero, the larger one of two, and
    prints it with [f] digits after the point. *)

Definition roundScaled (m : positive) (e : Z) (f : nat) : Z :=
  let scaled := Z.pos m * 10 ^ Z.of_nat f in
  if 0 <=? e then scaled * 2 ^ e
  else (2 * scaled + 2 ^ (- e)) / 2 ^ (1 - e).

Fixpoint zeros (k : nat) : string :=
  match k with
  | O => EmptyString
  | S k' => String "0" (zeros k')
  end.

Definition fixedDigits (f : nat) (n : Z) : string :=
  let m := NilZero.string_of_uint (N.to_uint (Z.to_N n)) in
  match f with
  | O => m
  | _ =>
      let k := String.length m in
      let m := if (k <=? f)%nat then (zeros (f + 1 - k) ++ m)%string else m in
      let k := String.length m in
      (substring 0 (k - f) m ++ "." ++ substring (k - f) f m)%string
  end.

(** [numberToString] is [Number::toString], used by [toFixed] only from
    [10^21] on. *)
Definition toFixed (numberToString : float -> string) (f : nat) (x : float)
  : string :=
  match Prim2SF x with
  | S754_nan => "NaN"
  | S754_infinity false => "Infinity"
  | S754_infinity true => "-Infinity"
  | S754_zero _ => fixedDigits f 0
  | S754_finite s m e =>
      ((if s then "-" else "") ++
       (if PrimFloat.leb 1e21 (PrimFloat.abs x)
        then numberToString (PrimFloat.abs x)
        else fixedDigits f (roundScaled m e f)))%string
  end.

End Js.

(** ** Vendor fetchers (bseIndia.ts) *)

Module BseIndia.

(** The fields of [BSEResponse] the mapper reads.  The mapper reaches
    them through [?.], so a block or a field may be missing. *)
Record CurrRateBlock : Type := mkCurrRate {
  CurrRate_LTP : option string;
  CurrRate_Chg : option string;
  CurrRate_PcChg : option string
}.

Record CmpnameBlock : Type := mkCmpname {
  FullN : option string;
  ShortN : option string
}.

Record HeaderBlock : Type := mkHeader {
  PrevClose : option string;
  Open : option string;
  High : option string;
  Low : option string;
  Header_LTP : option string;
  Ason : option string
}.

Record BSEResponse : Type := mkBSEResponse {
  CurrRate : option CurrRateBlock;
  Cmpname : option CmpnameBlock;
  Header : option HeaderBlock
}.

Record BSEStockData : Type := mkBSEStockData {
  scripcode : string;
  companyName : string;
  currentPrice : float;
  previousClose : float;
  open : float;
  high : float;
  low : float;
  change : float;
  changePercent : float;
  lastUpdated : string
}.

(** The fields of [BSEFundamentalsResponse] the mapper reads. *)
Record BSEFundamentalsResponse : Type := mkBSEFundamentalsResponse {
  SecurityId : option string;
  FaceVal : option string;
  ISIN : option string;
  Industry : option string;
  Group : option string;
  Index : option string;
  EPS : option string;
  CEPS : option string;
  PE : option string;
  OPM : option string;
  NPM : option string;
  PB : option string;
  ROE : option string;
  Sector : option string;
  IndustryNew : option string;
  ISubGroup : option string
}.

Record BSEFundamentalsData : Type := mkBSEFundamentalsData {
  f_scripcode : string;
  securityId : string;
  isin : string;
  sector : string;
  industry : string;
  faceValue : float;
  eps : option float;
  ceps : option float;
  pe : option float;
  pb : option float;
  roe : option float;
  opm : option float;
  npm : option float;
  group : string;
  index : string
}.

(** What [fetch] resolves to: the status line and the outcome of
    [response.json()]. *)
Record Response (Body : Type) : Type := mkResponse {
  ok : bool;
  status : Z;
  json : Result Body
}.
Arguments ok {Body} r.
Arguments status {Body} r.
Arguments json {Body} r.

(** One step of the fetch loops: a batch handed to [Promise.all], or the
    [setTimeout] pause between two batches. *)
Inductive Event : Type :=
| FetchBatch (batch : list string)
| Delay (ms : Z).

Definition BATCH_SIZE : nat := 10.
Definition BATCH_DELAY_MS : Z := 1000.

(** [scripcodes.slice(i, j)] for [0 <= i <= j]. *)
Definition slice {A : Type} (i j : nat) (l : list A) : list A :=
  take (j - i) (drop i l).

(** *** The batch schedule as the specification words it

    "fixed-size batches (10 per batch) ... a fixed delay (1 second)
    before the next batch, skipping the delay after the final batch":
    [count] consecutive batches from batch number [j] on, with a pause
    between two of them. *)
Fixpoint schedule (scripcodes : list string) (j count : nat) : list Event :=
  match count with
  | O => []
  | S rest =>
      FetchBatch (slice (j * BATCH_SIZE) (j * BATCH_SIZE + BATCH_SIZE) scripcodes)
      :: match rest with
         | O => []
         | S _ => Delay BATCH_DELAY_MS :: schedule scripcodes (S j) rest
         end
  end.

(** The number of batches of at most [BATCH_SIZE] that [n] identifiers fill. *)
Definition batchCount (n : nat) : nat := (n + (BATCH_SIZE - 1)) / BATCH_SIZE.

Definition batchesOf (steps : list Event) : list (list string) :=
  omap (fun ev => match ev with FetchBatch b => Some b | Delay _ => None end) steps.

Definition delaysOf (steps : list Event) : list Z :=
  omap (fun ev => match ev with Delay ms => Some ms | FetchBatch _ => None end) steps.

(** The steps of a fetch loop over [scripcodes] are batched and paused as
    the specification says. *)
Definition BatchedWithDelays (scripcodes : list string) (steps : list Event) : Prop :=
  steps = schedule scripcodes 0 (batchCount (length scripcodes))
  /\ concat (batchesOf steps) = scripcodes
  /\ Forall (fun b => (0 < length b <= BATCH_SIZE)%nat) (batchesOf steps)
  /\ length (batchesOf steps) = batchCount (length scripcodes)
  /\ delaysOf steps = replicate (pred (batchCount (length scripcodes))) 1000
  /\ (length scripcodes = 25%nat ->
      steps = [FetchBatch (take 10 scripcodes); Delay 1000;
               FetchBatch (take 10 (drop 10 scripcodes)); Delay 1000;
               FetchBatch (drop 20 scripcodes)]).

(** [/^\d+$/.test(symbol)] *)
Definition isBSEScripcode (symbol : string) : bool := Js.testDigits symbol.

Section Fetchers.
(** The environment: the global [parseFloat], [new Date().toISOString()]
    at the time of the call, and the outcome of the HTTP request for a
    scripcode on each of the two vendor endpoints. *)
Context (parseFloat : string -> float)
        (isoNow : string)
        (fetchHeaderData : string -> Result (Response BSEResponse))
        (fetchComHeader : string -> Result (Response BSEFundamentalsResponse)).

Definition mapBSEResponseToStockData (scripcode : string) (data : BSEResponse)
  : BSEStockData :=
  let ltp := parseFloat
               (Js.orElse (Js.orOpt (CurrRate data ≫= CurrRate_LTP)
                                    (Header data ≫= Header_LTP)) "0") in
  let prevClose := parseFloat (Js.orElse (Header data ≫= PrevClose) "0") in
  let change :=
    parseFloat (Js.orElse (Js.removeFirst "+" <$> (CurrRate data ≫= CurrRate_Chg)) "0") in
  let changePercent :=
    parseFloat
      (Js.orElse
         (Js.removeFirst "%" <$>
            (Js.removeFirst "+" <$> (CurrRate data ≫= CurrRate_PcChg))) "0") in
  {| scripcode := scripcode;
     companyName := Js.orElse (Js.orOpt (Cmpname data ≫= FullN)
                                        (Cmpname data ≫= ShortN)) "";
     currentPrice := ltp;
     previousClose := prevClose;
     open := parseFloat (Js.orElse (Header data ≫= Open) "0");
     high := parseFloat (Js.orElse (Header data ≫= High) "0");
     low := parseFloat (Js.orElse (Header data ≫= Low) "0");
     change := change;
     changePercent := changePercent;
     lastUpdated := Js.orElse (Header data ≫= Ason) isoNow |}.

Definition fetchBSEData (scripcode : string) : option BSEStockData :=
  tryCatch
    (response ← fetchHeaderData scripcode;
     if negb (ok response) then Throw (HttpError (status response))
     else
       data ← json response;
       Ok (Some (mapBSEResponseToStockData scripcode data)))
    (fun _ => None).

(** The local [parseNumber] of [mapBSEFundamentalsResponse]. *)
Definition parseNumber (value : option string) : option float :=
  match value with
  | None => None
  | Some v =>
      if negb (Js.truthy (Some v)) || String.eqb v "-" || Js.trimIsEmpty v
      then None
      else
        let parsed := parseFloat v in
        if Js.isNaN parsed then None else Some parsed
  end.

(** [x || 0] on a number that may be [null]: [0], [-0] and [NaN] are
    falsy. *)
Definition orZero (x : option float) : float :=
  match x with
  | Some v => if PrimFloat.eqb v 0 || Js.isNaN v then 0%float else v
  | None => 0%float
  end.

Definition mapBSEFundamentalsResponse (scripcode : string)
    (data : BSEFundamentalsResponse) : BSEFundamentalsData :=
  {| f_scripcode := scripcode;
     securityId := Js.orElse (SecurityId data) "";
     isin := Js.orElse (ISIN data) "";
     sector := Js.orElse (Js.orOpt (Sector data) (IndustryNew data)) "";
     industry := Js.orElse (Js.orOpt (Industry data) (ISubGroup data)) "";
     faceValue := orZero (parseNumber (FaceVal data));
     eps := parseNumber (EPS data);
     ceps := parseNumber (CEPS data);
     pe := parseNumber (PE data);
     pb := parseNumber (PB data);
     roe := parseNumber (ROE data);
     opm := parseNumber (OPM data);
     npm := parseNumber (NPM data);
     group := Js.orElse (Group data) "";
     index := Js.orElse (Index data) "" |}.

Definition fetchBSEFundamentals (scripcode : string) : option BSEFundamentalsData :=
  tryCatch
    (response ← fetchComHeader scripcode;
     if negb (ok response) then Throw (HttpError (status response))
     else
       data ← json response;
       Ok (Some (mapBSEFundamentalsResponse scripcode data)))
    (fun _ => None).

(** The loop shared, word for word, by [fetchMultipleBSEData] and
    [fetchMultipleBSEFundamentals]:
    [for (let i = 0; i < scripcodes.length; i += BATCH_SIZE)].  It
    returns the [results] map and the steps it took, oldest first. *)
Section BatchLoop.
Context {R : Type} (fetchOne : string -> option R).

(** One promise of a batch: [try { data = await fetchOne(sc) } catch]. *)
Definition batchPromise (scripcode : string) : string * option R :=
  tryCatch (Ok (scripcode, fetchOne scripcode)) (fun _ => (scripcode, None)).

Definition collect (results : gmap string R) (batchResults : list (string * option R))
  : gmap string R :=
  foldl (fun acc r =>
           match r.2 with
           | Some d => <[r.1 := d]> acc
           | None => acc
           end) results batchResults.

(** What a map holds at a scripcode once the scripcode has been in a
    batch: the fetched record if there is one, else what it held. *)
Definition merged (results : gmap string R) (scripcode : string) : option R :=
  match fetchOne scripcode with
  | Some d => Some d
  | None => results !! scripcode
  end.

Equations? batchLoop (scripcodes : list string) (i : nat)
    (results : gmap string R) (trace : list Event)
  : gmap string R * list Event by wf (length scripcodes - i)%nat lt :=
  batchLoop scripcodes i results trace with decide (i < length scripcodes)%nat => {
    | right _ := (results, trace);
    | left _ :=
        let batch := slice i (i + BATCH_SIZE) scripcodes in
        let batchResults := batchPromise <$> batch in
        let results' := collect results batchResults in
        let trace' := trace ++ [FetchBatch batch] in
        let trace'' :=
          if decide (i + BATCH_SIZE < length scripcodes)%nat
          then trace' ++ [Delay BATCH_DELAY_MS] else trace' in
        batchLoop scripcodes (i + BATCH_SIZE)%nat results' trace'' }.
Proof. unfold BATCH_SIZE. lia. Qed.

Definition fetchMultiple (scripcodes : list string) : gmap string R * list Event :=
  if decide (length scripcodes = 0%nat) then (∅, [])
  else batchLoop scripcodes 0 ∅ [].
End BatchLoop.

Definition fetchMultipleBSEData := fetchMultiple fetchBSEData.
Definition fetchMultipleBSEFundamentals := fetchMultiple fetchBSEFundamentals.

End Fetchers.
End BseIndia.

(** ** Aggregator (portfolioData.ts) *)

Module PortfolioData.

Inductive PriceSource : Type := bse | yahoo | static.

Record Fixed : Type := mkFixed {
  purchasePrice : float;
  qty : float;
  investment : float;
  portfolioPercent : string;
  stage2 : bool
}.

(** [PortfolioHolding['realtime']] with the two optional fields of
    [UpdatedPortfolioHolding]. *)
Record Realtime : Type := mkRealtime {
  cmp : float;
  presentValue : float;
  gainLoss : float;
  gainLossPercent : string;
  marketCap : float;
  lastUpdated : option string;
  priceSource : option PriceSource
}.

Record Fundamentals : Type := mkFundamentals {
  peTTM : option float;
  latestEarnings : option float;
  revenueTTM : option (string + float);
  ebitdaTTM : option float;
  ebitdaPercent : option string;
  pat : option (string + float);
  patPercent : option string;
  cfoMarch24 : option float;
  cfo5Years : option float;
  debtToEquity : option float;
  bookValue : option (float + string);
  revenueGrowth : option string;
  ebitdaGrowth : option string;
  profitGrowth : option string;
  marketCapGrowth : option string;
  priceToSales : option float;
  cfoToEbitda : option string;
  cfoToPat : option string;
  priceToBook : option float
}.

Record PortfolioHolding : Type := mkHolding {
  symbol : string;
  companyName : string;
  sector : string;
  fixed : Fixed;
  realtime : Realtime;
  fundamentals : Fundamentals
}.

(** The process as the aggregator sees it: the clock, the three cache
    files, whether the cache directory takes writes, and the steps of
    the batch loops so far.  The clock moves with the pauses of the batch
    loops; the time a request takes is not counted. *)
Record World : Type := mkWorld {
  now : Z;
  writable : bool;
  scripcodeFile : CacheFile (gmap string string);
  priceFile : CacheFile (gmap string (@PriceCache.CachedPrice BseIndia.BSEStockData));
  fundamentalsFile :
    CacheFile (@FundamentalsCache.CachedFundamentals BseIndia.BSEFundamentalsData);
  log : list BseIndia.Event
}.

(** Time spent in the pauses of a batch loop. *)
Definition elapsed (steps : list BseIndia.Event) : Z :=
  foldr (fun ev acc =>
           match ev with
           | BseIndia.Delay ms => ms + acc
           | BseIndia.FetchBatch _ => acc
           end) 0 steps.

Definition afterSteps (steps : list BseIndia.Event) (w : World) : World :=
  {| now := now w + elapsed steps;
     writable := writable w;
     scripcodeFile := scripcodeFile w;
     priceFile := priceFile w;
     fundamentalsFile := fundamentalsFile w;
     log := log w ++ steps |}.

Definition withScripcodeFile (f : CacheFile (gmap string string))
    (w : World) : World :=
  {| now := now w; writable := writable w; scripcodeFile := f;
     priceFile := priceFile w; fundamentalsFile := fundamentalsFile w;
     log := log w |}.

Definition withPriceFile
    (f : CacheFile (gmap string (@PriceCache.CachedPrice BseIndia.BSEStockData)))
    (w : World) : World :=
  {| now := now w; writable := writable w; scripcodeFile := scripcodeFile w;
     priceFile := f; fundamentalsFile := fundamentalsFile w; log := log w |}.

Definition withFundamentalsFile
    (f : CacheFile (@FundamentalsCache.CachedFundamentals BseIndia.BSEFundamentalsData))
    (w : World) : World :=
  {| now := now w; writable := writable w; scripcodeFile := scripcodeFile w;
     priceFile := priceFile w; fundamentalsFile := f; log := log w |}.

(** [[...new Set(xs)]]: the first occurrence of each element, in order. *)
Definition uniq (xs : list string) : list string :=
  foldl (fun acc x => if decide (x ∈ acc) then acc else acc ++ [x]) [] xs.

(** [a ?? b] *)
Definition nullish {A : Type} (a b : option A) : option A :=
  match a with
  | Some x => Some x
  | None => b
  end.

Definition mapBSEFundamentalsToPortfolio
    (bseFundamentals : BseIndia.BSEFundamentalsData)
    (existingFundamentals : Fundamentals) : Fundamentals :=
  {| peTTM := nullish (BseIndia.pe bseFundamentals) (peTTM existingFundamentals);
     latestEarnings :=
       nullish (BseIndia.eps bseFundamentals) (latestEarnings existingFundamentals);
     revenueTTM := revenueTTM existingFundamentals;
     ebitdaTTM := ebitdaTTM existingFundamentals;
     ebitdaPercent := ebitdaPercent existingFundamentals;
     pat := pat existingFundamentals;
     patPercent := patPercent existingFundamentals;
     cfoMarch24 := cfoMarch24 existingFundamentals;
     cfo5Years := cfo5Years existingFundamentals;
     debtToEquity := debtToEquity existingFundamentals;
     bookValue := bookValue existingFundamentals;
     revenueGrowth := revenueGrowth existingFundamentals;
     ebitdaGrowth := ebitdaGrowth existingFundamentals;
     profitGrowth := profitGrowth existingFundamentals;
     marketCapGrowth := marketCapGrowth existingFundamentals;
     priceToSales := priceToSales existingFundamentals;
     cfoToEbitda := cfoToEbitda existingFundamentals;
     cfoToPat := cfoToPat existingFundamentals;
     priceToBook :=
       nullish (BseIndia.pb bseFundamentals) (priceToBook existingFundamentals) |}.

Section Aggregator.
(** The environment: the static holdings of [data/portfolio.json]
    ([getPortfolioData]), the builtins, the vendor endpoints, the
    outcome of the vendor symbol search ([searchBSEScripcode]: one HTTP
    request, scraped; it catches its own errors and returns [null]), and
    the JSON round trip of the two cached payloads. *)
Context (getPortfolioData : list PortfolioHolding)
        (parseFloat : string -> float)
        (numberToString : float -> string)
        (isoNow : string)
        (fetchHeaderData : string -> Result (BseIndia.Response BseIndia.BSEResponse))
        (fetchComHeader :
           string -> Result (BseIndia.Response BseIndia.BSEFundamentalsResponse))
        (searchBSEScripcode : string -> option string)
        (reparsePrice : BseIndia.BSEStockData -> BseIndia.BSEStockData)
        (reparseFundamentals :
           BseIndia.BSEFundamentalsData -> BseIndia.BSEFundamentalsData).

Definition fetchBSEData := BseIndia.fetchBSEData parseFloat isoNow fetchHeaderData.
Definition fetchMultipleBSEData :=
  BseIndia.fetchMultipleBSEData parseFloat isoNow fetchHeaderData.
Definition fetchMultipleBSEFundamentals :=
  BseIndia.fetchMultipleBSEFundamentals parseFloat fetchComHeader.

(** [resolveBSEScripcode]: the result and the cache, which the function
    updates in place when the search finds a scripcode ([scripcode] is
    then a string that is not empty, and [Js.orElse scripcode ""] is that
    string). *)
Definition resolveBSEScripcode (symbol : string) (scripcodeCache : gmap string string)
  : (string * option string) * gmap string string :=
  if BseIndia.isBSEScripcode symbol then ((symbol, Some symbol), scripcodeCache)
  else
    let cachedScripcode := scripcodeCache !! symbol in
    if Js.truthy cachedScripcode then ((symbol, cachedScripcode), scripcodeCache)
    else
      let scripcode := searchBSEScripcode symbol in
      if Js.truthy scripcode
      then ((symbol, scripcode), <[symbol := Js.orElse scripcode ""]> scripcodeCache)
      else ((symbol, None), scripcodeCache).

(** [Promise.all(uniqueSymbols.map(s => resolveBSEScripcode(s, cache)))]
    over the one shared cache.  Each call reads and writes the cache at
    its own symbol only, so the interleaving of the calls does not
    matter; they are run in order. *)
Fixpoint resolveAll (symbols : list string) (scripcodeCache : gmap string string)
  : list (string * option string) * gmap string string :=
  match symbols with
  | [] => ([], scripcodeCache)
  | symbol :: rest =>
      let '(r, cache1) := resolveBSEScripcode symbol scripcodeCache in
      let '(rs, cache2) := resolveAll rest cache1 in
      (r :: rs, cache2)
  end.

Definition getFundamentalsForBSEScripcodes (scripcodes : list string) (w : World)
  : gmap string BseIndia.BSEFundamentalsData * World :=
  if decide (length scripcodes = 0%nat) then (∅, w)
  else
    let cached := FundamentalsCache.loadFundamentalsCache (now w) (fundamentalsFile w) in
    let result := match cached with Some c => setAll (map_to_list c) ∅ | None => ∅ end in
    let missingScripcodes :=
      List.filter (fun sc => negb (bool_decide (is_Some (result !! sc)))) scripcodes in
    if decide (length missingScripcodes = 0%nat) then (result, w)
    else
      let '(fetchedFundamentals, steps) := fetchMultipleBSEFundamentals missingScripcodes in
      let w := afterSteps steps w in
      let result := setAll (map_to_list fetchedFundamentals) result in
      let w :=
        withFundamentalsFile
          (FundamentalsCache.saveFundamentalsCache reparseFundamentals
             (writable w) (now w) result (fundamentalsFile w)) w in
      (result, w).

(** The [realtime] block recomputed from a price. *)
Definition recompute (holding : PortfolioHolding) (bseData : BseIndia.BSEStockData)
  : Realtime :=
  let newPresentValue := (BseIndia.currentPrice bseData * qty (fixed holding))%float in
  let newGainLoss := (newPresentValue - investment (fixed holding))%float in
  let newGainLossPercent :=
    if PrimFloat.ltb 0 (investment (fixed holding))
    then Js.toFixed numberToString 2
           ((newGainLoss / investment (fixed holding)) * 100)%float
    else "0.00"%string in
  {| cmp := BseIndia.currentPrice bseData;
     presentValue := newPresentValue;
     gainLoss := newGainLoss;
     gainLossPercent :=
       ((if PrimFloat.leb 0 newGainLoss then "+" else "")
          ++ newGainLossPercent ++ "%")%string;
     marketCap := marketCap (realtime holding);
     lastUpdated := Some (BseIndia.lastUpdated bseData);
     priceSource := Some bse |}.

Definition withRealtime (r : Realtime) (h : PortfolioHolding) : PortfolioHolding :=
  {| symbol := symbol h; companyName := companyName h; sector := sector h;
     fixed := fixed h; realtime := r; fundamentals := fundamentals h |}.

Definition withFundamentals (f : Fundamentals) (h : PortfolioHolding)
  : PortfolioHolding :=
  {| symbol := symbol h; companyName := companyName h; sector := sector h;
     fixed := fixed h; realtime := realtime h; fundamentals := f |}.

(** The body of [holdings.map(holding => ...)].  No statement of its
    [try] block throws, so the [catch] is left out. *)
Definition updateHolding (symbolToScripcode : gmap string string)
    (priceDataMap : gmap string BseIndia.BSEStockData)
    (fundamentalsMap : gmap string BseIndia.BSEFundamentalsData)
    (holding : PortfolioHolding) : PortfolioHolding :=
  let updatedHolding := holding in
  let scripcode := symbolToScripcode !! symbol holding in
  match scripcode with
  | Some sc =>
      if Js.truthy scripcode then
        let updatedHolding :=
          match priceDataMap !! sc with
          | Some bseData => withRealtime (recompute holding bseData) updatedHolding
          | None => updatedHolding
          end in
        match fundamentalsMap !! sc with
        | Some bseFundamentals =>
            withFundamentals
              (mapBSEFundamentalsToPortfolio bseFundamentals (fundamentals holding))
              updatedHolding
        | None => updatedHolding
        end
      else updatedHolding
  | None => updatedHolding
  end.

(** What [getPortfolioWithRealtimeData] has in hand when it reaches its
    final [holdings.map]. *)
Record Gathered : Type := mkGathered {
  symbolToScripcode : gmap string string;
  newMappings : gmap string string;
  uniqueScripcodes : list string;
  fundamentalsMap : gmap string BseIndia.BSEFundamentalsData;
  priceDataMap : gmap string BseIndia.BSEStockData;
  world : World
}.

(** [resolved.forEach(({symbol, scripcode}) => ...)]: [symbolToScripcode],
    [newMappings] and the values of [symbolToScripcode] in insertion
    order (the symbols are distinct, so every [set] adds a key).
    [scripcodeCache] is the cache after the calls of
    [resolveBSEScripcode]. *)
Definition recordResolved (scripcodeCache : gmap string string)
    (resolved : list (string * option string))
  : gmap string string * gmap string string * list string :=
  foldl
    (fun acc r =>
       let '(symbolToScripcode, newMappings, values) := acc in
       match r.2 with
       | Some sc =>
           if Js.truthy r.2 then
             (<[r.1 := sc]> symbolToScripcode,
              if bool_decide (is_Some (scripcodeCache !! r.1)) then newMappings
              else <[r.1 := sc]> newMappings,
              values ++ [sc])
           else acc
       | None => acc
       end)
    (∅, ∅, []) resolved.

(** [uniqueScripcodes.forEach(scripcode => ...)] over the price cache. *)
Definition splitCached (priceCache : gmap string BseIndia.BSEStockData)
    (uniqueScripcodes : list string)
  : gmap string BseIndia.BSEStockData * list string :=
  foldl
    (fun acc scripcode =>
       let '(priceDataMap, scripcodesToFetch) := acc in
       match priceCache !! scripcode with
       | Some cachedPrice => (<[scripcode := cachedPrice]> priceDataMap, scripcodesToFetch)
       | None => (priceDataMap, scripcodesToFetch ++ [scripcode])
       end)
    (∅, []) uniqueScripcodes.

Definition gatherData (w : World) : Gathered :=
  let holdings := getPortfolioData in
  let scripcodeCache := ScripcodeCache.loadScripcodeCache (scripcodeFile w) in
  let priceCache := PriceCache.loadPriceCache (now w) (priceFile w) in
  let uniqueSymbols := uniq (symbol <$> holdings) in
  let '(resolved, scripcodeCache) := resolveAll uniqueSymbols scripcodeCache in
  let '(symbolToScripcode, newMappings, values) :=
    recordResolved scripcodeCache resolved in
  let w :=
    if decide (0 < size newMappings)%nat then
      let scripcodeCache := setAll (map_to_list newMappings) scripcodeCache in
      withScripcodeFile
        (ScripcodeCache.saveScripcodeCache (writable w) scripcodeCache (scripcodeFile w)) w
    else w in
  let uniqueScripcodes := uniq values in
  let '(fundamentalsMap, w) := getFundamentalsForBSEScripcodes uniqueScripcodes w in
  let '(priceDataMap, scripcodesToFetch) := splitCached priceCache uniqueScripcodes in
  if decide (0 < length scripcodesToFetch)%nat then
    let '(fetchedPrices, steps) := fetchMultipleBSEData scripcodesToFetch in
    let w := afterSteps steps w in
    let priceDataMap := setAll (map_to_list fetchedPrices) priceDataMap in
    let w :=
      withPriceFile
        (PriceCache.savePriceCache reparsePrice (writable w) (now w) fetchedPrices
           (priceFile w)) w in
    mkGathered symbolToScripcode newMappings uniqueScripcodes fundamentalsMap
      priceDataMap w
  else
    mkGathered symbolToScripcode newMappings uniqueScripcodes fundamentalsMap
      priceDataMap w.

Definition getPortfolioWithRealtimeData (w : World) : list PortfolioHolding * World :=
  let g := gatherData w in
  (updateHolding (symbolToScripcode g) (priceDataMap g) (fundamentalsMap g)
     <$> getPortfolioData,
   world g).

(** [holdings.find(h => h.symbol === symbol)] *)
Definition findHolding (sym : string) : option PortfolioHolding :=
  List.find (fun h => String.eqb (symbol h) sym) getPortfolioData.

(** The price [getHoldingWithRealtimeData] ends up with for a scripcode:
    the cached one, else the fetched one, which it then saves. *)
Definition priceFor (priceCache : gmap string BseIndia.BSEStockData)
    (scripcode : string) (w : World) : option BseIndia.BSEStockData * World :=
  match priceCache !! scripcode with
  | Some cachedPrice => (Some cachedPrice, w)
  | None =>
      match fetchBSEData scripcode with
      | Some fetched =>
          (Some fetched,
           withPriceFile
             (PriceCache.savePriceToCache reparsePrice (writable w) (now w)
                scripcode fetched (priceFile w)) w)
      | None => (None, w)
      end
  end.

Definition getHoldingWithRealtimeData (sym : string) (w : World)
  : option PortfolioHolding * World :=
  match findHolding sym with
  | None => (None, w)
  | Some holding =>
      let updatedHolding := holding in
      let scripcodeCache := ScripcodeCache.loadScripcodeCache (scripcodeFile w) in
      let priceCache := PriceCache.loadPriceCache (now w) (priceFile w) in
      let '((_, scripcode), scripcodeCache) :=
        resolveBSEScripcode (symbol holding) scripcodeCache in
      let w :=
        if Js.truthy scripcode
           && negb (bool_decide (is_Some (scripcodeCache !! symbol holding)))
        then
          let scripcodeCache :=
            <[symbol holding := Js.orElse scripcode ""]> scripcodeCache in
          withScripcodeFile
            (ScripcodeCache.saveScripcodeCache (writable w) scripcodeCache
               (scripcodeFile w)) w
        else w in
      match scripcode with
      | Some sc =>
          if Js.truthy scripcode then
            let '(bseData, w) := priceFor priceCache sc w in
            let updatedHolding :=
              match bseData with
              | Some d => withRealtime (recompute holding d) updatedHolding
              | None => updatedHolding
              end in
            let '(fundamentalsMap, w) := getFundamentalsForBSEScripcodes [sc] w in
            let updatedHolding :=
              match fundamentalsMap !! sc with
              | Some bseFundamentals =>
                  withFundamentals
                    (mapBSEFundamentalsToPortfolio bseFundamentals
                       (fundamentals holding))
                    updatedHolding
              | None => updatedHolding
              end in
            (Some updatedHolding, w)
          else (Some updatedHolding, w)
      | None => (Some updatedHolding, w)
      end
  end.

End Aggregator.
End PortfolioData.

(** ** A small portfolio

    Three holdings and an environment for them, to run the functions on:
    HDFCBANK is found by the symbol search and has a price of 120, UNKNOWN
    is not found, and 500112 is a scripcode whose requests fail. *)

Module Sample.
Import PortfolioData.

(** The values of the global [parseFloat] on the tokens used here:
    ["0"] and ["120"]; every other token used here (["-"], [""]) is
    unparsable. *)
Definition parseFloat (s : string) : float :=
  if String.eqb s "0" then 0%float
  else if String.eqb s "120" then 120%float
  else nan.

(** [toFixed] asks for it from [10^21] on only: never here. *)
Definition numberToString (x : float) : string := "1e+21".

Definition isoNow : string := "2026-01-05T09:30:00.000Z".

Definition quote120 : BseIndia.BSEResponse :=
  {| BseIndia.CurrRate :=
       Some {| BseIndia.CurrRate_LTP := Some "120";
               BseIndia.CurrRate_Chg := Some "+0";
               BseIndia.CurrRate_PcChg := Some "+0%" |};
     BseIndia.Cmpname :=
       Some {| BseIndia.FullN := Some "HDFC Bank Ltd"; BseIndia.ShortN := None |};
     BseIndia.Header :=
       Some {| BseIndia.PrevClose := Some "120"; BseIndia.Open := Some "";
               BseIndia.High := Some "120"; BseIndia.Low := Some "-";
               BseIndia.Header_LTP := Some "120";
               BseIndia.Ason := Some "05 Jan 26 | 03:00 PM" |} |}.

Definition fetchHeaderData (scripcode : string)
  : Result (BseIndia.Response BseIndia.BSEResponse) :=
  if String.eqb scripcode "500180"
  then Ok {| BseIndia.ok := true; BseIndia.status := 200;
             BseIndia.json := Ok quote120 |}
  else Throw NetworkError.

Definition ratiosDash : BseIndia.BSEFundamentalsResponse :=
  {| BseIndia.SecurityId := Some "HDFCBANK"; BseIndia.FaceVal := Some "-";
     BseIndia.ISIN := Some "INE040A01034"; BseIndia.Industry := None;
     BseIndia.Group := Some "A"; BseIndia.Index := None;
     BseIndia.EPS := Some "-"; BseIndia.CEPS := Some "";
     BseIndia.PE := Some "120"; BseIndia.OPM := None; BseIndia.NPM := None;
     BseIndia.PB := Some "-"; BseIndia.ROE := Some "";
     BseIndia.Sector := Some "Banks"; BseIndia.IndustryNew := None;
     BseIndia.ISubGroup := None |}.

Definition fetchComHeader (scripcode : string)
  : Result (BseIndia.Response BseIndia.BSEFundamentalsResponse) :=
  if String.eqb scripcode "500180"
  then Ok {| BseIndia.ok := true; BseIndia.status := 200;
             BseIndia.json := Ok ratiosDash |}
  else Ok {| BseIndia.ok := false; BseIndia.status := 503;
             BseIndia.json := Throw SyntaxError |}.

Definition searchBSEScripcode (symbol : string) : option string :=
  if String.eqb symbol "HDFCBANK" then Some "500180"%string else None.

Definition baseline : Fundamentals :=
  {| peTTM := Some 18.5%float; latestEarnings := None; revenueTTM := None;
     ebitdaTTM := None; ebitdaPercent := None; pat := None; patPercent := None;
     cfoMarch24 := None; cfo5Years := None; debtToEquity := None;
     bookValue := None; revenueGrowth := None; ebitdaGrowth := None;
     profitGrowth := None; marketCapGrowth := None; priceToSales := None;
     cfoToEbitda := None; cfoToPat := None; priceToBook := Some 2.5%float |}.

Definition holding (sym : string) (price quantity invested : float) : PortfolioHolding :=
  {| symbol := sym; companyName := sym; sector := "Financials";
     fixed := {| purchasePrice := price; qty := quantity; investment := invested;
                 portfolioPercent := "5%"; stage2 := false |};
     realtime := {| cmp := price; presentValue := invested; gainLoss := 0;
                    gainLossPercent := "0.00%"; marketCap := 1000;
                    lastUpdated := None; priceSource := None |};
     fundamentals := baseline |}.

Definition hdfc : PortfolioHolding := holding "HDFCBANK" 100 10 1000.
Definition unknown : PortfolioHolding := holding "UNKNOWN" 50 4 200.
Definition failing : PortfolioHolding := holding "500112" 300 2 600.
Definition gifted : PortfolioHolding := holding "HDFCBANK" 0 10 0.

Definition portfolio : list PortfolioHolding := [hdfc; unknown; failing].
Definition portfolioWithGift : list PortfolioHolding := [hdfc; unknown; gifted].

(** A first run: no cache file yet. *)
Definition world0 : World :=
  {| now := 1767605400000; writable := true; scripcodeFile := None;
     priceFile := None; fundamentalsFile := None; log := [] |}.

(** Twenty-five identifiers, ["500010"] to ["500034"]. *)
Definition twentyFive : list string :=
  (fun n => ("5000" ++ NilZero.string_of_uint (Nat.to_uint (10 + n)))%string) <$> seq 0 25.

Definition run (holdings : list PortfolioHolding) : list PortfolioHolding * World :=
  getPortfolioWithRealtimeData holdings parseFloat numberToString isoNow
    fetchHeaderData fetchComHeader searchBSEScripcode id id world0.

End Sample.

(** ** Route handlers (app/api/bse/route.ts, app/api/bse/fundamentals/route.ts) *)

Module Routes.

(** The body of a response: [{ error }] or the record itself. *)
Inductive Body (Data : Type) : Type :=
| ErrorBody (error : string)
| DataBody (data : Data).
Arguments ErrorBody {Data} error.
Arguments DataBody {Data} data.

Record NextResponse (Data : Type) : Type := mkNextResponse {
  status : Z;
  body : Body Data
}.
Arguments mkNextResponse {Data} status body.
Arguments status {Data} n.
Arguments body {Data} n.

(** [NextResponse.json(body, { status })]; the status is 200 when the
    second argument is left out. *)
Definition json {Data : Type} (b : Body Data) (init : option Z) : NextResponse Data :=
  {| status := default 200 init; body := b |}.

(** The two [GET] handlers are the same text but for the fetcher and for
    the message of a failed fetch.  [scripcode] is
    [searchParams.get('scripcode')]. *)
Section Handler.
Context {Data : Type} (fetchOne : string -> option Data) (failed : string).

Definition handler (scripcode : option string) : NextResponse Data :=
  match scripcode with
  | Some sc =>
      if negb (Js.truthy scripcode)
      then json (ErrorBody "scripcode parameter is required") (Some 400)
      else if negb (BseIndia.isBSEScripcode sc)
      then json (ErrorBody "Invalid scripcode format. Must be numeric.") (Some 400)
      else
        tryCatch
          (let data := fetchOne sc in
           match data with
           | None => Ok (json (ErrorBody failed) (Some 500))
           | Some d => Ok (json (DataBody d) None)
           end)
          (fun _ => json (ErrorBody "Internal server error") (Some 500))
  | None => json (ErrorBody "scripcode parameter is required") (Some 400)
  end.
End Handler.

(** GET /api/bse?scripcode=... *)
Module Bse.
Definition GET (parseFloat : string -> float) (isoNow : string)
    (fetchHeaderData : string -> Result (BseIndia.Response BseIndia.BSEResponse))
    (scripcode : option string) : NextResponse BseIndia.BSEStockData :=
  handler (BseIndia.fetchBSEData parseFloat isoNow fetchHeaderData)
    "Failed to fetch data from BSE API" scripcode.
End Bse.

(** GET /api/bse/fundamentals?scripcode=... *)
Module Fundamentals.
Definition GET (parseFloat : string -> float)
    (fetchComHeader :
       string -> Result (BseIndia.Response BseIndia.BSEFundamentalsResponse))
    (scripcode : option string) : NextResponse BseIndia.BSEFundamentalsData :=
  handler (BseIndia.fetchBSEFundamentals parseFloat fetchComHeader)
    "Failed to fetch fundamentals from BSE API" scripcode.
End Fundamentals.

End Routes.

(** ** Formatting (utils/helpers.ts) *)

Module Helpers.

(** The rupee sign: one code unit (U+20B9) in the source, its three
    UTF-8 bytes here.  Nothing below looks into it. *)
Definition rupee : string := "₹".

Section Helpers.
Context (numberToString : float -> string).

Definition formatCurrency (value : float) : string :=
  if PrimFloat.leb 10000000 value
  then (rupee ++ Js.toFixed numberToString 2 (value / 10000000) ++ "Cr")%string
  else if PrimFloat.leb 100000 value
  then (rupee ++ Js.toFixed numberToString 2 (value / 100000) ++ "L")%string
  else if PrimFloat.leb 1000 value
  then (rupee ++ Js.toFixed numberToString 2 (value / 1000) ++ "K")%string
  else (rupee ++ Js.toFixed numberToString 2 value)%string.

(** [value: string | number] *)
Definition formatPercentage (value : string + float) : string :=
  match value with
  | inl s => s
  | inr x =>
      ((if PrimFloat.leb 0 x then "+" else "")
         ++ Js.toFixed numberToString 2 x ++ "%")%string
  end.
End Helpers.
End Helpers.

(** ** Sector summaries (stockData.ts) *)

Module StockData.

Record SectorSummary : Type := mkSectorSummary {
  sector : string;
  totalInvestment : float;
  totalPresentValue : float;
  totalGainLoss : float;
  holdings : list PortfolioData.PortfolioHolding
}.

(** [holding.sector || 'Others'] *)
Definition sectorOf (holding : PortfolioData.PortfolioHolding) : string :=
  Js.orElse (Some (PortfolioData.sector holding)) "Others".

(** [sectorMap], a [Map] from a sector to its holdings: the entries in
    the order in which their keys were first set. *)
Definition has (sector : string)
    (sectorMap : list (string * list PortfolioData.PortfolioHolding)) : bool :=
  bool_decide (sector ∈ sectorMap.*1).

(** [sectorMap.get(sector)!.push(holding)] *)
Definition push (sector : string) (holding : PortfolioData.PortfolioHolding)
    (sectorMap : list (string * list PortfolioData.PortfolioHolding))
  : list (string * list PortfolioData.PortfolioHolding) :=
  (fun entry => if decide (entry.1 = sector) then (entry.1, entry.2 ++ [holding])
                else entry) <$> sectorMap.

Definition groupBySector (holdings : list PortfolioData.PortfolioHolding)
  : list (string * list PortfolioData.PortfolioHolding) :=
  foldl
    (fun sectorMap holding =>
       let sector := sectorOf holding in
       let sectorMap :=
         if has sector sectorMap then sectorMap else sectorMap ++ [(sector, [])] in
       push sector holding sectorMap)
    [] holdings.

Definition summarize (entry : string * list PortfolioData.PortfolioHolding)
  : SectorSummary :=
  let '(sector, holdings) := entry in
  let totalInvestment :=
    foldl (fun sum h => (sum + PortfolioData.investment (PortfolioData.fixed h))%float)
      0%float holdings in
  let totalPresentValue :=
    foldl (fun sum h =>
             (sum + PortfolioData.presentValue (PortfolioData.realtime h))%float)
      0%float holdings in
  let totalGainLoss := (totalPresentValue - totalInvestment)%float in
  {| sector := sector; totalInvestment := totalInvestment;
     totalPresentValue := totalPresentValue; totalGainLoss := totalGainLoss;
     holdings := holdings |}.

Section Sorted.
(** [Array.prototype.sort] with a comparator: it rearranges the array;
    the order it gives for a comparator that is not consistent (a
    [NaN] difference) is left to the engine. *)
Context (sort : (SectorSummary -> SectorSummary -> float) ->
                list SectorSummary -> list SectorSummary).

Definition getSectorSummaries (holdings : list PortfolioData.PortfolioHolding)
  : list SectorSummary :=
  let summaries := summarize <$> groupBySector holdings in
  sort (fun a b => (totalInvestment b - totalInvestment a)%float) summaries.
End Sorted.
End StockData.

(** ** More of the small portfolio *)

Module MoreSamples.

(** A sort to run [getSectorSummaries] with: an insertion sort that keeps
    the order of two elements the comparator does not tell apart, as
    [Array.prototype.sort] does. *)
Section SortBy.
Context {A : Type} (compareFn : A -> A -> float).

Fixpoint insertBy (x : A) (sorted : list A) : list A :=
  match sorted with
  | [] => [x]
  | y :: rest =>
      if PrimFloat.ltb 0 (compareFn y x) then x :: y :: rest
      else y :: insertBy x rest
  end.

Definition sortBy (l : list A) : list A :=
  foldl (fun sorted x => insertBy x sorted) [] l.
End SortBy.

(** The world after a run on a portfolio of one holding: the price file
    and the fundamentals file are warm for a second run. *)
Definition warm : PortfolioData.World := (Sample.run [Sample.hdfc]).2.

(** Two holdings of one sector and, between them, one without a sector. *)
Definition bySector : list PortfolioData.PortfolioHolding :=
  [Sample.hdfc;
   {| PortfolioData.symbol := "TCS"; PortfolioData.companyName := "TCS";
      PortfolioData.sector := "";
      PortfolioData.fixed := PortfolioData.fixed Sample.unknown;
      PortfolioData.realtime := PortfolioData.realtime Sample.unknown;
      PortfolioData.fundamentals := Sample.baseline |};
   Sample.failing].
End MoreSamples.

(** * Properties *)

(** ** The builtins on small inputs *)

Example toFixed_examples :
  Js.toFixed Sample.numberToString 2 20 = "20.00"%string
  /\ Js.toFixed Sample.numberToString 2 0 = "0.00"%string
  /\ Js.toFixed Sample.numberToString 2 (-12.5) = "-12.50"%string
  /\ Js.toFixed Sample.numberToString 2 0.125 = "0.13"%string
  /\ Js.toFixed Sample.numberToString 2 (-0.001953125) = "-0.00"%string
  /\ Js.toFixed Sample.numberToString 2 nan = "NaN"%string
  /\ Js.toFixed Sample.numberToString 2 infinity = "Infinity"%string
  /\ Js.toFixed Sample.numberToString 0 2.5 = "3"%string.
Proof. repeat split. Qed.

Example isBSEScripcode_examples :
  BseIndia.isBSEScripcode "500180" = true
  /\ BseIndia.isBSEScripcode "HDFCBANK" = false
  /\ BseIndia.isBSEScripcode "" = false
  /\ BseIndia.isBSEScripcode "50 0180" = false.
Proof. repeat split. Qed.

Example uniq_example :
  PortfolioData.uniq ["TCS"; "INFY"; "TCS"; "HDFCBANK"; "INFY"]%string
  = ["TCS"; "INFY"; "HDFCBANK"]%string.
Proof. reflexivity. Qed.

(** ** Maps filled entry by entry *)

Section SetAll.
Context {V : Type}.

Lemma setAll_cons (k : string) (v : V) (l : list (string * V)) (m : gmap string V) :
  setAll ((k, v) :: l) m = setAll l (<[k := v]> m).
Proof. reflexivity. Qed.

Lemma setAll_union (entries : list (string * V)) (m : gmap string V) :
  NoDup entries.*1 -> setAll entries m = list_to_map entries ∪ m.
Proof.
  revert m. induction entries as [|[k v] l IH]; intros m Hnd.
  - cbn. by rewrite (left_id_L ∅ (∪)).
  - apply NoDup_cons in Hnd as [Hk Hl].
    rewrite setAll_cons, (IH _ Hl). cbn.
    rewrite <- insert_union_l. rewrite insert_union_r; [done|].
    by apply not_elem_of_list_to_map_1.
Qed.

Lemma setAll_map_to_list (c m : gmap string V) :
  setAll (map_to_list c) m = c ∪ m.
Proof.
  rewrite setAll_union; [|apply NoDup_fst_map_to_list].
  by rewrite list_to_map_to_list.
Qed.

Lemma setAll_copy (c : gmap string V) : setAll (map_to_list c) ∅ = c.
Proof. by rewrite setAll_map_to_list, (right_id_L ∅ (∪)). Qed.

Lemma foldl_insert_with {A : Type} (g : A -> V) (l : list (string * A))
    (acc : gmap string V) :
  foldl (fun obj entry => <[entry.1 := g entry.2]> obj) acc l
  = setAll (prod_map id g <$> l) acc.
Proof.
  revert acc. induction l as [|[k a] l IH]; intros acc; [done|].
  cbn. rewrite IH. reflexivity.
Qed.

Lemma stamped_map_to_list {A : Type} (g : A -> V) (m : gmap string A) :
  setAll (prod_map id g <$> map_to_list m) ∅ = g <$> m.
Proof.
  rewrite setAll_union.
  - by rewrite (right_id_L ∅ (∪)), list_to_map_fmap, list_to_map_to_list.
  - rewrite <- list_fmap_compose.
    rewrite (list_fmap_ext _ fst (map_to_list m)); [|by intros []].
    apply NoDup_fst_map_to_list.
Qed.

(** What [setAll] leaves at a key depends on what the map had at that
    key only. *)
Lemma setAll_lookup_ext (entries : list (string * V)) (m1 m2 : gmap string V)
    (k : string) :
  m1 !! k = m2 !! k -> setAll entries m1 !! k = setAll entries m2 !! k.
Proof.
  revert m1 m2. induction entries as [|[k0 v0] l IH]; intros m1 m2 Heq; [done|].
  rewrite !setAll_cons. apply IH.
  destruct (decide (k0 = k)) as [->|Hne].
  - by rewrite !lookup_insert_eq.
  - by rewrite !lookup_insert_ne.
Qed.

(** Assignments make the own properties [Map.set] would make, but for
    the key ["__proto__"], which stays as it was. *)
Lemma assignAll_lookup (entries : list (string * V)) (obj : gmap string V)
    (k : string) :
  assignAll entries obj !! k =
    if decide (k = "__proto__"%string) then obj !! k else setAll entries obj !! k.
Proof.
  revert obj. induction entries as [|[k0 v0] l IH]; intros obj.
  - cbn. by destruct (decide _).
  - change (assignAll ((k0, v0) :: l) obj)
      with (assignAll l (assignProperty k0 v0 obj)).
    rewrite IH, setAll_cons. unfold assignProperty.
    destruct (decide (k = "__proto__"%string)) as [->|Hk].
    + destruct (decide (k0 = "__proto__"%string)) as [->|Hk0]; [done|].
      by rewrite lookup_insert_ne.
    + destruct (decide (k0 = "__proto__"%string)) as [->|Hk0]; [|done].
      apply setAll_lookup_ext. by rewrite lookup_insert_ne.
Qed.

Lemma assignAll_map_to_list (m : gmap string V) :
  assignAll (map_to_list m) ∅ = delete "__proto__"%string m.
Proof.
  apply map_eq. intros k. rewrite assignAll_lookup, setAll_copy.
  destruct (decide (k = "__proto__"%string)) as [->|Hk].
  - by rewrite lookup_empty, lookup_delete_eq.
  - by rewrite lookup_delete_ne.
Qed.

Lemma foldl_assign_with {A : Type} (g : A -> V) (m : gmap string A) :
  foldl (fun obj entry => assignProperty entry.1 (g entry.2) obj) ∅ (map_to_list m)
  = g <$> delete "__proto__"%string m.
Proof.
  assert (Hfold : forall (l : list (string * A)) (acc : gmap string V),
            foldl (fun obj entry => assignProperty entry.1 (g entry.2) obj) acc l
            = assignAll (prod_map id g <$> l) acc).
  { induction l as [|[k a] l IH]; intros acc; [done|]. cbn. by rewrite IH. }
  rewrite Hfold. apply map_eq. intros k.
  rewrite assignAll_lookup, stamped_map_to_list, !lookup_fmap.
  destruct (decide (k = "__proto__"%string)) as [->|Hk].
  - by rewrite lookup_empty, lookup_delete_eq.
  - by rewrite lookup_delete_ne.
Qed.
End SetAll.

(** ** Price cache *)

Section PriceCacheFacts.
Context {Data : Type} (reparse : Data -> Data).
Import PriceCache.

Let keep (now : Z) (result : gmap string Data) (entry : string * @CachedPrice Data) :=
  let '(scripcode, cachedPrice) := entry in
  if isPriceCacheValid now (timestamp cachedPrice)
  then <[scripcode := data cachedPrice]> result
  else result.

Lemma keep_fold_lookup (now : Z) (l : list (string * @CachedPrice Data))
    (acc : gmap string Data) (k : string) :
  NoDup l.*1 ->
  foldl (keep now) acc l !! k =
    match (list_to_map l : gmap string CachedPrice) !! k with
    | Some cp =>
        if isPriceCacheValid now (timestamp cp) then Some (data cp) else acc !! k
    | None => acc !! k
    end.
Proof.
  revert acc. induction l as [|[k' cp] l IH]; intros acc Hnd; [done|].
  apply NoDup_cons in Hnd as [Hk' Hl]. cbn [foldl list_to_map foldr].
  rewrite (IH _ Hl). cbn [fst snd].
  destruct (decide (k' = k)) as [->|Hne].
  - rewrite lookup_insert_eq, (not_elem_of_list_to_map_1 _ _ Hk').
    unfold keep. destruct (isPriceCacheValid now (timestamp cp)); [|done].
    by rewrite lookup_insert_eq.
  - rewrite lookup_insert_ne by done.
    assert (keep now acc (k', cp) !! k = acc !! k) as ->; [|done].
    unfold keep. destruct (isPriceCacheValid now (timestamp cp)); [|done].
    by rewrite lookup_insert_ne.
Qed.

(** What [loadPriceCache] returns for a key of a parsed document. *)
Lemma loadPriceCache_lookup (now : Z) (doc : gmap string (@CachedPrice Data)) (k : string) :
  loadPriceCache now (Some (Json doc)) !! k =
    match doc !! k with
    | Some cp => if isPriceCacheValid now (timestamp cp) then Some (data cp) else None
    | None => None
    end.
Proof.
  unfold loadPriceCache, loadPriceCacheBody. cbn.
  rewrite (keep_fold_lookup now (map_to_list doc) ∅ k (NoDup_fst_map_to_list doc)).
  rewrite list_to_map_to_list, lookup_empty. reflexivity.
Qed.

(** The document [savePriceCache] writes on a disk that takes writes. *)
Lemma savePriceCache_written (t : Z) (prices : gmap string Data)
    (f : CacheFile (gmap string (@CachedPrice Data))) :
  savePriceCache reparse true t prices f =
    Some (Json ((fun d => mkCachedPrice t (reparse d))
                  <$> delete "__proto__"%string prices)).
Proof.
  unfold savePriceCache. cbn.
  by rewrite (foldl_assign_with (fun d => mkCachedPrice t (reparse d))).
Qed.

(** C5: an entry written to the price store at time [t], under a key
    other than ["__proto__"] (an assignment to that key makes no entry
    of the document), is returned by [loadPriceCache] at every read time
    before [t + 2 min] (so at [t + duration - 1]); an entry written at
    time [t] is returned at no read time from [t + 2 min] on (so not at
    [t + duration + 1]); on any document an entry is returned exactly
    when [now - timestamp < duration]. *)
Theorem price_ttl_boundary (t now : Z) (prices : gmap string Data)
    (f : CacheFile (gmap string (@CachedPrice Data))) (k : string) (d : Data) :
  prices !! k = Some d ->
  let saved := savePriceCache reparse true t prices f in
  (k <> "__proto__"%string -> now < t + PRICE_CACHE_DURATION_MS ->
     loadPriceCache now saved !! k = Some (reparse d))
  /\ (t + PRICE_CACHE_DURATION_MS <= now -> loadPriceCache now saved !! k = None)
  /\ (k <> "__proto__"%string ->
      loadPriceCache (t + PRICE_CACHE_DURATION_MS - 1) saved !! k = Some (reparse d))
  /\ loadPriceCache (t + PRICE_CACHE_DURATION_MS + 1) saved !! k = None
  /\ (forall (doc : gmap string (@CachedPrice Data)) (x : Data),
        loadPriceCache now (Some (Json doc)) !! k = Some x <->
        exists cp, doc !! k = Some cp /\ data cp = x
                   /\ now - timestamp cp < PRICE_CACHE_DURATION_MS).
Proof.
  intros Hk saved.
  assert (Hload : forall n, loadPriceCache n saved !! k =
                            if decide (k = "__proto__"%string) then None
                            else if isPriceCacheValid n t then Some (reparse d)
                                 else None).
  { intros n. unfold saved. rewrite savePriceCache_written, loadPriceCache_lookup.
    rewrite lookup_fmap. destruct (decide (k = "__proto__"%string)) as [->|Hne].
    - by rewrite lookup_delete_eq.
    - rewrite lookup_delete_ne by done. rewrite Hk. reflexivity. }
  unfold isPriceCacheValid in Hload.
  repeat split.
  - intros Hne Hlt. rewrite Hload, decide_False by done.
    by rewrite (proj2 (Z.ltb_lt _ _)) by lia.
  - intros Hge. rewrite Hload. rewrite (proj2 (Z.ltb_ge _ _)) by lia.
    by destruct (decide _).
  - intros Hne. rewrite Hload, decide_False by done.
    by rewrite (proj2 (Z.ltb_lt _ _)) by lia.
  - rewrite Hload. rewrite (proj2 (Z.ltb_ge _ _)) by lia. by destruct (decide _).
  - rewrite loadPriceCache_lookup. unfold isPriceCacheValid.
    destruct (doc !! k) as [cp|]; [|done].
    destruct (Z.ltb_spec (now - timestamp cp) PRICE_CACHE_DURATION_MS); [|done].
    intros [= <-]. by exists cp.
  - rewrite loadPriceCache_lookup. unfold isPriceCacheValid.
    intros (cp & -> & <- & Hlt). by rewrite (proj2 (Z.ltb_lt _ _)) by lia.
Qed.
End PriceCacheFacts.

(** ** Fundamentals cache *)

Section FundamentalsCacheFacts.
Context {Data : Type} (reparse : Data -> Data).
Import FundamentalsCache.

Lemma saveFundamentalsCache_written (t : Z) (m : gmap string Data)
    (f : CacheFile (@CachedFundamentals Data)) :
  saveFundamentalsCache reparse true t m f =
    Some (Json {| timestamp := Some t;
                  data := Some (DataArray (prod_map id reparse <$> map_to_list m)) |}).
Proof. reflexivity. Qed.

Lemma loadFundamentalsCache_document (now : Z) (doc : @CachedFundamentals Data) :
  loadFundamentalsCache now (Some (Json doc)) =
    match timestamp doc, data doc with
    | Some ts, Some d =>
        if negb (ts =? 0) && isCacheValid now ts then Some (entriesOf d) else None
    | _, _ => None
    end.
Proof.
  unfold loadFundamentalsCache, loadFundamentalsCacheBody. cbn.
  destruct (timestamp doc) as [[| |]|], (data doc) as [d|]; cbn; try done.
  all: by destruct (isCacheValid now _).
Qed.

Lemma loadFundamentalsCache_saved (now t : Z) (m : gmap string Data)
    (f : CacheFile (@CachedFundamentals Data)) :
  t <> 0 ->
  loadFundamentalsCache now (saveFundamentalsCache reparse true t m f) =
    if isCacheValid now t then Some (reparse <$> m) else None.
Proof.
  intros Ht. rewrite saveFundamentalsCache_written, loadFundamentalsCache_document.
  cbn. rewrite (proj2 (Z.eqb_neq t 0) Ht). cbn.
  by rewrite stamped_map_to_list.
Qed.

(** C1, as amended: the fundamentals store keeps one write time for the
    whole document.  [saveFundamentalsCache] stamps the document once;
    [loadFundamentalsCache] returns every saved entry while the document
    is younger than 24 hours and [null] from then on; on any document
    what it returns is [null] or all the entries of the document. *)
Theorem fundamentals_whole_document (now t : Z) (m : gmap string Data)
    (f : CacheFile (@CachedFundamentals Data)) :
  t <> 0 ->
  let saved := saveFundamentalsCache reparse true t m f in
  saved = Some (Json {| timestamp := Some t;
                        data := Some (DataArray (prod_map id reparse <$> map_to_list m)) |})
  /\ (now - t < CACHE_DURATION_MS ->
        loadFundamentalsCache now saved = Some (reparse <$> m))
  /\ (CACHE_DURATION_MS <= now - t -> loadFundamentalsCache now saved = None)
  /\ (forall (doc : @CachedFundamentals Data) (r : gmap string Data),
        loadFundamentalsCache now (Some (Json doc)) = Some r ->
        exists ts d, timestamp doc = Some ts /\ data doc = Some d
                     /\ now - ts < CACHE_DURATION_MS /\ r = entriesOf d).
Proof.
  intros Ht saved. split; [reflexivity|].
  unfold saved. rewrite (loadFundamentalsCache_saved now t m f Ht).
  unfold isCacheValid. repeat split.
  - intros Hlt. by rewrite (proj2 (Z.ltb_lt _ _) Hlt).
  - intros Hge. by rewrite (proj2 (Z.ltb_ge _ _) Hge).
  - intros doc r. rewrite loadFundamentalsCache_document.
    destruct (timestamp doc) as [ts|]; [|done].
    destruct (data doc) as [d|]; [|done].
    destruct (negb (ts =? 0)); [|done]. cbn. unfold isCacheValid.
    destruct (Z.ltb_spec (now - ts) CACHE_DURATION_MS); [|done].
    intros [= <-]. by exists ts, d.
Qed.
End FundamentalsCacheFacts.

Lemma fundamentals_whole_document_witness :
  FundamentalsCache.loadFundamentalsCache 5000
    (FundamentalsCache.saveFundamentalsCache id true 1000 {["500180" := 7%nat]} None)
  = Some (id <$> {["500180" := 7%nat]}).
Proof.
  apply (fundamentals_whole_document id 5000 1000 {["500180" := 7%nat]} None);
    [lia | reflexivity].
Defined.

(** C1, as stated, fails.  One day after a mapping is saved the per-entry
    store of the specification returns a mapping (with no entry), while
    [loadFundamentalsCache] returns [null]: the document has expired as a
    whole.  In the per-entry store one entry of a document can have
    expired and another not; [loadFundamentalsCache] returns [null] or all
    the entries of the document, whatever the document and the time. *)
Lemma fundamentals_not_per_entry :
  let m : gmap string nat := {["500180" := 7%nat; "532174" := 9%nat]} in
  let t := 1000 in
  let now := t + 24 * 60 * 60 * 1000 in
  FundamentalsCache.loadFundamentalsCache now
    (FundamentalsCache.saveFundamentalsCache id true t m None) = None
  /\ PerEntryStore.load now (PerEntryStore.save id t m) = ∅
  /\ FundamentalsCache.loadFundamentalsCache now
       (FundamentalsCache.saveFundamentalsCache id true t m None)
     <> Some (PerEntryStore.load now (PerEntryStore.save id t m))
  /\ PerEntryStore.load now
       {[ "500180" := PerEntryStore.mkEntry t 7%nat;
          "532174" := PerEntryStore.mkEntry (t + 1) 9%nat ]}
     = {[ "532174" := 9%nat ]}
  /\ (forall (clock : Z) (doc : @FundamentalsCache.CachedFundamentals nat)
             (r : gmap string nat),
        FundamentalsCache.loadFundamentalsCache clock (Some (Json doc)) = Some r ->
        exists d, FundamentalsCache.data doc = Some d
                  /\ r = FundamentalsCache.entriesOf d).
Proof.
  split; [by vm_compute|]. split; [by vm_compute|]. split; [by vm_compute|].
  split; [by vm_compute|].
  intros clock doc r. rewrite loadFundamentalsCache_document.
  destruct (FundamentalsCache.timestamp doc) as [ts|]; [|done].
  destruct (FundamentalsCache.data doc) as [d|]; [|done].
  destruct (negb (ts =? 0) && FundamentalsCache.isCacheValid clock ts); [|done].
  intros [= <-]. by exists d.
Qed.

(** ** All three stores *)

(** C6: [load] on a missing, a blank or an unparsable cache file returns
    the empty result (an empty map; [null] for the fundamentals store),
    and an exception raised while loading never leaves [load]. *)
Theorem load_recovers {P F : Type} (now : Z) :
  (ScripcodeCache.loadScripcodeCache None = ∅
   /\ ScripcodeCache.loadScripcodeCache (Some Whitespace) = ∅
   /\ ScripcodeCache.loadScripcodeCache (Some Malformed) = ∅)
  /\ (@PriceCache.loadPriceCache P now None = ∅
      /\ @PriceCache.loadPriceCache P now (Some Whitespace) = ∅
      /\ @PriceCache.loadPriceCache P now (Some Malformed) = ∅)
  /\ (@FundamentalsCache.loadFundamentalsCache F now None = None
      /\ @FundamentalsCache.loadFundamentalsCache F now (Some Whitespace) = None
      /\ @FundamentalsCache.loadFundamentalsCache F now (Some Malformed) = None)
  /\ (forall f e, ScripcodeCache.loadScripcodeCacheBody f = Throw e ->
                  ScripcodeCache.loadScripcodeCache f = ∅)
  /\ (forall f e, @PriceCache.loadPriceCacheBody P now f = Throw e ->
                  PriceCache.loadPriceCache now f = ∅)
  /\ (forall f e, @FundamentalsCache.loadFundamentalsCacheBody F now f = Throw e ->
                  FundamentalsCache.loadFundamentalsCache now f = None).
Proof.
  repeat split; try reflexivity.
  - intros f e H. unfold ScripcodeCache.loadScripcodeCache. by rewrite H.
  - intros f e H. unfold PriceCache.loadPriceCache. by rewrite H.
  - intros f e H. unfold FundamentalsCache.loadFundamentalsCache. by rewrite H.
Qed.

(** ** Fetch loops *)

Section BatchLoopFacts.
Context {R : Type} (fetchOne : string -> option R).
Import BseIndia.

Lemma batchLoop_step (l : list string) (i : nat) (res : gmap string R)
    (tr : list Event) :
  batchLoop fetchOne l i res tr =
    if decide (i < length l)%nat then
      let batch := slice i (i + BATCH_SIZE) l in
      batchLoop fetchOne l (i + BATCH_SIZE)
        (collect res (batchPromise fetchOne <$> batch))
        (if decide (i + BATCH_SIZE < length l)%nat
         then (tr ++ [FetchBatch batch]) ++ [Delay BATCH_DELAY_MS]
         else tr ++ [FetchBatch batch])
    else (res, tr).
Proof.
  rewrite batchLoop_equation_1.
  destruct (decide (i < length l)%nat); reflexivity.
Qed.

Lemma collect_lookup (batch : list string) (res : gmap string R) (sc : string) :
  collect res (batchPromise fetchOne <$> batch) !! sc =
    if decide (sc ∈ batch) then merged fetchOne res sc else res !! sc.
Proof.
  revert res. induction batch as [|b bs IH]; intros res.
  - cbn. by rewrite decide_False by apply not_elem_of_nil.
  - cbn [fmap list_fmap]. unfold collect. cbn [foldl].
    fold (collect (match (batchPromise fetchOne b).2 with
                   | Some d => <[(batchPromise fetchOne b).1 := d]> res
                   | None => res
                   end) (batchPromise fetchOne <$> bs)).
    rewrite IH. unfold merged, batchPromise. cbn.
    destruct (decide (sc = b)) as [->|Hne].
    + rewrite (decide_True (P := b ∈ b :: bs)) by (apply elem_of_cons; by left).
      destruct (fetchOne b) as [d|] eqn:Hb.
      * destruct (decide (b ∈ bs)); [done|]. by rewrite lookup_insert_eq.
      * by destruct (decide (b ∈ bs)).
    + assert (Hsame : (match fetchOne b with
                       | Some d => <[b := d]> res
                       | None => res
                       end) !! sc = res !! sc).
      { destruct (fetchOne b); [|done]. by rewrite lookup_insert_ne. }
      rewrite Hsame.
      destruct (decide (sc ∈ bs)) as [Hin|Hnin].
      * by rewrite decide_True by (apply elem_of_cons; by right).
      * rewrite decide_False; [done|].
        intros [?|?]%elem_of_cons; done.
Qed.

Lemma slice_drop (l : list string) (i : nat) :
  drop i l = slice i (i + BATCH_SIZE) l ++ drop (i + BATCH_SIZE) l.
Proof.
  unfold slice. replace (i + BATCH_SIZE - i)%nat with BATCH_SIZE by lia.
  rewrite <- (drop_drop l BATCH_SIZE i). by rewrite take_drop.
Qed.

Lemma batchLoop_lookup (l : list string) (i : nat) (res : gmap string R)
    (tr : list Event) (sc : string) :
  (batchLoop fetchOne l i res tr).1 !! sc =
    if decide (sc ∈ drop i l) then merged fetchOne res sc else res !! sc.
Proof.
  remember (length l - i)%nat as n eqn:Hn.
  revert i res tr Hn. induction (lt_wf n) as [n _ IH]. intros i res tr ->.
  rewrite batchLoop_step.
  destruct (decide (i < length l)%nat) as [Hlt|Hge].
  - cbn zeta.
    rewrite (IH (length l - (i + BATCH_SIZE))%nat) by (unfold BATCH_SIZE; lia || done).
    rewrite (slice_drop l i).
    unfold merged. rewrite collect_lookup. unfold merged.
    destruct (decide (sc ∈ drop (i + BATCH_SIZE) l)) as [Hd|Hd],
             (decide (sc ∈ slice i (i + BATCH_SIZE) l)) as [Hs|Hs].
    + rewrite decide_True by (apply elem_of_app; by left).
      by destruct (fetchOne sc).
    + by rewrite decide_True by (apply elem_of_app; by right).
    + by rewrite decide_True by (apply elem_of_app; by left).
    + rewrite decide_False; [done|]. by intros [?|?]%elem_of_app.
  - cbn. rewrite drop_ge by lia.
    by rewrite decide_False by apply not_elem_of_nil.
Qed.

(** The map a fetch loop returns holds, for every identifier of the
    list, what its own fetch returned, and nothing else. *)
Lemma fetchMultiple_lookup (l : list string) (sc : string) :
  (fetchMultiple fetchOne l).1 !! sc =
    if decide (sc ∈ l) then fetchOne sc else None.
Proof.
  unfold fetchMultiple. destruct (decide (length l = 0%nat)) as [H0|Hn0].
  - apply nil_length_inv in H0 as ->. cbn.
    by rewrite decide_False by apply not_elem_of_nil.
  - rewrite batchLoop_lookup, drop_0. unfold merged.
    destruct (decide (sc ∈ l)); [|done]. by destruct (fetchOne sc).
Qed.
End BatchLoopFacts.

Section ScheduleFacts.
Context {R : Type} (fetchOne : string -> option R).
Import BseIndia.

Lemma batchCount_more (n j : nat) :
  (j * BATCH_SIZE < n)%nat <-> (j < batchCount n)%nat.
Proof.
  unfold batchCount, BATCH_SIZE. cbn [Nat.sub].
  pose proof (Nat.div_mod_eq (n + 9) 10) as Hdm.
  pose proof (Nat.mod_upper_bound (n + 9) 10) as Hmod.
  lia.
Qed.

(** The steps of the loop from batch number [j] on. *)
Lemma batchLoop_steps (l : list string) (count j : nat) (res : gmap string R)
    (tr : list Event) :
  (j + count)%nat = Nat.max j (batchCount (length l)) ->
  (batchLoop fetchOne l (j * BATCH_SIZE) res tr).2 = tr ++ schedule l j count.
Proof.
  revert j res tr. induction count as [|c IH]; intros j res tr Hc.
  - rewrite (batchLoop_step fetchOne).
    rewrite decide_False by (rewrite batchCount_more; lia).
    cbn. by rewrite app_nil_r.
  - rewrite (batchLoop_step fetchOne).
    rewrite decide_True by (rewrite batchCount_more; lia).
    cbn zeta.
    replace (j * BATCH_SIZE + BATCH_SIZE)%nat with (S j * BATCH_SIZE)%nat by lia.
    rewrite IH by lia.
    destruct c as [|c'].
    + rewrite decide_False by (rewrite batchCount_more; lia).
      cbn. replace (j * BATCH_SIZE + BATCH_SIZE)%nat with (S j * BATCH_SIZE)%nat by lia.
      by rewrite app_nil_r.
    + rewrite decide_True by (rewrite batchCount_more; lia).
      cbn [schedule].
      replace (j * BATCH_SIZE + BATCH_SIZE)%nat with (S j * BATCH_SIZE)%nat by lia.
      by rewrite <- !app_assoc.
Qed.

Lemma fetchMultiple_steps (l : list string) :
  (fetchMultiple fetchOne l).2 = schedule l 0 (batchCount (length l)).
Proof.
  unfold fetchMultiple. destruct (decide (length l = 0%nat)) as [H0|Hn0].
  - by rewrite H0.
  - change 0%nat with (0 * BATCH_SIZE)%nat at 1.
    rewrite (batchLoop_steps l (batchCount (length l)) 0) by lia.
    reflexivity.
Qed.

Lemma batchesOf_schedule (l : list string) (count j : nat) :
  batchesOf (schedule l j count) =
    (fun q => slice (q * BATCH_SIZE) (q * BATCH_SIZE + BATCH_SIZE) l) <$> seq j count.
Proof.
  revert j. induction count as [|c IH]; intros j; [done|].
  cbn [schedule seq fmap list_fmap]. unfold batchesOf. cbn [omap list_omap].
  f_equal. destruct c as [|c']; [done|].
  cbn [omap list_omap]. apply IH.
Qed.

Lemma delaysOf_schedule (l : list string) (count j : nat) :
  delaysOf (schedule l j count) = replicate (pred count) BATCH_DELAY_MS.
Proof.
  revert j. induction count as [|c IH]; intros j; [done|].
  cbn [schedule]. unfold delaysOf. cbn [omap list_omap].
  destruct c as [|c']; [done|].
  cbn [omap list_omap pred replicate]. f_equal.
  apply (IH (S j)).
Qed.

Lemma concat_slices (l : list string) (count j : nat) :
  concat ((fun q => slice (q * BATCH_SIZE) (q * BATCH_SIZE + BATCH_SIZE) l)
            <$> seq j count)
  = take (count * BATCH_SIZE) (drop (j * BATCH_SIZE) l).
Proof.
  revert j. induction count as [|c IH]; intros j; [done|].
  cbn [seq fmap list_fmap concat]. rewrite IH. unfold slice.
  replace (j * BATCH_SIZE + BATCH_SIZE - j * BATCH_SIZE)%nat with BATCH_SIZE by lia.
  replace (S j * BATCH_SIZE)%nat with (j * BATCH_SIZE + BATCH_SIZE)%nat by lia.
  rewrite <- (drop_drop l BATCH_SIZE (j * BATCH_SIZE)).
  rewrite take_take_drop. reflexivity.
Qed.

Lemma slices_bounded (l : list string) (count j : nat) :
  (j + count <= batchCount (length l))%nat ->
  Forall (fun b => (0 < length b <= BATCH_SIZE)%nat)
    ((fun q => slice (q * BATCH_SIZE) (q * BATCH_SIZE + BATCH_SIZE) l) <$> seq j count).
Proof.
  intros Hle. apply Forall_fmap, Forall_forall. intros q Hq%elem_of_seq. cbn.
  unfold slice. rewrite length_take, length_drop.
  assert (q * BATCH_SIZE < length l)%nat by (apply batchCount_more; lia).
  unfold BATCH_SIZE in *. lia.
Qed.

Lemma fetchMultiple_batched (l : list string) :
  BatchedWithDelays l (fetchMultiple fetchOne l).2.
Proof.
  unfold BatchedWithDelays. rewrite fetchMultiple_steps.
  rewrite batchesOf_schedule, delaysOf_schedule, concat_slices.
  split; [reflexivity|]. split.
  { rewrite drop_0. apply take_ge.
    pose proof (proj1 (batchCount_more (length l) (batchCount (length l)))) as H.
    unfold BATCH_SIZE in *. lia. }
  split; [by apply slices_bounded|].
  split; [by rewrite length_fmap, length_seq|].
  split; [reflexivity|].
  intros H25. rewrite H25. cbn. unfold slice. cbn.
  repeat f_equal. apply take_ge. rewrite length_drop. lia.
Qed.
End ScheduleFacts.

Section FetcherFacts.
Context (parseFloat : string -> float)
        (isoNow : string)
        (fetchHeaderData : string -> Result (BseIndia.Response BseIndia.BSEResponse))
        (fetchComHeader :
           string -> Result (BseIndia.Response BseIndia.BSEFundamentalsResponse)).
Import BseIndia.

(** C7: the fetch loops return a map and never an error.  Whatever the
    request for an identifier does (the connection fails, the status is
    not 2xx, the body is not JSON), [fetchBSEData] and
    [fetchBSEFundamentals] return [null] for that identifier; the
    returned map holds an identifier exactly when it is in the list and
    its own fetch returned a record, and it holds that record. *)
Theorem fetchMany_partial_failure (scripcodes : list string) (sc : string) :
  (fetchBSEData parseFloat isoNow fetchHeaderData sc =
     match fetchHeaderData sc with
     | Throw _ => None
     | Ok response =>
         if ok response then
           match json response with
           | Ok data => Some (mapBSEResponseToStockData parseFloat isoNow sc data)
           | Throw _ => None
           end
         else None
     end)
  /\ (fetchBSEFundamentals parseFloat fetchComHeader sc =
        match fetchComHeader sc with
        | Throw _ => None
        | Ok response =>
            if ok response then
              match json response with
              | Ok data => Some (mapBSEFundamentalsResponse parseFloat sc data)
              | Throw _ => None
              end
            else None
        end)
  /\ (forall d,
        (fetchMultipleBSEData parseFloat isoNow fetchHeaderData scripcodes).1 !! sc
          = Some d
        <-> sc ∈ scripcodes
            /\ fetchBSEData parseFloat isoNow fetchHeaderData sc = Some d)
  /\ (forall d,
        (fetchMultipleBSEFundamentals parseFloat fetchComHeader scripcodes).1 !! sc
          = Some d
        <-> sc ∈ scripcodes
            /\ fetchBSEFundamentals parseFloat fetchComHeader sc = Some d).
Proof.
  split; [|split; [|split]].
  - unfold fetchBSEData, tryCatch.
    destruct (fetchHeaderData sc) as [response|e]; [|done]. cbn.
    destruct (ok response); [|done]. cbn.
    by destruct (json response).
  - unfold fetchBSEFundamentals, tryCatch.
    destruct (fetchComHeader sc) as [response|e]; [|done]. cbn.
    destruct (ok response); [|done]. cbn.
    by destruct (json response).
  - intros d. unfold fetchMultipleBSEData. rewrite fetchMultiple_lookup.
    destruct (decide (sc ∈ scripcodes)); [tauto|].
    split; [done|tauto].
  - intros d. unfold fetchMultipleBSEFundamentals. rewrite fetchMultiple_lookup.
    destruct (decide (sc ∈ scripcodes)); [tauto|].
    split; [done|tauto].
Qed.

(** C8: a fetch loop cuts its list into consecutive batches of at most
    10 identifiers, hands each batch as a whole to [Promise.all], and
    pauses 1000 ms after every batch but the last; 25 identifiers make
    3 batches with a pause after the first and after the second only. *)
Theorem fetchMany_batches (scripcodes : list string) :
  BatchedWithDelays scripcodes
    (fetchMultipleBSEData parseFloat isoNow fetchHeaderData scripcodes).2
  /\ BatchedWithDelays scripcodes
       (fetchMultipleBSEFundamentals parseFloat fetchComHeader scripcodes).2.
Proof. split; apply fetchMultiple_batched. Qed.
End FetcherFacts.

(** ** Numeric fields *)

Section ParsingFacts.
Context (parseFloat : string -> float) (isoNow : string).
Import BseIndia.





End ParsingFacts.


(** ** Symbol resolution *)

Section ResolutionFacts.
Context (searchBSEScripcode : string -> option string).
Import PortfolioData.

Local Abbreviation resolve := (resolveBSEScripcode searchBSEScripcode).
Local Abbreviation resolveEach := (resolveAll searchBSEScripcode).

Lemma resolve_symbol (s : string) (c : gmap string string) : (resolve s c).1.1 = s.
Proof.
  unfold resolveBSEScripcode.
  destruct (BseIndia.isBSEScripcode s); [done|].
  destruct (Js.truthy (c !! s)); [done|].
  by destruct (Js.truthy (searchBSEScripcode s)).
Qed.

(** A call writes the cache at its own symbol only. *)
Lemma resolve_other_key (s k : string) (c : gmap string string) :
  k <> s -> (resolve s c).2 !! k = c !! k.
Proof.
  intros Hne. unfold resolveBSEScripcode.
  destruct (BseIndia.isBSEScripcode s); [done|].
  destruct (Js.truthy (c !! s)); [done|].
  destruct (Js.truthy (searchBSEScripcode s)); [|done].
  cbn. by rewrite lookup_insert_ne.
Qed.

(** A call reads the cache at its own symbol only. *)
Lemma resolve_own_key (s : string) (c1 c2 : gmap string string) :
  c1 !! s = c2 !! s -> (resolve s c1).1 = (resolve s c2).1.
Proof.
  intros Heq. unfold resolveBSEScripcode. rewrite Heq.
  destruct (BseIndia.isBSEScripcode s); [done|].
  destruct (Js.truthy (c2 !! s)); [done|].
  by destruct (Js.truthy (searchBSEScripcode s)).
Qed.

Lemma resolveAll_symbols (symbols : list string) (c : gmap string string) :
  (resolveEach symbols c).1.*1 = symbols.
Proof.
  revert c. induction symbols as [|s rest IH]; intros c; [done|].
  cbn [resolveAll].
  destruct (resolve s c) as [r c1] eqn:Hr.
  specialize (IH c1). destruct (resolveEach rest c1) as [rs c2]. cbn in *.
  f_equal; [|done].
  by rewrite <- (resolve_symbol s c), Hr.
Qed.

(** Run in order over distinct symbols, every call returns what it
    returns on the cache as loaded. *)
Lemma resolveAll_result (symbols : list string) (c : gmap string string)
    (s : string) (r : option string) :
  NoDup symbols ->
  (s, r) ∈ (resolveEach symbols c).1 ->
  (resolve s c).1 = (s, r).
Proof.
  revert c. induction symbols as [|s0 rest IH]; intros c Hnd Hin.
  - by apply elem_of_nil in Hin.
  - apply NoDup_cons in Hnd as [Hs0 Hrest]. cbn [resolveAll] in Hin.
    destruct (resolve s0 c) as [r0 c1] eqn:Hr0.
    pose proof (resolveAll_symbols rest c1) as Hsyms.
    specialize (IH c1 Hrest).
    destruct (resolveEach rest c1) as [rs c2]. cbn in *.
    apply elem_of_cons in Hin as [Heq|Hin].
    + subst r0. pose proof (resolve_symbol s0 c) as Hs. rewrite Hr0 in Hs. cbn in Hs.
      subst s0. by rewrite Hr0.
    + assert (s ∈ rest) as Hsrest.
      { rewrite <- Hsyms. apply list_elem_of_fmap. by exists (s, r). }
      rewrite <- (IH Hin). apply resolve_own_key.
      assert (c1 = (resolve s0 c).2) as -> by (by rewrite Hr0).
      symmetry. apply resolve_other_key. by intros ->.
Qed.

(** [symbolToScripcode] holds a scripcode only where a call returned it,
    and never an empty one. *)
Lemma recordResolved_lookup (cache : gmap string string)
    (resolved : list (string * option string)) (s sc : string) :
  (recordResolved cache resolved).1.1 !! s = Some sc ->
  (s, Some sc) ∈ resolved /\ Js.truthy (Some sc) = true.
Proof.
  unfold recordResolved.
  cut (forall acc : gmap string string * gmap string string * list string,
         (foldl
            (fun acc r =>
               let '(symbolToScripcode, newMappings, values) := acc in
               match r.2 with
               | Some sc =>
                   if Js.truthy r.2 then
                     (<[r.1 := sc]> symbolToScripcode,
                      if bool_decide (is_Some (cache !! r.1)) then newMappings
                      else <[r.1 := sc]> newMappings,
                      values ++ [sc])
                   else acc
               | None => acc
               end) acc resolved).1.1 !! s = Some sc ->
         acc.1.1 !! s = Some sc
         \/ ((s, Some sc) ∈ resolved /\ Js.truthy (Some sc) = true)).
  { intros H Hl. destruct (H _ Hl) as [Hempty|?]; [|done].
    cbn in Hempty. by rewrite lookup_empty in Hempty. }
  induction resolved as [|[s0 r0] rest IH]; intros [[m nm] vals] Hl; [by left|].
  cbn [foldl] in Hl. apply IH in Hl as [Hl|[Hin Ht]].
  - cbn [fst snd] in Hl. destruct r0 as [sc0|]; [|by left].
    destruct (Js.truthy (Some sc0)) eqn:Ht0; [|by left].
    cbn [fst snd] in Hl.
    destruct (decide (s0 = s)) as [->|Hne].
    + rewrite lookup_insert_eq in Hl. injection Hl as ->.
      right. split; [|done]. apply elem_of_cons. by left.
    + rewrite lookup_insert_ne in Hl by done. by left.
  - right. split; [|done]. apply elem_of_cons. by right.
Qed.
(** A scripcode a call returns is not the empty string. *)
Lemma resolve_truthy (s sc : string) (c : gmap string string) :
  (resolve s c).1.2 = Some sc -> Js.truthy (Some sc) = true.
Proof.
  unfold resolveBSEScripcode.
  destruct (BseIndia.isBSEScripcode s) eqn:Hd.
  - cbn. intros [= <-]. by destruct s.
  - destruct (Js.truthy (c !! s)) eqn:Hc.
    + cbn. intros Heq. by rewrite Heq in Hc.
    + destruct (Js.truthy (searchBSEScripcode s)) eqn:Hs; [|done].
      cbn. intros Heq. by rewrite Heq in Hs.
Qed.

(** Every symbol of the list gets its result. *)
Lemma resolveAll_complete (symbols : list string) (c : gmap string string) (s : string) :
  NoDup symbols -> s ∈ symbols ->
  (s, (resolve s c).1.2) ∈ (resolveEach symbols c).1.
Proof.
  intros Hnd Hin.
  rewrite <- (resolveAll_symbols symbols c) in Hin.
  apply list_elem_of_fmap in Hin as ([s' r] & -> & Hin). cbn.
  by rewrite (resolveAll_result symbols c s' r Hnd Hin).
Qed.

Local Abbreviation step cache :=
  (fun (acc : gmap string string * gmap string string * list string)
       (r : string * option string) =>
     let '(symbolToScripcode, newMappings, values) := acc in
     match r.2 with
     | Some sc =>
         if Js.truthy r.2 then
           (<[r.1 := sc]> symbolToScripcode,
            if bool_decide (is_Some (cache !! r.1)) then newMappings
            else <[r.1 := sc]> newMappings,
            values ++ [sc])
         else acc
     | None => acc
     end).

Lemma recordResolved_keeps (cache : gmap string string)
    (resolved : list (string * option string))
    (acc : gmap string string * gmap string string * list string) (s : string) :
  s ∉ resolved.*1 ->
  (foldl (step cache) acc resolved).1.1 !! s = acc.1.1 !! s.
Proof.
  revert acc. induction resolved as [|[s0 r0] rest IH]; intros acc Hnin; [done|].
  cbn [foldl]. rewrite IH.
  - destruct acc as [[m nm] vals]. cbn.
    destruct r0 as [sc0|]; [|done].
    destruct (Js.truthy (Some sc0)); [|done]. cbn.
    apply lookup_insert_ne. intros ->. apply Hnin. cbn. apply elem_of_cons. by left.
  - intros Hin. apply Hnin. cbn. apply elem_of_cons. by right.
Qed.

Lemma recordResolved_values_grow (cache : gmap string string)
    (resolved : list (string * option string))
    (acc : gmap string string * gmap string string * list string) (x : string) :
  x ∈ acc.2 -> x ∈ (foldl (step cache) acc resolved).2.
Proof.
  revert acc. induction resolved as [|[s0 r0] rest IH]; intros acc Hin; [done|].
  cbn [foldl]. apply IH.
  destruct acc as [[m nm] vals]. cbn in *.
  destruct r0 as [sc0|]; [|done].
  destruct (Js.truthy (Some sc0)); [|done]. cbn.
  apply elem_of_app. by left.
Qed.

(** [symbolToScripcode] holds every scripcode a call returned, and the
    list of its values has it. *)
Lemma recordResolved_complete (cache : gmap string string)
    (resolved : list (string * option string)) (s sc : string) :
  NoDup resolved.*1 -> (s, Some sc) ∈ resolved -> Js.truthy (Some sc) = true ->
  (recordResolved cache resolved).1.1 !! s = Some sc
  /\ sc ∈ (recordResolved cache resolved).2.
Proof.
  unfold recordResolved.
  generalize ((∅, ∅, []) : gmap string string * gmap string string * list string).
  induction resolved as [|[s0 r0] rest IH]; intros acc Hnd Hin Ht.
  - by apply elem_of_nil in Hin.
  - cbn in Hnd. apply NoDup_cons in Hnd as [Hs0 Hrest]. cbn [foldl].
    apply elem_of_cons in Hin as [[= <- <-]|Hin].
    + split.
      * rewrite recordResolved_keeps by done.
        destruct acc as [[m nm] vals]. cbn [fst snd]. rewrite Ht. cbn [fst snd].
        apply lookup_insert_eq.
      * apply recordResolved_values_grow.
        destruct acc as [[m nm] vals]. cbn [fst snd]. rewrite Ht. cbn [fst snd].
        apply elem_of_app. right. by apply list_elem_of_singleton.
    + by apply IH.
Qed.
End ResolutionFacts.

(** ** [uniq] *)

Lemma uniq_spec (xs : list string) :
  NoDup (PortfolioData.uniq xs) /\ forall x, x ∈ PortfolioData.uniq xs <-> x ∈ xs.
Proof.
  unfold PortfolioData.uniq.
  cut (forall acc : list string,
         NoDup acc ->
         NoDup (foldl (fun acc x => if decide (x ∈ acc) then acc else acc ++ [x]) acc xs)
         /\ forall x,
              x ∈ foldl (fun acc x => if decide (x ∈ acc) then acc else acc ++ [x]) acc xs
              <-> x ∈ acc \/ x ∈ xs).
  { intros H. destruct (H [] (NoDup_nil_2)) as [Hnd Hin]. split; [done|].
    intros x. rewrite Hin. rewrite elem_of_nil. tauto. }
  induction xs as [|x0 rest IH]; intros acc Hacc.
  - cbn. split; [done|]. intros x. rewrite elem_of_nil. tauto.
  - cbn [foldl]. destruct (decide (x0 ∈ acc)) as [Hin|Hnin].
    + destruct (IH acc Hacc) as [Hnd Hmem]. split; [done|].
      intros x. rewrite Hmem, elem_of_cons.
      split; [tauto|]. intros [?|[->|?]]; tauto.
    + assert (NoDup (acc ++ [x0])) as Hacc'.
      { apply NoDup_app. split; [done|]. split; [|apply NoDup_singleton].
        intros y Hy ->%list_elem_of_singleton. done. }
      destruct (IH _ Hacc') as [Hnd Hmem]. split; [done|].
      intros x. rewrite Hmem, elem_of_app, list_elem_of_singleton, elem_of_cons. tauto.
Qed.

(** ** Aggregator *)

Section AggregatorFacts.
Context (holdings : list PortfolioData.PortfolioHolding)
        (parseFloat : string -> float)
        (numberToString : float -> string)
        (isoNow : string)
        (fetchHeaderData : string -> Result (BseIndia.Response BseIndia.BSEResponse))
        (fetchComHeader :
           string -> Result (BseIndia.Response BseIndia.BSEFundamentalsResponse))
        (searchBSEScripcode : string -> option string)
        (reparsePrice : BseIndia.BSEStockData -> BseIndia.BSEStockData)
        (reparseFundamentals :
           BseIndia.BSEFundamentalsData -> BseIndia.BSEFundamentalsData).
Import PortfolioData.

Local Abbreviation aggregateAll :=
  (getPortfolioWithRealtimeData holdings parseFloat numberToString isoNow
     fetchHeaderData fetchComHeader searchBSEScripcode reparsePrice reparseFundamentals).
Local Abbreviation aggregateOne :=
  (getHoldingWithRealtimeData holdings parseFloat numberToString isoNow
     fetchHeaderData fetchComHeader searchBSEScripcode reparsePrice reparseFundamentals).
Local Abbreviation gathered :=
  (gatherData holdings parseFloat isoNow fetchHeaderData fetchComHeader
     searchBSEScripcode reparsePrice reparseFundamentals).
Local Abbreviation resolve := (resolveBSEScripcode searchBSEScripcode).
Local Abbreviation update := (updateHolding numberToString).
Local Abbreviation fetchPrice := (BseIndia.fetchBSEData parseFloat isoNow fetchHeaderData).
Local Abbreviation fetchPrices :=
  (BseIndia.fetchMultipleBSEData parseFloat isoNow fetchHeaderData).

Lemma updateHolding_static (s2s : gmap string string)
    (prices : gmap string BseIndia.BSEStockData)
    (ratios : gmap string BseIndia.BSEFundamentalsData) (h : PortfolioHolding) :
  let h' := update s2s prices ratios h in
  symbol h' = symbol h /\ companyName h' = companyName h
  /\ sector h' = sector h /\ fixed h' = fixed h.
Proof.
  unfold updateHolding.
  destruct (s2s !! symbol h) as [sc|]; [|done].
  destruct (Js.truthy (Some sc)); [|done].
  by destruct (prices !! sc), (ratios !! sc).
Qed.

Lemma updateHolding_unresolved (s2s : gmap string string)
    (prices : gmap string BseIndia.BSEStockData)
    (ratios : gmap string BseIndia.BSEFundamentalsData) (h : PortfolioHolding) :
  s2s !! symbol h = None -> update s2s prices ratios h = h.
Proof. intros Hs. unfold updateHolding. by rewrite Hs. Qed.

Lemma updateHolding_priced (s2s : gmap string string)
    (prices : gmap string BseIndia.BSEStockData)
    (ratios : gmap string BseIndia.BSEFundamentalsData) (h : PortfolioHolding)
    (sc : string) (d : BseIndia.BSEStockData) :
  s2s !! symbol h = Some sc -> Js.truthy (Some sc) = true -> prices !! sc = Some d ->
  realtime (update s2s prices ratios h) = recompute numberToString h d.
Proof.
  intros Hs Ht Hp. unfold updateHolding. rewrite Hs, Ht, Hp.
  by destruct (ratios !! sc).
Qed.

(** What [symbolToScripcode] holds for a symbol is what
    [resolveBSEScripcode] returns for it on the cache as loaded. *)
Lemma gathered_resolved (w : World) (s sc : string) :
  symbolToScripcode (gathered w) !! s = Some sc ->
  (resolve s (ScripcodeCache.loadScripcodeCache (scripcodeFile w))).1.2 = Some sc
  /\ Js.truthy (Some sc) = true.
Proof.
  unfold gatherData.
  pose proof (resolveAll_result searchBSEScripcode (uniq (symbol <$> holdings))
                (ScripcodeCache.loadScripcodeCache (scripcodeFile w))) as Hres.
  destruct (resolveAll searchBSEScripcode (uniq (symbol <$> holdings))
              (ScripcodeCache.loadScripcodeCache (scripcodeFile w)))
    as [resolved cache1].
  pose proof (recordResolved_lookup cache1 resolved s sc) as Hrec.
  destruct (recordResolved cache1 resolved) as [[s2s nm] vals].
  destruct (getFundamentalsForBSEScripcodes _ _ _ _ _) as [fm w1].
  destruct (splitCached _ _) as [pdm toFetch].
  assert (Hs2s : s2s !! s = Some sc ->
                 (resolve s (ScripcodeCache.loadScripcodeCache (scripcodeFile w))).1.2
                 = Some sc /\ Js.truthy (Some sc) = true).
  { intros Hl. destruct (Hrec Hl) as [Hin Ht]. split; [|done].
    by rewrite (Hres s (Some sc) (proj1 (uniq_spec _)) Hin). }
  destruct (decide (0 < length toFetch)%nat); [|exact Hs2s].
  by destruct (fetchMultipleBSEData _ _ _ _).
Qed.

(** The cached prices go to [priceDataMap], the others to
    [scripcodesToFetch]. *)
Lemma splitCached_spec (priceCache : gmap string BseIndia.BSEStockData)
    (l : list string) (k : string) :
  (splitCached priceCache l).1 !! k = (if decide (k ∈ l) then priceCache !! k else None)
  /\ (k ∈ (splitCached priceCache l).2 <-> k ∈ l /\ priceCache !! k = None).
Proof.
  unfold splitCached.
  cut (forall acc : gmap string BseIndia.BSEStockData * list string,
         let out :=
           foldl
             (fun acc scripcode =>
                let '(priceDataMap, scripcodesToFetch) := acc in
                match priceCache !! scripcode with
                | Some cachedPrice =>
                    (<[scripcode := cachedPrice]> priceDataMap, scripcodesToFetch)
                | None => (priceDataMap, scripcodesToFetch ++ [scripcode])
                end) acc l in
         out.1 !! k = (if decide (k ∈ l)
                       then match priceCache !! k with
                            | Some cp => Some cp
                            | None => acc.1 !! k
                            end
                       else acc.1 !! k)
         /\ (k ∈ out.2 <-> k ∈ acc.2 \/ (k ∈ l /\ priceCache !! k = None))).
  { intros H. destruct (H (∅, [])) as [H1 H2]. cbn in H1, H2. split.
    - rewrite H1, lookup_empty. destruct (decide (k ∈ l)); [|done].
      by destruct (priceCache !! k).
    - rewrite H2, elem_of_nil. tauto. }
  induction l as [|x rest IH]; intros [pdm tf].
  - cbn. rewrite decide_False by apply not_elem_of_nil.
    split; [done|]. rewrite elem_of_nil. tauto.
  - cbn [foldl]. cbn zeta.
    destruct (IH (match priceCache !! x with
                  | Some cachedPrice => (<[x := cachedPrice]> pdm, tf)
                  | None => (pdm, tf ++ [x])
                  end)) as [IH1 IH2].
    split.
    + rewrite IH1. destruct (decide (x = k)) as [->|Hne].
      * rewrite (decide_True (P := k ∈ k :: rest)) by (apply elem_of_cons; by left).
        destruct (priceCache !! k) as [cp|] eqn:Hk; cbn.
        -- destruct (decide (k ∈ rest)); [done|]. by rewrite lookup_insert_eq.
        -- by destruct (decide (k ∈ rest)).
      * assert ((match priceCache !! x with
                 | Some cachedPrice => (<[x := cachedPrice]> pdm, tf)
                 | None => (pdm, tf ++ [x])
                 end).1 !! k = pdm !! k) as ->.
        { destruct (priceCache !! x); cbn; [|done]. by rewrite lookup_insert_ne. }
        cbn. destruct (decide (k ∈ rest)) as [Hin|Hnin].
        -- by rewrite decide_True by (apply elem_of_cons; by right).
        -- rewrite decide_False; [done|]. intros [?|?]%elem_of_cons; done.
    + rewrite IH2, elem_of_cons. cbn.
      destruct (priceCache !! x) as [cp|] eqn:Hx; cbn.
      * split; [tauto|]. intros [?|[Hx' Hk]]; [tauto|].
        destruct Hx' as [->|?]; [congruence|tauto].
      * rewrite elem_of_app, list_elem_of_singleton.
        split; [|tauto]. intros [[?| ->]|?]; tauto.
Qed.

(** The two maps of [gatherData] that decide the [realtime] block. *)
Lemma gathered_components (w : World) :
  let cache := ScripcodeCache.loadScripcodeCache (scripcodeFile w) in
  let rs := resolveAll searchBSEScripcode (uniq (symbol <$> holdings)) cache in
  let rec := recordResolved rs.2 rs.1 in
  let sp := splitCached (PriceCache.loadPriceCache (now w) (priceFile w)) (uniq rec.2) in
  symbolToScripcode (gathered w) = rec.1.1
  /\ priceDataMap (gathered w) =
       if decide (0 < length sp.2)%nat
       then setAll (map_to_list (fetchPrices sp.2).1) sp.1
       else sp.1.
Proof.
  unfold gatherData. cbn zeta.
  destruct (resolveAll searchBSEScripcode (uniq (symbol <$> holdings))
              (ScripcodeCache.loadScripcodeCache (scripcodeFile w)))
    as [resolved cache1]. cbn [fst snd].
  destruct (recordResolved cache1 resolved) as [[s2s nm] vals]. cbn [fst snd].
  destruct (getFundamentalsForBSEScripcodes _ _ _ _ _) as [fm w1].
  destruct (splitCached _ _) as [pdm toFetch]. cbn [fst snd].
  destruct (decide (0 < length toFetch)%nat); [|done].
  unfold fetchMultipleBSEData.
  by destruct (BseIndia.fetchMultipleBSEData _ _ _ _).
Qed.

(** [symbolToScripcode] holds, for the symbol of a holding, what
    [resolveBSEScripcode] returns for it on the cache as loaded. *)
Lemma gathered_symbol (w : World) (s : string) :
  s ∈ symbol <$> holdings ->
  symbolToScripcode (gathered w) !! s
  = (resolve s (ScripcodeCache.loadScripcodeCache (scripcodeFile w))).1.2.
Proof.
  intros Hin.
  destruct ((resolve s _).1.2) as [sc|] eqn:Hres.
  - destruct (gathered_components w) as [-> _].
    set (cache := ScripcodeCache.loadScripcodeCache (scripcodeFile w)) in *.
    destruct (uniq_spec (symbol <$> holdings)) as [Hnd Hmem].
    apply (recordResolved_complete _ _ s sc).
    + by rewrite resolveAll_symbols.
    + rewrite <- Hres. apply resolveAll_complete; [done|]. by apply Hmem.
    + by apply (resolve_truthy searchBSEScripcode s sc cache).
  - destruct (symbolToScripcode (gathered w) !! s) as [sc|] eqn:Hs; [|done].
    apply gathered_resolved in Hs as [Hs _].
    congruence.
Qed.

(** [priceDataMap] holds, for a scripcode a symbol resolved to, the cached
    price, else the fetched one. *)
Lemma gathered_price (w : World) (s sc : string) :
  symbolToScripcode (gathered w) !! s = Some sc ->
  priceDataMap (gathered w) !! sc =
    match PriceCache.loadPriceCache (now w) (priceFile w) !! sc with
    | Some cachedPrice => Some cachedPrice
    | None => fetchPrice sc
    end.
Proof.
  intros Hs. destruct (gathered_components w) as [Hs2s ->].
  rewrite Hs2s in Hs.
  set (cache := ScripcodeCache.loadScripcodeCache (scripcodeFile w)) in *.
  set (rs := resolveAll searchBSEScripcode (uniq (symbol <$> holdings)) cache) in *.
  set (pc := PriceCache.loadPriceCache (now w) (priceFile w)).
  assert (Hsc : sc ∈ uniq (recordResolved rs.2 rs.1).2).
  { apply uniq_spec.
    destruct (recordResolved_lookup _ _ _ _ Hs) as [Hin Ht].
    apply (recordResolved_complete rs.2 rs.1 s sc); [|done|done].
    unfold rs. rewrite resolveAll_symbols. apply uniq_spec. }
  destruct (splitCached_spec pc (uniq (recordResolved rs.2 rs.1).2) sc) as [Hpdm Htf].
  rewrite decide_True in Hpdm by done.
  destruct (decide (0 < length _)%nat) as [Hlen|Hlen].
  - rewrite setAll_map_to_list, lookup_union, Hpdm.
    unfold BseIndia.fetchMultipleBSEData. rewrite fetchMultiple_lookup.
    destruct (pc !! sc) as [cp|] eqn:Hpc.
    + rewrite decide_False by (rewrite Htf; by intros [_ ?]). done.
    + rewrite decide_True by (apply Htf; done).
      by destruct (fetchPrice sc).
  - rewrite Hpdm. destruct (pc !! sc) as [cp|] eqn:Hpc; [done|].
    exfalso. apply Hlen.
    assert (sc ∈ (splitCached pc (uniq (recordResolved rs.2 rs.1).2)).2) as Hin
      by (by apply Htf).
    destruct ((splitCached pc _).2); [by apply elem_of_nil in Hin|cbn; lia].
Qed.
Lemma aggregateAll_lookup (w : World) (i : nat) :
  (aggregateAll w).1 !! i =
    update (symbolToScripcode (gathered w)) (priceDataMap (gathered w))
      (fundamentalsMap (gathered w)) <$> holdings !! i.
Proof. unfold getPortfolioWithRealtimeData. cbn. apply list_lookup_fmap. Qed.

(** C9: a holding whose symbol does not resolve (it is no scripcode, the
    scripcode cache has nothing for it and the search finds nothing)
    comes back as it is, at its position; the output has one record for
    each static holding, in the order of the static holdings, with the
    static part of each record untouched. *)
Theorem unresolved_holding_unchanged (w : World) :
  let out := (aggregateAll w).1 in
  let cache := ScripcodeCache.loadScripcodeCache (scripcodeFile w) in
  length out = length holdings
  /\ symbol <$> out = symbol <$> holdings
  /\ (forall i h, holdings !! i = Some h ->
        exists h', out !! i = Some h' /\ symbol h' = symbol h
                   /\ companyName h' = companyName h /\ sector h' = sector h
                   /\ fixed h' = fixed h)
  /\ (forall i h, holdings !! i = Some h ->
        (resolve (symbol h) cache).1.2 = None ->
        out !! i = Some h).
Proof.
  intros out cache. split; [|split; [|split]].
  - unfold out, getPortfolioWithRealtimeData. cbn. apply length_fmap.
  - unfold out, getPortfolioWithRealtimeData. cbn.
    rewrite <- list_fmap_compose. apply list_fmap_ext.
    intros ? h _. cbn. apply updateHolding_static.
  - intros i h Hi. unfold out. rewrite aggregateAll_lookup, Hi. cbn.
    eexists. split; [reflexivity|]. apply updateHolding_static.
  - intros i h Hi Hnone. unfold out. rewrite aggregateAll_lookup, Hi. cbn.
    f_equal. apply updateHolding_unresolved.
    destruct (symbolToScripcode (gathered w) !! symbol h) as [sc|] eqn:Hs; [|done].
    apply gathered_resolved in Hs as [Hs _].
    fold cache in Hs. congruence.
Qed.

(** C2: for a holding whose symbol resolves to a scripcode (the symbol is
    one, the scripcode cache has one for it or the search finds one) that
    has a price, cached or fetched (static investment above 0; zero is
    the case of C3), the recomputed values are
    [presentValue = currentPrice * qty],
    [gainLoss = presentValue - investment] and [gainLossPercent] =
    [(gainLoss / investment) * 100] printed by [toFixed(2)], with a
    leading ["+"] when the gain is not negative, and a closing ["%"];
    for a purchase price of 100, a quantity of 10, an investment of
    1000 and a price of 120 they are 1200, 200 and ["+20.00%"]. *)
Theorem recomputed_gain_loss (w : World) (i : nat) (h : PortfolioHolding)
    (sc : string) (bseData : BseIndia.BSEStockData) :
  holdings !! i = Some h ->
  (resolve (symbol h) (ScripcodeCache.loadScripcodeCache (scripcodeFile w))).1.2
    = Some sc ->
  match PriceCache.loadPriceCache (now w) (priceFile w) !! sc with
  | Some cachedPrice => Some cachedPrice
  | None => fetchPrice sc
  end = Some bseData ->
  PrimFloat.ltb 0 (investment (fixed h)) = true ->
  exists h',
    (aggregateAll w).1 !! i = Some h'
    /\ cmp (realtime h') = BseIndia.currentPrice bseData
    /\ presentValue (realtime h')
       = (BseIndia.currentPrice bseData * qty (fixed h))%float
    /\ gainLoss (realtime h')
       = (presentValue (realtime h') - investment (fixed h))%float
    /\ gainLossPercent (realtime h')
       = ((if PrimFloat.leb 0 (gainLoss (realtime h')) then "+" else "")
            ++ Js.toFixed numberToString 2
                 ((gainLoss (realtime h') / investment (fixed h)) * 100)%float
            ++ "%")%string
    /\ (purchasePrice (fixed h) = 100%float -> qty (fixed h) = 10%float ->
        investment (fixed h) = 1000%float ->
        BseIndia.currentPrice bseData = 120%float ->
        presentValue (realtime h') = 1200%float
        /\ gainLoss (realtime h') = 200%float
        /\ gainLossPercent (realtime h') = "+20.00%"%string).
Proof.
  intros Hi Hres Hprice Hinv.
  assert (Hs : symbolToScripcode (gathered w) !! symbol h = Some sc).
  { rewrite gathered_symbol; [done|].
    apply list_elem_of_fmap. exists h. split; [done|].
    by apply list_elem_of_lookup_2 with i. }
  pose proof (resolve_truthy _ _ _ _ Hres) as Ht.
  assert (Hp : priceDataMap (gathered w) !! sc = Some bseData)
    by (by rewrite (gathered_price w _ _ Hs)).
  eexists. split; [by rewrite aggregateAll_lookup, Hi|].
  rewrite (updateHolding_priced _ _ _ _ _ _ Hs Ht Hp).
  unfold recompute. cbn. rewrite Hinv.
  repeat split.
  all: match goal with
       | Hq : qty _ = _, Hinv' : investment _ = _, Hprice' : BseIndia.currentPrice _ = _
         |- _ => rewrite ?Hq, ?Hinv', ?Hprice'; by vm_compute
       end.
Qed.

(** C3, as amended: for a holding whose symbol resolves to a scripcode
    that has a price, cached or fetched, and whose static investment is
    0, the recomputed [gainLossPercent] is ["+0.00%"] when the recomputed
    gain is not negative and ["0.00%"] when it is negative or not a
    number. *)
Theorem zero_investment_percent (w : World) (i : nat) (h : PortfolioHolding)
    (sc : string) (bseData : BseIndia.BSEStockData) :
  holdings !! i = Some h ->
  (resolve (symbol h) (ScripcodeCache.loadScripcodeCache (scripcodeFile w))).1.2
    = Some sc ->
  match PriceCache.loadPriceCache (now w) (priceFile w) !! sc with
  | Some cachedPrice => Some cachedPrice
  | None => fetchPrice sc
  end = Some bseData ->
  investment (fixed h) = 0%float ->
  exists h',
    (aggregateAll w).1 !! i = Some h'
    /\ gainLoss (realtime h')
       = (BseIndia.currentPrice bseData * qty (fixed h) - 0)%float
    /\ gainLossPercent (realtime h')
       = if PrimFloat.leb 0 (gainLoss (realtime h')) then "+0.00%"%string
         else "0.00%"%string.
Proof.
  intros Hi Hres Hprice Hinv.
  assert (Hs : symbolToScripcode (gathered w) !! symbol h = Some sc).
  { rewrite gathered_symbol; [done|].
    apply list_elem_of_fmap. exists h. split; [done|].
    by apply list_elem_of_lookup_2 with i. }
  pose proof (resolve_truthy _ _ _ _ Hres) as Ht.
  assert (Hp : priceDataMap (gathered w) !! sc = Some bseData)
    by (by rewrite (gathered_price w _ _ Hs)).
  eexists. split; [by rewrite aggregateAll_lookup, Hi|].
  rewrite (updateHolding_priced _ _ _ _ _ _ Hs Ht Hp).
  unfold recompute. cbn. rewrite Hinv. cbn.
  split; [reflexivity|].
  by destruct (PrimFloat.leb 0 _).
Qed.
End AggregatorFacts.

Section SingleHoldingFacts.
Context (holdings : list PortfolioData.PortfolioHolding)
        (parseFloat : string -> float)
        (numberToString : float -> string)
        (isoNow : string)
        (fetchHeaderData : string -> Result (BseIndia.Response BseIndia.BSEResponse))
        (fetchComHeader :
           string -> Result (BseIndia.Response BseIndia.BSEFundamentalsResponse))
        (searchBSEScripcode : string -> option string)
        (reparsePrice : BseIndia.BSEStockData -> BseIndia.BSEStockData)
        (reparseFundamentals :
           BseIndia.BSEFundamentalsData -> BseIndia.BSEFundamentalsData).
Import PortfolioData.

Local Abbreviation aggregateOne :=
  (getHoldingWithRealtimeData holdings parseFloat numberToString isoNow
     fetchHeaderData fetchComHeader searchBSEScripcode reparsePrice reparseFundamentals).
Local Abbreviation resolve := (resolveBSEScripcode searchBSEScripcode).
Local Abbreviation fundamentalsFor :=
  (getFundamentalsForBSEScripcodes parseFloat fetchComHeader reparseFundamentals).
Local Abbreviation fetchPrice := (BseIndia.fetchBSEData parseFloat isoNow fetchHeaderData).
Local Abbreviation fetchRatios := (BseIndia.fetchBSEFundamentals parseFloat fetchComHeader).

Lemma findHolding_None (sym : string) :
  findHolding holdings sym = None <-> sym ∉ symbol <$> holdings.
Proof.
  unfold findHolding. split.
  - intros Hnone Hin. apply list_elem_of_fmap in Hin as (h & -> & Hh).
    apply list_elem_of_In in Hh.
    pose proof (List.find_none _ _ Hnone h Hh) as Hneq. cbn in Hneq.
    by rewrite String.eqb_refl in Hneq.
  - intros Hnin. destruct (List.find _ holdings) as [h|] eqn:Hfind; [|done].
    apply List.find_some in Hfind as [Hh Heq].
    apply String.eqb_eq in Heq. exfalso. apply Hnin.
    apply list_elem_of_fmap. exists h. split; [done|]. by apply list_elem_of_In.
Qed.

Lemma findHolding_Some (sym : string) (h : PortfolioHolding) :
  findHolding holdings sym = Some h -> h ∈ holdings /\ symbol h = sym.
Proof.
  unfold findHolding. intros [Hh Heq]%List.find_some.
  split; [by apply list_elem_of_In|]. by apply String.eqb_eq.
Qed.

(** The fundamentals the aggregator ends up with for one scripcode: the
    cached record, else the fetched one. *)
Lemma fundamentalsFor_single (sc : string) (w : World) :
  (fundamentalsFor [sc] w).1 !! sc =
    match FundamentalsCache.loadFundamentalsCache (now w) (fundamentalsFile w)
            ≫= (fun c => c !! sc) with
    | Some d => Some d
    | None => fetchRatios sc
    end.
Proof.
  unfold getFundamentalsForBSEScripcodes.
  rewrite decide_False by done.
  set (result := match FundamentalsCache.loadFundamentalsCache _ _ with
                 | Some c => setAll (map_to_list c) ∅
                 | None => ∅
                 end).
  assert (Hresult : result !! sc =
                      FundamentalsCache.loadFundamentalsCache (now w) (fundamentalsFile w)
                        ≫= (fun c => c !! sc)).
  { unfold result. destruct (FundamentalsCache.loadFundamentalsCache _ _) as [c|]; cbn.
    - by rewrite setAll_copy.
    - apply lookup_empty. }
  rewrite <- Hresult. cbn [List.filter].
  destruct (result !! sc) as [d|] eqn:Hsc.
  - rewrite bool_decide_eq_true_2 by (by eexists). cbn.
    by rewrite decide_True by done.
  - rewrite bool_decide_eq_false_2 by (by intros [? ?]). cbn.
    rewrite decide_False by done.
    pose proof (fetchMultiple_lookup fetchRatios [sc] sc) as Hfetch.
    unfold fetchMultipleBSEFundamentals, BseIndia.fetchMultipleBSEFundamentals.
    destruct (BseIndia.fetchMultiple fetchRatios [sc]) as [fetched steps].
    cbn in *. rewrite setAll_map_to_list, lookup_union, Hfetch, Hsc.
    rewrite decide_True by (apply elem_of_cons; by left).
    by destruct (fetchRatios sc).
Qed.

(** C10: [getHoldingWithRealtimeData] returns [null] exactly for a symbol
    that no static holding has; for the symbol of a static holding it
    returns a record of that holding, and the record is the static
    holding itself when the symbol does not resolve, and when it
    resolves to a scripcode with neither a price (cached or fetched) nor
    fundamentals (cached or fetched). *)
Theorem single_holding_absent_iff_unknown (sym : string) (w : World) :
  let cache := ScripcodeCache.loadScripcodeCache (scripcodeFile w) in
  ((aggregateOne sym w).1 = None <-> sym ∉ symbol <$> holdings)
  /\ (forall h, findHolding holdings sym = Some h ->
        exists h', (aggregateOne sym w).1 = Some h'
                   /\ symbol h' = sym /\ companyName h' = companyName h
                   /\ sector h' = sector h /\ fixed h' = fixed h)
  /\ (forall h, findHolding holdings sym = Some h ->
        (resolve (symbol h) cache).1.2 = None ->
        (aggregateOne sym w).1 = Some h)
  /\ (forall h sc, findHolding holdings sym = Some h ->
        (resolve (symbol h) cache).1.2 = Some sc ->
        PriceCache.loadPriceCache (now w) (priceFile w) !! sc = None ->
        fetchPrice sc = None ->
        FundamentalsCache.loadFundamentalsCache (now w) (fundamentalsFile w)
          ≫= (fun c => c !! sc) = None ->
        fetchRatios sc = None ->
        (aggregateOne sym w).1 = Some h).
Proof.
  intros cache.
  assert (Hsome : forall h, findHolding holdings sym = Some h ->
            exists h', (aggregateOne sym w).1 = Some h'
                       /\ symbol h' = sym /\ companyName h' = companyName h
                       /\ sector h' = sector h /\ fixed h' = fixed h).
  { intros h Hfind. destruct (findHolding_Some sym h Hfind) as [_ Hsym].
    unfold getHoldingWithRealtimeData. rewrite Hfind.
    destruct (resolve (symbol h) _) as [[s r] c1].
    destruct r as [sc|]; [|by eexists].
    destruct (Js.truthy (Some sc)); [|by destruct (negb _); eexists].
    cbn [andb].
    destruct (priceFor _ _ _ _ _ _ _) as [bseData w1].
    destruct (getFundamentalsForBSEScripcodes _ _ _ _ _) as [fm w2].
    destruct bseData, (fm !! sc); by eexists. }
  split; [|split; [exact Hsome|split]].
  - split.
    + intros Hnone. apply findHolding_None.
      destruct (findHolding holdings sym) as [h|] eqn:Hfind; [|done].
      destruct (Hsome h eq_refl) as (h' & Hh' & _). congruence.
    + intros Hnin%findHolding_None.
      unfold getHoldingWithRealtimeData. by rewrite Hnin.
  - intros h Hfind Hnone.
    unfold getHoldingWithRealtimeData. rewrite Hfind. fold cache.
    destruct (resolve (symbol h) cache) as [[s r] c1]. cbn in Hnone. by subst r.
  - intros h sc Hfind Hres Hcached Hfetched Hfcached Hffetched.
    unfold getHoldingWithRealtimeData. rewrite Hfind. fold cache.
    destruct (resolve (symbol h) cache) as [[s r] c1]. cbn in Hres. subst r.
    destruct (Js.truthy (Some sc)); [|by destruct (negb _)].
    cbn [andb].
    unfold priceFor. rewrite Hcached.
    unfold fetchBSEData. rewrite Hfetched.
    match goal with
    | |- context [getFundamentalsForBSEScripcodes _ _ _ [sc] ?w'] =>
        pose proof (fundamentalsFor_single sc w') as Hfm;
        assert (now w' = now w /\ fundamentalsFile w' = fundamentalsFile w) as [Hn Hf]
          by (by destruct (negb _))
    end.
    rewrite Hn, Hf, Hfcached, Hffetched in Hfm.
    destruct (getFundamentalsForBSEScripcodes _ _ _ _ _) as [fm w2].
    cbn in Hfm. by rewrite Hfm.
Qed.
End SingleHoldingFacts.

(** ** The properties on the small portfolio *)

Lemma price_ttl_boundary_witness :
  PriceCache.loadPriceCache (1000 + 119999)
    (PriceCache.savePriceCache id true 1000 {["500180" := 120%nat]} None) !! "500180"
  = Some 120%nat
  /\ PriceCache.loadPriceCache (1000 + 120001)
       (PriceCache.savePriceCache id true 1000 {["500180" := 120%nat]} None) !! "500180"
     = None.
Proof.
  pose proof (price_ttl_boundary id 1000 0 {["500180" := 120%nat]} None "500180" 120%nat)
    as H.
  destruct H as (_ & _ & Hbefore & Hafter & _); [reflexivity|].
  split; [by apply Hbefore | exact Hafter].
Defined.

Lemma recomputed_gain_loss_witness :
  exists h',
    (Sample.run Sample.portfolio).1 !! 0%nat = Some h'
    /\ PortfolioData.presentValue (PortfolioData.realtime h') = 1200%float
    /\ PortfolioData.gainLoss (PortfolioData.realtime h') = 200%float
    /\ PortfolioData.gainLossPercent (PortfolioData.realtime h') = "+20.00%"%string.
Proof.
  destruct (recomputed_gain_loss Sample.portfolio Sample.parseFloat
              Sample.numberToString Sample.isoNow Sample.fetchHeaderData
              Sample.fetchComHeader Sample.searchBSEScripcode id id Sample.world0
              0 Sample.hdfc "500180"
              (BseIndia.mapBSEResponseToStockData Sample.parseFloat Sample.isoNow
                 "500180" Sample.quote120))
    as (h' & Hout & _ & _ & _ & _ & Hexample);
    [reflexivity | by vm_compute | by vm_compute | reflexivity |].
  exists h'. split; [exact Hout|].
  apply Hexample; reflexivity.
Defined.

Lemma zero_investment_percent_witness :
  exists h',
    (Sample.run Sample.portfolioWithGift).1 !! 2%nat = Some h'
    /\ PortfolioData.gainLossPercent (PortfolioData.realtime h')
       = if PrimFloat.leb 0 (PortfolioData.gainLoss (PortfolioData.realtime h'))
         then "+0.00%"%string else "0.00%"%string.
Proof.
  destruct (zero_investment_percent Sample.portfolioWithGift Sample.parseFloat
              Sample.numberToString Sample.isoNow Sample.fetchHeaderData
              Sample.fetchComHeader Sample.searchBSEScripcode id id Sample.world0
              2 Sample.gifted "500180"
              (BseIndia.mapBSEResponseToStockData Sample.parseFloat Sample.isoNow
                 "500180" Sample.quote120))
    as (h' & Hout & _ & Hpercent);
    [reflexivity | by vm_compute | by vm_compute | reflexivity |].
  exists h'. split; [exact Hout | exact Hpercent].
Defined.

(** C3, as stated, fails: a holding with an investment of 0, a quantity of
    10 and a fetched price of 120 gets ["+0.00%"], not ["0.00%"]. *)
Lemma zero_investment_gets_plus_sign :
  exists h',
    (Sample.run Sample.portfolioWithGift).1 !! 2%nat = Some h'
    /\ PortfolioData.investment (PortfolioData.fixed h') = 0%float
    /\ PortfolioData.priceSource (PortfolioData.realtime h') = Some PortfolioData.bse
    /\ PortfolioData.gainLoss (PortfolioData.realtime h') = 1200%float
    /\ PortfolioData.gainLossPercent (PortfolioData.realtime h') = "+0.00%"%string
    /\ PortfolioData.gainLossPercent (PortfolioData.realtime h') <> "0.00%"%string.
Proof.
  eexists. split; [by vm_compute|]. by vm_compute.
Qed.

(** Twenty-five identifiers go out in three batches of 10, 10 and 5, with
    a pause after the first and after the second. *)
Example twentyFive_steps :
  (BseIndia.fetchMultipleBSEData Sample.parseFloat Sample.isoNow Sample.fetchHeaderData
     Sample.twentyFive).2
  = [BseIndia.FetchBatch (take 10 Sample.twentyFive); BseIndia.Delay 1000;
     BseIndia.FetchBatch (take 10 (drop 10 Sample.twentyFive)); BseIndia.Delay 1000;
     BseIndia.FetchBatch (drop 20 Sample.twentyFive)]
  /\ drop 20 Sample.twentyFive
     = ["500030"; "500031"; "500032"; "500033"; "500034"]%string.
Proof. by vm_compute. Qed.

(** The unresolved and the failing holding of the small portfolio come
    back as they are; the steps of the run are one price batch and one
    fundamentals batch. *)
Example sample_run :
  (Sample.run Sample.portfolio).1 !! 1%nat = Some Sample.unknown
  /\ (Sample.run Sample.portfolio).1 !! 2%nat = Some Sample.failing
  /\ PortfolioData.log (Sample.run Sample.portfolio).2
     = [BseIndia.FetchBatch ["500180"; "500112"]; BseIndia.FetchBatch ["500180"; "500112"]].
Proof. by vm_compute. Qed.

(** ** The stores: round trips, whole-document writes, expiry *)

Lemma loadScripcodeCache_saved (mappings : gmap string string)
    (f : CacheFile (gmap string string)) :
  ScripcodeCache.loadScripcodeCache
    (ScripcodeCache.saveScripcodeCache true mappings f)
  = delete "__proto__"%string mappings.
Proof.
  unfold ScripcodeCache.saveScripcodeCache, ScripcodeCache.loadScripcodeCache,
    ScripcodeCache.loadScripcodeCacheBody. cbn.
  by rewrite assignAll_map_to_list, setAll_copy.
Qed.

(** X1: what [saveScripcodeCache] writes, [loadScripcodeCache] reads
    back, whatever the file held before: the same mappings but for the
    key ["__proto__"], which is not written ([mappingObject[symbol] =
    scripcode] makes no own property for it); so the very same mappings
    when that key is not among them.  On a directory that takes no
    writes the file stays as it is. *)
Theorem scripcode_round_trip (mappings : gmap string string)
    (f : CacheFile (gmap string string)) :
  ScripcodeCache.loadScripcodeCache
    (ScripcodeCache.saveScripcodeCache true mappings f)
  = delete "__proto__"%string mappings
  /\ (mappings !! "__proto__"%string = None ->
      ScripcodeCache.loadScripcodeCache
        (ScripcodeCache.saveScripcodeCache true mappings f) = mappings)
  /\ ScripcodeCache.loadScripcodeCache
       (ScripcodeCache.saveScripcodeCache true mappings f) !! "__proto__"%string = None
  /\ ScripcodeCache.saveScripcodeCache false mappings f = f.
Proof.
  rewrite loadScripcodeCache_saved. split; [done|]. split; [|split; [|done]].
  - intros Hnone. by apply delete_id.
  - apply lookup_delete_eq.
Qed.

(** X2: on a directory that takes writes, [addScripcodeMapping] sets the
    scripcode of its symbol and keeps every other mapping the file
    held, but for the key ["__proto__"]: a mapping for it is neither set
    nor kept. *)
Theorem addScripcodeMapping_keeps (symbol scripcode : string)
    (f : CacheFile (gmap string string)) (k : string) :
  ScripcodeCache.loadScripcodeCache
    (ScripcodeCache.addScripcodeMapping true symbol scripcode f) !! k
  = if decide (k = "__proto__"%string) then None
    else if decide (k = symbol) then Some scripcode
         else ScripcodeCache.loadScripcodeCache f !! k.
Proof.
  unfold ScripcodeCache.addScripcodeMapping. rewrite loadScripcodeCache_saved.
  destruct (decide (k = "__proto__"%string)) as [->|Hproto].
  - apply lookup_delete_eq.
  - rewrite lookup_delete_ne by done.
    destruct (decide (k = symbol)) as [->|Hne].
    + apply lookup_insert_eq.
    + by apply lookup_insert_ne.
Qed.

(** Saved with a mapping for ["__proto__"], the scripcode file holds the
    other mappings only, and so does the price file. *)
Example proto_key_not_written :
  ScripcodeCache.saveScripcodeCache true
    {["TCS" := "532540"; "__proto__" := "500112"]}%string None
  = Some (Json {["TCS" := "532540"]}%string)
  /\ PriceCache.savePriceCache id true 1000
       {["500180" := 120%nat; "__proto__" := 80%nat]}%string None
     = Some (Json {["500180" := PriceCache.mkCachedPrice 1000 120%nat]}%string).
Proof. by vm_compute. Qed.

Section PriceMore.
Context {Data : Type} (reparse : Data -> Data).
Import PriceCache.

Lemma loadPriceCache_saved (now t : Z) (prices : gmap string Data)
    (f : CacheFile (gmap string (@CachedPrice Data))) :
  loadPriceCache now (savePriceCache reparse true t prices f)
  = if isPriceCacheValid now t then reparse <$> delete "__proto__"%string prices
    else ∅.
Proof.
  apply map_eq. intros k.
  rewrite savePriceCache_written, loadPriceCache_lookup, lookup_fmap.
  destruct (delete "__proto__"%string prices !! k) as [d|] eqn:Hk; cbn.
  - destruct (isPriceCacheValid now t); [|by rewrite lookup_empty].
    by rewrite lookup_fmap, Hk.
  - destruct (isPriceCacheValid now t); [|by rewrite lookup_empty].
    by rewrite lookup_fmap, Hk.
Qed.

(** X3: [savePriceCache] replaces the document: read within two minutes
    of the write, the store holds the saved prices, but for one under
    the key ["__proto__"], which is not written, and nothing else; an
    entry the file held before, for a scripcode that is not among the
    saved prices, is gone. *)
Theorem savePriceCache_replaces (now t : Z) (prices : gmap string Data)
    (f : CacheFile (gmap string (@CachedPrice Data))) (k : string) :
  now - t < PRICE_CACHE_DURATION_MS ->
  loadPriceCache now (savePriceCache reparse true t prices f)
  = reparse <$> delete "__proto__"%string prices
  /\ (k <> "__proto__"%string ->
      loadPriceCache now (savePriceCache reparse true t prices f) !! k
      = reparse <$> prices !! k)
  /\ (prices !! k = None ->
      loadPriceCache now (savePriceCache reparse true t prices f) !! k = None)
  /\ loadPriceCache now (savePriceCache reparse true t prices f) !! "__proto__"%string
     = None.
Proof.
  intros Hlt. rewrite loadPriceCache_saved. unfold isPriceCacheValid.
  rewrite (proj2 (Z.ltb_lt _ _) Hlt). split; [done|]. split; [|split].
  - intros Hne. by rewrite lookup_fmap, lookup_delete_ne.
  - intros Hk. rewrite lookup_fmap.
    destruct (decide (k = "__proto__"%string)) as [->|Hne].
    + by rewrite lookup_delete_eq.
    + by rewrite lookup_delete_ne, Hk.
  - by rewrite lookup_fmap, lookup_delete_eq.
Qed.

(** X4: on a directory that takes writes, [savePriceToCache] writes the
    new price together with the entries that are still valid at the
    time of the call, all of them under the time of the call, but for an
    entry under the key ["__proto__"], new or kept, which is not
    written: the entries that had expired are dropped from the file,
    and the ones that were kept live for two more minutes. *)
Theorem savePriceToCache_restamps (now later : Z) (scripcode : string) (d : Data)
    (f : CacheFile (gmap string (@CachedPrice Data))) :
  let f' := savePriceToCache reparse true now scripcode d f in
  f' = Some (Json ((fun x => mkCachedPrice now (reparse x))
                     <$> delete "__proto__"%string
                           (<[scripcode := d]> (loadPriceCache now f))))
  /\ (later - now < PRICE_CACHE_DURATION_MS ->
      loadPriceCache later f'
      = reparse <$> delete "__proto__"%string
                      (<[scripcode := d]> (loadPriceCache now f))).
Proof.
  intros f'. unfold f', savePriceToCache. split.
  - apply savePriceCache_written.
  - intros Hlt. rewrite loadPriceCache_saved. unfold isPriceCacheValid.
    by rewrite (proj2 (Z.ltb_lt _ _) Hlt).
Qed.

(** X5: on a price file that is not written in between, a later
    [loadPriceCache] returns nothing an earlier one did not return, and
    with the same payload. *)
Theorem price_entries_only_expire (now1 now2 : Z)
    (f : CacheFile (gmap string (@CachedPrice Data))) :
  now1 <= now2 -> loadPriceCache now2 f ⊆ loadPriceCache now1 f.
Proof.
  intros Hle. apply map_subseteq_spec. intros k x.
  destruct f as [[| |doc]|]; try (cbn; by rewrite lookup_empty).
  rewrite !loadPriceCache_lookup. destruct (doc !! k) as [cp|]; [|done].
  unfold isPriceCacheValid.
  destruct (Z.ltb_spec (now2 - timestamp cp) PRICE_CACHE_DURATION_MS); [|done].
  by rewrite (proj2 (Z.ltb_lt _ _)) by lia.
Qed.
End PriceMore.

Section FundMore.
Context {Data : Type} (reparse : Data -> Data).
Import FundamentalsCache.

(** X6: on a fundamentals file that is not written in between, what
    [loadFundamentalsCache] returns at some time it returns at every
    earlier time. *)
Theorem fundamentals_only_expire (now1 now2 : Z)
    (f : CacheFile (@CachedFundamentals Data)) (m : gmap string Data) :
  now1 <= now2 ->
  loadFundamentalsCache now2 f = Some m -> loadFundamentalsCache now1 f = Some m.
Proof.
  intros Hle. destruct f as [[| |doc]|]; try done.
  rewrite !loadFundamentalsCache_document.
  destruct (timestamp doc) as [ts|]; [|done].
  destruct (data doc) as [d|]; [|done].
  destruct (negb (ts =? 0)); [|done]. cbn. unfold isCacheValid.
  destruct (Z.ltb_spec (now2 - ts) CACHE_DURATION_MS); [|done].
  by rewrite (proj2 (Z.ltb_lt _ _)) by lia.
Qed.
End FundMore.

Section FetcherMore.
Context (parseFloat : string -> float)
        (isoNow : string)
        (fetchHeaderData : string -> Result (BseIndia.Response BseIndia.BSEResponse))
        (fetchComHeader :
           string -> Result (BseIndia.Response BseIndia.BSEFundamentalsResponse)).
Import BseIndia.

Lemma fetchBSEData_scripcode (sc : string) (d : BSEStockData) :
  fetchBSEData parseFloat isoNow fetchHeaderData sc = Some d -> scripcode d = sc.
Proof.
  unfold fetchBSEData, tryCatch.
  destruct (fetchHeaderData sc) as [response|e]; [|done]. cbn.
  destruct (ok response); [|done]. cbn.
  destruct (json response); [|done]. cbn. by intros [= <-].
Qed.

Lemma fetchBSEFundamentals_scripcode (sc : string) (d : BSEFundamentalsData) :
  fetchBSEFundamentals parseFloat fetchComHeader sc = Some d -> f_scripcode d = sc.
Proof.
  unfold fetchBSEFundamentals, tryCatch.
  destruct (fetchComHeader sc) as [response|e]; [|done]. cbn.
  destruct (ok response); [|done]. cbn.
  destruct (json response); [|done]. cbn. by intros [= <-].
Qed.

(** X7: in the map a fetch loop returns, a record is filed under the
    scripcode it carries in its own [scripcode] field. *)
Theorem fetched_records_keyed (scripcodes : list string) (k : string) :
  (forall d,
     (fetchMultipleBSEData parseFloat isoNow fetchHeaderData scripcodes).1 !! k = Some d ->
     scripcode d = k)
  /\ (forall d,
        (fetchMultipleBSEFundamentals parseFloat fetchComHeader scripcodes).1 !! k
          = Some d ->
        f_scripcode d = k).
Proof.
  split; intros d.
  - unfold fetchMultipleBSEData. rewrite fetchMultiple_lookup.
    destruct (decide (k ∈ scripcodes)); [|done]. apply fetchBSEData_scripcode.
  - unfold fetchMultipleBSEFundamentals. rewrite fetchMultiple_lookup.
    destruct (decide (k ∈ scripcodes)); [|done]. apply fetchBSEFundamentals_scripcode.
Qed.

(** X8: two lists with the same members, in any order and with any
    repetitions, give the same map in both fetch loops. *)
Theorem fetch_order_irrelevant (l1 l2 : list string) :
  (forall sc, sc ∈ l1 <-> sc ∈ l2) ->
  (fetchMultipleBSEData parseFloat isoNow fetchHeaderData l1).1
  = (fetchMultipleBSEData parseFloat isoNow fetchHeaderData l2).1
  /\ (fetchMultipleBSEFundamentals parseFloat fetchComHeader l1).1
     = (fetchMultipleBSEFundamentals parseFloat fetchComHeader l2).1.
Proof.
  intros Hset.
  assert (Hany : forall (R : Type) (fetchOne : string -> option R),
            (fetchMultiple fetchOne l1).1 = (fetchMultiple fetchOne l2).1).
  { intros R fetchOne. apply map_eq. intros sc. rewrite !fetchMultiple_lookup.
    destruct (decide (sc ∈ l1)) as [H1|H1], (decide (sc ∈ l2)) as [H2|H2]; try done.
    - by apply Hset in H1.
    - by apply Hset in H2. }
  split; apply Hany.
Qed.
End FetcherMore.

Section LoopMore.
Context {R : Type} (fetchOne : string -> option R).
Import BseIndia.

Lemma elapsed_schedule (l : list string) (count j : nat) :
  PortfolioData.elapsed (schedule l j count) = 1000 * Z.of_nat (pred count).
Proof.
  revert j. induction count as [|c IH]; intros j; [done|].
  cbn [schedule PortfolioData.elapsed foldr]. destruct c as [|c']; [done|].
  cbn [foldr]. fold (PortfolioData.elapsed (schedule l (S j) (S c'))).
  rewrite IH. unfold BATCH_DELAY_MS. cbn [pred]. lia.
Qed.

Lemma fetchMultiple_elapsed (l : list string) :
  PortfolioData.elapsed (fetchMultiple fetchOne l).2
  = 1000 * Z.of_nat (pred (batchCount (length l))).
Proof. rewrite fetchMultiple_steps. apply elapsed_schedule. Qed.
End LoopMore.

(** ** [getFundamentalsForBSEScripcodes] *)

Lemma missing_spec (result : gmap string BseIndia.BSEFundamentalsData)
    (l : list string) (k : string) :
  k ∈ List.filter (fun sc => negb (bool_decide (is_Some (result !! sc)))) l
  <-> k ∈ l /\ result !! k = None.
Proof.
  rewrite list_elem_of_In, List.filter_In, <- list_elem_of_In.
  rewrite negb_true_iff, bool_decide_eq_false.
  rewrite <- eq_None_not_Some. tauto.
Qed.

Section FundamentalsForFacts.
Context (parseFloat : string -> float)
        (fetchComHeader :
           string -> Result (BseIndia.Response BseIndia.BSEFundamentalsResponse))
        (reparseFundamentals :
           BseIndia.BSEFundamentalsData -> BseIndia.BSEFundamentalsData).
Import PortfolioData.

Local Abbreviation fundamentalsFor :=
  (getFundamentalsForBSEScripcodes parseFloat fetchComHeader reparseFundamentals).
Local Abbreviation fetchRatios := (BseIndia.fetchBSEFundamentals parseFloat fetchComHeader).
Local Abbreviation fetchAllRatios :=
  (BseIndia.fetchMultipleBSEFundamentals parseFloat fetchComHeader).

(** What [getFundamentalsForBSEScripcodes] does, in one piece. *)
Lemma fundamentalsFor_unfold (l : list string) (w : World) :
  let cached :=
    default ∅ (FundamentalsCache.loadFundamentalsCache (now w) (fundamentalsFile w)) in
  let missing :=
    List.filter (fun sc => negb (bool_decide (is_Some (cached !! sc)))) l in
  let fetched := fetchAllRatios missing in
  fundamentalsFor l w =
    if decide (l = []) then (∅, w)
    else if decide (missing = []) then (cached, w)
    else (fetched.1 ∪ cached,
          withFundamentalsFile
            (FundamentalsCache.saveFundamentalsCache reparseFundamentals (writable w)
               (now w + elapsed fetched.2) (fetched.1 ∪ cached) (fundamentalsFile w))
            (afterSteps fetched.2 w)).
Proof.
  intros cached missing fetched. unfold getFundamentalsForBSEScripcodes.
  destruct (decide (l = [])) as [->|Hl]; [done|].
  rewrite decide_False by (by destruct l).
  assert (Hc : match FundamentalsCache.loadFundamentalsCache (now w) (fundamentalsFile w) with
               | Some c => setAll (map_to_list c) ∅
               | None => ∅
               end = cached).
  { unfold cached. destruct (FundamentalsCache.loadFundamentalsCache _ _); cbn; [|done].
    apply setAll_copy. }
  rewrite Hc. fold missing.
  destruct (decide (missing = [])) as [Hm|Hm].
  - by rewrite Hm.
  - rewrite decide_False by (by destruct missing).
    unfold fetched, fetchMultipleBSEFundamentals.
    destruct (BseIndia.fetchMultipleBSEFundamentals _ _ _) as [ff steps]. cbn.
    by rewrite setAll_map_to_list.
Qed.

Lemma fundamentalsFor_all_cached (l : list string) (w : World) :
  List.filter
    (fun sc => negb (bool_decide (is_Some
       (default ∅ (FundamentalsCache.loadFundamentalsCache (now w) (fundamentalsFile w))
          !! sc)))) l = [] ->
  (fundamentalsFor l w).2 = w.
Proof.
  intros Hm. rewrite fundamentalsFor_unfold, Hm.
  by destruct (decide (l = [])).
Qed.

Lemma fundamentalsFor_first (l : list string) (w : World) (k : string) :
  let cached :=
    default ∅ (FundamentalsCache.loadFundamentalsCache (now w) (fundamentalsFile w)) in
  (l = [] -> fundamentalsFor l w = (∅, w))
  /\ (l <> [] ->
      (fundamentalsFor l w).1 !! k =
        match cached !! k with
        | Some d => Some d
        | None => if decide (k ∈ l) then fetchRatios k else None
        end).
Proof.
  intros cached. rewrite fundamentalsFor_unfold. fold cached. split.
  - intros ->. done.
  - intros Hl. rewrite decide_False by done.
    set (missing := List.filter _ l).
    destruct (decide (missing = [])) as [Hm|Hm]; cbn.
    + destruct (cached !! k) as [d|] eqn:Hk; [done|].
      rewrite decide_False; [done|]. intros Hin.
      assert (k ∈ missing) as Hkm by (by apply missing_spec).
      rewrite Hm in Hkm. by apply elem_of_nil in Hkm.
    + rewrite lookup_union.
      unfold BseIndia.fetchMultipleBSEFundamentals. rewrite fetchMultiple_lookup.
      destruct (cached !! k) as [d|] eqn:Hk.
      * rewrite decide_False by (unfold missing; rewrite missing_spec; intros [_ ?]; congruence).
        done.
      * destruct (decide (k ∈ l)) as [Hin|Hnin].
        -- rewrite decide_True by (by apply missing_spec).
           by destruct (fetchRatios k).
        -- rewrite decide_False; [done|].
           unfold missing. rewrite missing_spec. by intros [? _].
Qed.

(** X9: [getFundamentalsForBSEScripcodes] returns an empty map for an
    empty request and leaves everything as it is; for any other request
    the map holds, for a scripcode the cache has, the cached record
    (asked for or not), and for a scripcode the cache lacks the fetched
    record if the scripcode was asked for and its fetch returned one. *)
Theorem fundamentals_cache_first (l : list string) (w : World) (k : string) :
  let cached :=
    default ∅ (FundamentalsCache.loadFundamentalsCache (now w) (fundamentalsFile w)) in
  (l = [] -> fundamentalsFor l w = (∅, w))
  /\ (l <> [] ->
      (fundamentalsFor l w).1 !! k =
        match cached !! k with
        | Some d => Some d
        | None => if decide (k ∈ l) then fetchRatios k else None
        end).
Proof. apply fundamentalsFor_first. Qed.

(** X10: [getFundamentalsForBSEScripcodes] asks the vendor for the
    requested scripcodes the cache lacks, in the order of the request,
    and for no other; when the cache lacks none, it asks for nothing and
    writes nothing. *)
Theorem only_missing_fetched (l : list string) (w : World) :
  let cached :=
    default ∅ (FundamentalsCache.loadFundamentalsCache (now w) (fundamentalsFile w)) in
  let missing :=
    List.filter (fun sc => negb (bool_decide (is_Some (cached !! sc)))) l in
  let steps := (fetchAllRatios missing).2 in
  (forall sc, sc ∈ missing <-> sc ∈ l /\ cached !! sc = None)
  /\ log (fundamentalsFor l w).2 = log w ++ steps
  /\ concat (BseIndia.batchesOf steps) = missing
  /\ (missing = [] -> (fundamentalsFor l w).2 = w).
Proof.
  intros cached missing steps.
  split; [intros sc; apply missing_spec|].
  assert (Hsteps : concat (BseIndia.batchesOf steps) = missing).
  { unfold steps, BseIndia.fetchMultipleBSEFundamentals.
    apply (fetchMultiple_batched fetchRatios missing). }
  rewrite fundamentalsFor_unfold. fold cached. fold missing. fold steps.
  destruct (decide (l = [])) as [->|Hl].
  - cbn. split; [by rewrite app_nil_r|]. by split.
  - destruct (decide (missing = [])) as [Hm|Hm].
    + cbn. unfold steps. rewrite Hm. cbn. split; [by rewrite app_nil_r|]. by split.
    + cbn. split; [done|]. by split.
Qed.

Lemma elapsed_nonneg (missing : list string) : 0 <= elapsed (fetchAllRatios missing).2.
Proof.
  unfold BseIndia.fetchMultipleBSEFundamentals.
  rewrite (fetchMultiple_elapsed fetchRatios missing). lia.
Qed.

(** X11: after a call of [getFundamentalsForBSEScripcodes] that ends
    with a record for every requested scripcode (on a directory that
    takes writes, the clock not at zero), the same request again asks
    the vendor for nothing and writes nothing; it returns the same map,
    as the first call returned it or as read back from the file. *)
Theorem fundamentals_second_call (l : list string) (w : World) :
  writable w = true -> 0 < now w ->
  (forall sc, sc ∈ l -> is_Some ((fundamentalsFor l w).1 !! sc)) ->
  let first := fundamentalsFor l w in
  let second := fundamentalsFor l first.2 in
  second.2 = first.2
  /\ (second.1 = first.1 \/ second.1 = reparseFundamentals <$> first.1).
Proof.
  intros Hw Hnow Hall first second.
  assert (Hgoal : second = (first.1, first.2)
                  \/ second = (reparseFundamentals <$> first.1, first.2)).
  { unfold second, first in *. clear first second.
    rewrite (fundamentalsFor_unfold l w) in *.
    set (cached := default ∅ _) in *. set (missing := List.filter _ l) in *.
    destruct (decide (l = [])) as [->|Hl]; [by left|].
    destruct (decide (missing = [])) as [Hm|Hm].
    - left. cbn [fst snd]. rewrite (fundamentalsFor_unfold l w). fold cached. fold missing.
      rewrite decide_False by done. by rewrite decide_True by done.
    - right. cbn [fst snd] in *. rewrite fundamentalsFor_unfold. cbn [now fundamentalsFile
        withFundamentalsFile afterSteps writable].
      rewrite Hw.
      pose proof (elapsed_nonneg missing) as Hel.
      rewrite loadFundamentalsCache_saved by lia.
      unfold FundamentalsCache.isCacheValid.
      rewrite (proj2 (Z.ltb_lt _ _)) by (unfold FundamentalsCache.CACHE_DURATION_MS; lia).
      cbn [default]. rewrite decide_False by done.
      rewrite decide_True; [done|].
      match goal with |- ?x = [] => destruct x as [|k rest] eqn:Hx end; [done|].
      exfalso. assert (k ∈ k :: rest) as Hk by (apply elem_of_cons; by left).
      rewrite <- Hx in Hk. apply missing_spec in Hk as [Hkl Hnone].
      unfold id in Hnone. rewrite lookup_fmap in Hnone. destruct (Hall k Hkl) as [d Hd].
      by rewrite Hd in Hnone. }
  destruct Hgoal as [-> | ->]; cbn [fst snd]; (split; [done|]); [by left|by right].
Qed.

(** The call leaves the clock behind by the pauses of its loop, and
    touches the fundamentals file only. *)
Lemma fundamentalsFor_frame (l : list string) (w : World) :
  let w' := (fundamentalsFor l w).2 in
  writable w' = writable w /\ scripcodeFile w' = scripcodeFile w
  /\ priceFile w' = priceFile w /\ now w <= now w'.
Proof.
  cbn zeta. rewrite fundamentalsFor_unfold.
  destruct (decide (l = [])); [by repeat split|].
  destruct (decide (_ = [])); [by repeat split|].
  cbn. repeat split. pose proof (elapsed_nonneg
    (List.filter (fun sc => negb (bool_decide (is_Some
       (default ∅ (FundamentalsCache.loadFundamentalsCache (now w) (fundamentalsFile w))
          !! sc)))) l)). lia.
Qed.

(** What the call returns depends on the clock and on the fundamentals
    file only. *)
Lemma fundamentalsFor_reads (l : list string) (w w' : World) :
  now w = now w' -> fundamentalsFile w = fundamentalsFile w' ->
  (fundamentalsFor l w).1 = (fundamentalsFor l w').1.
Proof.
  intros Hn Hf. rewrite !fundamentalsFor_unfold, Hn, Hf.
  destruct (decide (l = [])); [done|].
  by destruct (decide (_ = [])).
Qed.

Lemma fundamentalsFor_readonly (l : list string) (w : World) :
  writable w = false -> fundamentalsFile (fundamentalsFor l w).2 = fundamentalsFile w.
Proof.
  intros Hw. rewrite fundamentalsFor_unfold.
  destruct (decide (l = [])); [done|].
  destruct (decide (_ = [])); [done|].
  cbn. by rewrite Hw.
Qed.

(** What the call returns for a scripcode it was asked for. *)
Lemma fundamentalsFor_lookup (l : list string) (w : World) (sc : string) :
  sc ∈ l ->
  (fundamentalsFor l w).1 !! sc =
    match FundamentalsCache.loadFundamentalsCache (now w) (fundamentalsFile w)
            ≫= (fun c => c !! sc) with
    | Some d => Some d
    | None => fetchRatios sc
    end.
Proof.
  intros Hin.
  assert (Hl : l <> []) by (intros ->; by apply elem_of_nil in Hin).
  destruct (fundamentalsFor_first l w sc) as [_ H]. rewrite (H Hl).
  rewrite decide_True by done.
  by destruct (FundamentalsCache.loadFundamentalsCache _ _).
Qed.

Lemma filter_all_missing (l : list string) :
  List.filter
    (fun sc => negb (bool_decide (is_Some
       ((∅ : gmap string BseIndia.BSEFundamentalsData) !! sc)))) l = l.
Proof.
  induction l as [|x rest IH]; [done|]. cbn [List.filter].
  rewrite lookup_empty, bool_decide_eq_false_2 by (by intros [? ?]). cbn.
  by rewrite IH.
Qed.

(** X12: on a cache directory that takes writes, after
    [clearFundamentalsCache] [loadFundamentalsCache] returns [null] at
    any time, and the next [getFundamentalsForBSEScripcodes] fetches
    every scripcode it is asked for; on a directory that takes no
    writes the failed write is swallowed: the file is as it was, and
    what it held is still served. *)
Theorem clear_forces_refetch (l : list string) (w : World) (t : Z) :
  let cleared :=
    FundamentalsCache.clearFundamentalsCache (writable w) (fundamentalsFile w) in
  let w' := withFundamentalsFile cleared w in
  (writable w = true ->
     FundamentalsCache.loadFundamentalsCache t cleared = None
     /\ (fundamentalsFor l w').1 = (fetchAllRatios l).1
     /\ log (fundamentalsFor l w').2 = log w ++ (fetchAllRatios l).2)
  /\ (writable w = false ->
      cleared = fundamentalsFile w
      /\ FundamentalsCache.loadFundamentalsCache t cleared
         = FundamentalsCache.loadFundamentalsCache t (fundamentalsFile w)
      /\ fundamentalsFor l w' = fundamentalsFor l w).
Proof.
  cbn zeta. split; intros Hw; rewrite Hw.
  - split; [done|].
    rewrite fundamentalsFor_unfold.
    cbn [now fundamentalsFile withFundamentalsFile
           FundamentalsCache.clearFundamentalsCache].
    change (FundamentalsCache.loadFundamentalsCache (now w) (Some Whitespace))
      with (@None (gmap string BseIndia.BSEFundamentalsData)).
    cbn [default]. rewrite filter_all_missing.
    destruct (decide (l = [])) as [->|Hl].
    + cbn. by rewrite app_nil_r.
    + cbn. by rewrite (right_id_L ∅ (∪)).
  - cbn [FundamentalsCache.clearFundamentalsCache]. split; [done|]. split; [done|].
    by destruct w.
Qed.
End FundamentalsForFacts.

(** ** The two entry points: files, requests, records *)

Section ResolutionMore.
Context (searchBSEScripcode : string -> option string).
Import PortfolioData.

Local Abbreviation resolve := (resolveBSEScripcode searchBSEScripcode).
Local Abbreviation resolveEach := (resolveAll searchBSEScripcode).

(** A symbol that resolves and is still not in the cache after its call
    is a scripcode itself: a scripcode the search finds is put into the
    cache by the call. *)
Lemma resolve_new (s sc : string) (c : gmap string string) :
  (resolve s c).1.2 = Some sc -> (resolve s c).2 !! s = None ->
  BseIndia.isBSEScripcode s = true /\ sc = s /\ c !! s = None.
Proof.
  unfold resolveBSEScripcode.
  destruct (BseIndia.isBSEScripcode s); [cbn; by intros [= <-] ?|].
  destruct (Js.truthy (c !! s)) eqn:Hc.
  - cbn. intros H1 H2. congruence.
  - destruct (Js.truthy (searchBSEScripcode s)); [|done].
    cbn. intros _. by rewrite lookup_insert_eq.
Qed.

Lemma resolve_own_cache (s : string) (c1 c2 : gmap string string) :
  c1 !! s = c2 !! s -> (resolve s c1).2 !! s = (resolve s c2).2 !! s.
Proof.
  intros Heq. unfold resolveBSEScripcode. rewrite Heq.
  destruct (BseIndia.isBSEScripcode s); [done|].
  destruct (Js.truthy (c2 !! s)); [done|].
  destruct (Js.truthy (searchBSEScripcode s)); [|done].
  cbn. by rewrite !lookup_insert_eq.
Qed.

(** After all the calls the cache holds, at a symbol of the list, what
    the call for that symbol left there. *)
Lemma resolveAll_cache (symbols : list string) (c : gmap string string) (s : string) :
  NoDup symbols -> s ∈ symbols ->
  (resolveEach symbols c).2 !! s = (resolve s c).2 !! s.
Proof.
  assert (Hout : forall symbols c, s ∉ symbols -> (resolveEach symbols c).2 !! s = c !! s).
  { clear. induction symbols as [|s0 rest IH]; intros c Hnin; [done|].
    cbn [resolveAll]. destruct (resolve s0 c) as [r0 c1] eqn:Hr0.
    specialize (IH c1). destruct (resolveEach rest c1) as [rs c2]. cbn in *.
    rewrite IH by (intros ?; apply Hnin, elem_of_cons; by right).
    assert (c1 = (resolve s0 c).2) as -> by (by rewrite Hr0).
    apply resolve_other_key. intros ->. apply Hnin, elem_of_cons. by left. }
  revert c. induction symbols as [|s0 rest IH]; intros c Hnd Hin.
  - by apply elem_of_nil in Hin.
  - apply NoDup_cons in Hnd as [Hs0 Hrest]. cbn [resolveAll].
    destruct (resolve s0 c) as [r0 c1] eqn:Hr0.
    pose proof (Hout rest c1) as Hout1. specialize (IH c1 Hrest).
    destruct (resolveEach rest c1) as [rs c2]. cbn in *.
    assert (c1 = (resolve s0 c).2) as Hc1 by (by rewrite Hr0).
    apply elem_of_cons in Hin as [->|Hin].
    + rewrite Hout1 by done. by rewrite Hc1.
    + rewrite IH by done.
      assert (s <> s0) as Hne by (by intros ->).
      apply resolve_own_cache. rewrite Hc1. by apply resolve_other_key.
Qed.

(** [newMappings] holds a symbol only if a call returned a scripcode for
    it and the cache, after the calls, has nothing for it. *)
Lemma recordResolved_new (cache : gmap string string)
    (resolved : list (string * option string)) (s sc : string) :
  (recordResolved cache resolved).1.2 !! s = Some sc ->
  (s, Some sc) ∈ resolved /\ cache !! s = None.
Proof.
  unfold recordResolved.
  cut (forall acc : gmap string string * gmap string string * list string,
         (foldl
            (fun acc r =>
               let '(symbolToScripcode, newMappings, values) := acc in
               match r.2 with
               | Some sc =>
                   if Js.truthy r.2 then
                     (<[r.1 := sc]> symbolToScripcode,
                      if bool_decide (is_Some (cache !! r.1)) then newMappings
                      else <[r.1 := sc]> newMappings,
                      values ++ [sc])
                   else acc
               | None => acc
               end) acc resolved).1.2 !! s = Some sc ->
         acc.1.2 !! s = Some sc
         \/ ((s, Some sc) ∈ resolved /\ cache !! s = None)).
  { intros H Hl. destruct (H _ Hl) as [Hempty|?]; [|done].
    cbn in Hempty. by rewrite lookup_empty in Hempty. }
  induction resolved as [|[s0 r0] rest IH]; intros [[m nm] vals] Hl; [by left|].
  cbn [foldl] in Hl. apply IH in Hl as [Hl|[Hin Hc]].
  - cbn [fst snd] in Hl. destruct r0 as [sc0|]; [|by left].
    destruct (Js.truthy (Some sc0)) eqn:Ht0; [|by left].
    cbn [fst snd] in Hl.
    destruct (bool_decide (is_Some (cache !! s0))) eqn:Hhas; [by left|].
    apply bool_decide_eq_false in Hhas. rewrite <- eq_None_not_Some in Hhas.
    destruct (decide (s0 = s)) as [->|Hne].
    + rewrite lookup_insert_eq in Hl. injection Hl as ->.
      right. split; [|done]. apply elem_of_cons. by left.
    + rewrite lookup_insert_ne in Hl by done. by left.
  - right. split; [|done]. apply elem_of_cons. by right.
Qed.

(** The values of [symbolToScripcode] are scripcodes calls returned. *)
Lemma recordResolved_values (cache : gmap string string)
    (resolved : list (string * option string)) (sc : string) :
  sc ∈ (recordResolved cache resolved).2 -> exists s, (s, Some sc) ∈ resolved.
Proof.
  unfold recordResolved.
  cut (forall acc : gmap string string * gmap string string * list string,
         sc ∈ (foldl
            (fun acc r =>
               let '(symbolToScripcode, newMappings, values) := acc in
               match r.2 with
               | Some sc =>
                   if Js.truthy r.2 then
                     (<[r.1 := sc]> symbolToScripcode,
                      if bool_decide (is_Some (cache !! r.1)) then newMappings
                      else <[r.1 := sc]> newMappings,
                      values ++ [sc])
                   else acc
               | None => acc
               end) acc resolved).2 ->
         sc ∈ acc.2 \/ exists s, (s, Some sc) ∈ resolved).
  { intros H Hl. destruct (H _ Hl) as [Hempty|?]; [|done].
    cbn in Hempty. by apply elem_of_nil in Hempty. }
  induction resolved as [|[s0 r0] rest IH]; intros [[m nm] vals] Hl; [by left|].
  cbn [foldl] in Hl. apply IH in Hl as [Hl|[s Hin]].
  - cbn [fst snd] in Hl. destruct r0 as [sc0|]; [|by left].
    destruct (Js.truthy (Some sc0)) eqn:Ht0; [|by left].
    cbn [fst snd] in Hl. apply elem_of_app in Hl as [Hl|Hl]; [by left|].
    apply list_elem_of_singleton in Hl as ->.
    right. exists s0. apply elem_of_cons. by left.
  - right. exists s. apply elem_of_cons. by right.
Qed.
End ResolutionMore.

Section AggregatorMore.
Context (holdings : list PortfolioData.PortfolioHolding)
        (parseFloat : string -> float)
        (numberToString : float -> string)
        (isoNow : string)
        (fetchHeaderData : string -> Result (BseIndia.Response BseIndia.BSEResponse))
        (fetchComHeader :
           string -> Result (BseIndia.Response BseIndia.BSEFundamentalsResponse))
        (searchBSEScripcode : string -> option string)
        (reparsePrice : BseIndia.BSEStockData -> BseIndia.BSEStockData)
        (reparseFundamentals :
           BseIndia.BSEFundamentalsData -> BseIndia.BSEFundamentalsData).
Import PortfolioData.

Local Abbreviation aggregateAll :=
  (getPortfolioWithRealtimeData holdings parseFloat numberToString isoNow
     fetchHeaderData fetchComHeader searchBSEScripcode reparsePrice reparseFundamentals).
Local Abbreviation aggregateOne :=
  (getHoldingWithRealtimeData holdings parseFloat numberToString isoNow
     fetchHeaderData fetchComHeader searchBSEScripcode reparsePrice reparseFundamentals).
Local Abbreviation gathered :=
  (gatherData holdings parseFloat isoNow fetchHeaderData fetchComHeader
     searchBSEScripcode reparsePrice reparseFundamentals).
Local Abbreviation resolve := (resolveBSEScripcode searchBSEScripcode).
Local Abbreviation update := (updateHolding numberToString).
Local Abbreviation fundamentalsFor :=
  (getFundamentalsForBSEScripcodes parseFloat fetchComHeader reparseFundamentals).
Local Abbreviation fetchPrice := (BseIndia.fetchBSEData parseFloat isoNow fetchHeaderData).
Local Abbreviation fetchPrices :=
  (BseIndia.fetchMultipleBSEData parseFloat isoNow fetchHeaderData).
Local Abbreviation fetchRatios := (BseIndia.fetchBSEFundamentals parseFloat fetchComHeader).

Local Abbreviation env_price :=
  (gathered_price holdings parseFloat numberToString isoNow fetchHeaderData
     fetchComHeader searchBSEScripcode reparsePrice reparseFundamentals).
Local Abbreviation env_symbol :=
  (gathered_symbol holdings parseFloat isoNow fetchHeaderData fetchComHeader
     searchBSEScripcode reparsePrice reparseFundamentals).
Local Abbreviation env_resolved :=
  (gathered_resolved holdings parseFloat isoNow fetchHeaderData fetchComHeader
     searchBSEScripcode reparsePrice reparseFundamentals).
Local Abbreviation env_components :=
  (gathered_components holdings parseFloat isoNow fetchHeaderData fetchComHeader
     searchBSEScripcode reparsePrice reparseFundamentals).
Local Abbreviation env_lookup :=
  (aggregateAll_lookup holdings parseFloat numberToString isoNow fetchHeaderData
     fetchComHeader searchBSEScripcode reparsePrice reparseFundamentals).
Local Abbreviation env_split :=
  (splitCached_spec parseFloat numberToString isoNow fetchHeaderData fetchComHeader
     searchBSEScripcode reparsePrice).

(** The rest of what [gatherData] has in hand. *)
Lemma gathered_rest (w : World) :
  let cache := ScripcodeCache.loadScripcodeCache (scripcodeFile w) in
  let rs := resolveAll searchBSEScripcode (uniq (symbol <$> holdings)) cache in
  let rec := recordResolved rs.2 rs.1 in
  let w1 :=
    if decide (0 < size rec.1.2)%nat
    then withScripcodeFile
           (ScripcodeCache.saveScripcodeCache (writable w)
              (setAll (map_to_list rec.1.2) rs.2) (scripcodeFile w)) w
    else w in
  let fw := fundamentalsFor (uniq rec.2) w1 in
  let sp := splitCached (PriceCache.loadPriceCache (now w) (priceFile w)) (uniq rec.2) in
  newMappings (gathered w) = rec.1.2
  /\ uniqueScripcodes (gathered w) = uniq rec.2
  /\ fundamentalsMap (gathered w) = fw.1
  /\ world (gathered w) =
       if decide (0 < length sp.2)%nat
       then withPriceFile
              (PriceCache.savePriceCache reparsePrice (writable fw.2)
                 (now fw.2 + elapsed (fetchPrices sp.2).2) (fetchPrices sp.2).1
                 (priceFile fw.2))
              (afterSteps (fetchPrices sp.2).2 fw.2)
       else fw.2.
Proof.
  unfold gatherData. cbn zeta.
  destruct (resolveAll searchBSEScripcode (uniq (symbol <$> holdings))
              (ScripcodeCache.loadScripcodeCache (scripcodeFile w)))
    as [resolved cache1]. cbn [fst snd].
  destruct (recordResolved cache1 resolved) as [[s2s nm] vals]. cbn [fst snd].
  destruct (getFundamentalsForBSEScripcodes _ _ _ _ _) as [fm w1].
  destruct (splitCached _ _) as [pdm toFetch]. cbn [fst snd].
  destruct (decide (0 < length toFetch)%nat); [|done].
  unfold fetchMultipleBSEData.
  by destruct (BseIndia.fetchMultipleBSEData _ _ _ _).
Qed.

(** [newMappings] only ever holds symbols that are scripcodes. *)
Lemma gathered_newMappings (w : World) (s sc : string) :
  newMappings (gathered w) !! s = Some sc ->
  s ∈ symbol <$> holdings /\ BseIndia.isBSEScripcode s = true /\ sc = s
  /\ ScripcodeCache.loadScripcodeCache (scripcodeFile w) !! s = None.
Proof.
  destruct (gathered_rest w) as (-> & _). intros Hnm.
  apply recordResolved_new in Hnm as [Hin Hnone].
  destruct (uniq_spec (symbol <$> holdings)) as [Hnd Hmem].
  set (cache := ScripcodeCache.loadScripcodeCache (scripcodeFile w)) in *.
  assert (Hs : s ∈ uniq (symbol <$> holdings)).
  { rewrite <- (resolveAll_symbols searchBSEScripcode _ cache).
    apply list_elem_of_fmap. by exists (s, Some sc). }
  split; [by apply Hmem|].
  apply (resolve_new searchBSEScripcode s sc cache).
  - by rewrite (resolveAll_result searchBSEScripcode _ _ _ _ Hnd Hin).
  - by rewrite <- (resolveAll_cache searchBSEScripcode _ cache s Hnd Hs).
Qed.

Lemma gathered_scripcodeFile (w : World) :
  newMappings (gathered w) = ∅ -> scripcodeFile (world (gathered w)) = scripcodeFile w.
Proof.
  destruct (gathered_rest w) as (Hnm & _ & _ & ->). rewrite Hnm. intros ->.
  rewrite map_size_empty. rewrite (decide_False (P := (0 < 0)%nat)) by lia.
  match goal with
  | |- context [getFundamentalsForBSEScripcodes ?a ?b ?c ?l ?w0] =>
      destruct (fundamentalsFor_frame a b c l w0) as (_ & Hsf & _)
  end.
  by destruct (decide (0 < length _)%nat).
Qed.

(** X13: when no holding has a symbol that is itself a scripcode, neither
    entry point writes the scripcode file: [resolveBSEScripcode] puts a
    scripcode the search finds into the loaded map, so the later test
    [!scripcodeCache.has(symbol)] fails for it and no save follows. *)
Theorem searched_scripcodes_not_saved (w : World) (sym : string) :
  Forall (fun h => BseIndia.isBSEScripcode (symbol h) = false) holdings ->
  scripcodeFile (aggregateAll w).2 = scripcodeFile w
  /\ scripcodeFile (aggregateOne sym w).2 = scripcodeFile w.
Proof.
  intros Hall. split.
  - unfold getPortfolioWithRealtimeData. cbn [snd].
    apply gathered_scripcodeFile. apply map_eq. intros s. rewrite lookup_empty.
    destruct (newMappings (gathered w) !! s) as [sc|] eqn:Hnm; [|done].
    apply gathered_newMappings in Hnm as (Hin & Hd & _).
    apply list_elem_of_fmap in Hin as (h & -> & Hh).
    rewrite Forall_forall in Hall. by rewrite (Hall h Hh) in Hd.
  - unfold getHoldingWithRealtimeData.
    destruct (findHolding holdings sym) as [h|] eqn:Hfind; [|done].
    apply findHolding_Some in Hfind as [Hh _].
    rewrite Forall_forall in Hall. specialize (Hall h Hh).
    set (cache := ScripcodeCache.loadScripcodeCache (scripcodeFile w)).
    pose proof (resolve_new searchBSEScripcode (symbol h)) as Hnew.
    specialize (Hnew (default "" (resolve (symbol h) cache).1.2) cache).
    destruct (resolve (symbol h) cache) as [[s r] c1]. cbn [fst snd] in Hnew.
    assert (Hsame : Js.truthy r
                    && negb (bool_decide (is_Some (c1 !! symbol h))) = false).
    { destruct r as [sc|]; [|done]. cbn [default] in Hnew.
      destruct (c1 !! symbol h) eqn:Hc1.
      - rewrite bool_decide_eq_true_2 by (by eexists). apply andb_false_r.
      - destruct (Hnew eq_refl eq_refl) as (Hd & _). congruence. }
    rewrite Hsame.
    destruct r as [sc|]; [|done].
    destruct (Js.truthy (Some sc)); [|done].
    unfold priceFor.
    destruct (PriceCache.loadPriceCache (now w) (priceFile w) !! sc).
    + match goal with
      | |- context [getFundamentalsForBSEScripcodes ?a ?b ?c ?l ?w0] =>
          destruct (fundamentalsFor_frame a b c l w0) as (_ & Hsf & _);
          destruct (getFundamentalsForBSEScripcodes a b c l w0) as [fm w2]
      end.
      cbn in *. by destruct (fm !! sc).
    + destruct (fetchBSEData _ _ _ _).
      * match goal with
        | |- context [getFundamentalsForBSEScripcodes ?a ?b ?c ?l ?w0] =>
            destruct (fundamentalsFor_frame a b c l w0) as (_ & Hsf & _);
            destruct (getFundamentalsForBSEScripcodes a b c l w0) as [fm w2]
        end.
        cbn in *. by destruct (fm !! sc).
      * match goal with
        | |- context [getFundamentalsForBSEScripcodes ?a ?b ?c ?l ?w0] =>
            destruct (fundamentalsFor_frame a b c l w0) as (_ & Hsf & _);
            destruct (getFundamentalsForBSEScripcodes a b c l w0) as [fm w2]
        end.
        cbn in *. by destruct (fm !! sc).
Qed.

(** A scripcode some symbol resolved to is among [uniqueScripcodes]. *)
Lemma gathered_unique (w : World) (s sc : string) :
  symbolToScripcode (gathered w) !! s = Some sc -> sc ∈ uniqueScripcodes (gathered w).
Proof.
  intros Hs. destruct (env_components w) as [Hs2s _].
  destruct (gathered_rest w) as (_ & -> & _).
  rewrite Hs2s in Hs. apply uniq_spec.
  destruct (recordResolved_lookup _ _ _ _ Hs) as [Hin Ht].
  apply (recordResolved_complete _ _ s sc); [|done|done].
  rewrite resolveAll_symbols. apply uniq_spec.
Qed.

(** [fundamentalsMap] holds, for a scripcode a symbol resolved to, the
    cached record, else the fetched one. *)
Lemma gathered_fundamentals (w : World) (s sc : string) :
  symbolToScripcode (gathered w) !! s = Some sc ->
  fundamentalsMap (gathered w) !! sc =
    match FundamentalsCache.loadFundamentalsCache (now w) (fundamentalsFile w)
            ≫= (fun c => c !! sc) with
    | Some d => Some d
    | None => fetchRatios sc
    end.
Proof.
  intros Hs. pose proof (gathered_unique w s sc Hs) as Hsc.
  destruct (gathered_rest w) as (_ & Hu & -> & _). rewrite Hu in Hsc.
  rewrite (fundamentalsFor_lookup _ _ _ _ _ sc Hsc).
  by destruct (decide (0 < size _)%nat).
Qed.

Lemma aggregateAll_resolved (w : World) (i : nat) (h : PortfolioHolding) (sc : string) :
  holdings !! i = Some h ->
  (resolve (symbol h) (ScripcodeCache.loadScripcodeCache (scripcodeFile w))).1.2
    = Some sc ->
  (aggregateAll w).1 !! i = Some {| symbol := symbol h; companyName := companyName h; sector := sector h;
         fixed := fixed h;
         realtime :=
           match PriceCache.loadPriceCache (now w) (priceFile w) !! sc with
           | Some cachedPrice => recompute numberToString h cachedPrice
           | None =>
               match fetchPrice sc with
               | Some fetched => recompute numberToString h fetched
               | None => realtime h
               end
           end;
         fundamentals :=
           match FundamentalsCache.loadFundamentalsCache (now w) (fundamentalsFile w)
                   ≫= (fun c => c !! sc) with
           | Some d => mapBSEFundamentalsToPortfolio d (fundamentals h)
           | None =>
               match fetchRatios sc with
               | Some d => mapBSEFundamentalsToPortfolio d (fundamentals h)
               | None => fundamentals h
               end
           end |}.
Proof.
  intros Hi Hres.
  assert (Hs : symbolToScripcode (gathered w) !! symbol h = Some sc).
  { rewrite env_symbol; [done|].
    apply list_elem_of_fmap. exists h. split; [done|].
    by apply list_elem_of_lookup_2 with i. }
  pose proof (resolve_truthy _ _ _ _ Hres) as Ht.
  rewrite env_lookup, Hi.
  cbn [fmap option_fmap option_map]. f_equal.
  unfold updateHolding. rewrite Hs, Ht.
  rewrite (env_price w _ _ Hs).
  rewrite (gathered_fundamentals w _ _ Hs).
  destruct (PriceCache.loadPriceCache (now w) (priceFile w) !! sc), (fetchPrice sc),
    (FundamentalsCache.loadFundamentalsCache (now w) (fundamentalsFile w)
       ≫= (fun c => c !! sc)), (fetchRatios sc); by destruct h.
Qed.

Lemma aggregateAll_unresolved (w : World) (i : nat) (h : PortfolioHolding) :
  holdings !! i = Some h ->
  (resolve (symbol h) (ScripcodeCache.loadScripcodeCache (scripcodeFile w))).1.2 = None ->
  (aggregateAll w).1 !! i = Some h.
Proof.
  intros Hi Hnone.
  rewrite env_lookup, Hi.
  cbn. f_equal. apply updateHolding_unresolved.
  destruct (symbolToScripcode (gathered w) !! symbol h) as [sc|] eqn:Hs; [|done].
  apply env_resolved in Hs as [Hs _].
  congruence.
Qed.

Lemma aggregateOne_resolved (w : World) (sym : string) (h : PortfolioHolding)
    (sc : string) :
  findHolding holdings sym = Some h ->
  (resolve (symbol h) (ScripcodeCache.loadScripcodeCache (scripcodeFile w))).1.2
    = Some sc ->
  (aggregateOne sym w).1 = Some {| symbol := symbol h; companyName := companyName h; sector := sector h;
         fixed := fixed h;
         realtime :=
           match PriceCache.loadPriceCache (now w) (priceFile w) !! sc with
           | Some cachedPrice => recompute numberToString h cachedPrice
           | None =>
               match fetchPrice sc with
               | Some fetched => recompute numberToString h fetched
               | None => realtime h
               end
           end;
         fundamentals :=
           match FundamentalsCache.loadFundamentalsCache (now w) (fundamentalsFile w)
                   ≫= (fun c => c !! sc) with
           | Some d => mapBSEFundamentalsToPortfolio d (fundamentals h)
           | None =>
               match fetchRatios sc with
               | Some d => mapBSEFundamentalsToPortfolio d (fundamentals h)
               | None => fundamentals h
               end
           end |}.
Proof.
  intros Hfind Hres. pose proof (resolve_truthy _ _ _ _ Hres) as Ht.
  unfold getHoldingWithRealtimeData. rewrite Hfind.
  set (cache := ScripcodeCache.loadScripcodeCache (scripcodeFile w)) in *.
  destruct (resolve (symbol h) cache) as [[s r] c1]. cbn in Hres. subst r.
  rewrite Ht. cbn [andb].
  set (w1 := if negb _ then _ else w).
  assert (now w1 = now w /\ fundamentalsFile w1 = fundamentalsFile w
          /\ priceFile w1 = priceFile w) as (Hn1 & Hf1 & Hp1)
    by (unfold w1; by destruct (negb _)).
  unfold priceFor.
  destruct (PriceCache.loadPriceCache (now w) (priceFile w) !! sc) as [cp|] eqn:Hcp.
  - pose proof (fundamentalsFor_single parseFloat fetchComHeader reparseFundamentals
                  sc w1) as Hfm.
    rewrite Hn1, Hf1 in Hfm.
    destruct (getFundamentalsForBSEScripcodes _ _ _ _ _) as [fm w2].
    cbn [fst snd] in *. rewrite Hfm.
    destruct (FundamentalsCache.loadFundamentalsCache (now w) (fundamentalsFile w)
                ≫= (fun c => c !! sc)), (fetchRatios sc); by destruct h.
  - unfold fetchBSEData. destruct (fetchPrice sc) as [d|] eqn:Hd.
    + match goal with
      | |- context [getFundamentalsForBSEScripcodes _ _ _ [sc] ?w'] =>
          pose proof (fundamentalsFor_single parseFloat fetchComHeader
                        reparseFundamentals sc w') as Hfm
      end.
      destruct (getFundamentalsForBSEScripcodes _ _ _ _ _) as [fm w2].
      cbn [now fundamentalsFile withPriceFile] in Hfm. rewrite Hn1, Hf1 in Hfm.
      cbn [fst snd] in *. rewrite Hfm.
      destruct (FundamentalsCache.loadFundamentalsCache (now w) (fundamentalsFile w)
                ≫= (fun c => c !! sc)), (fetchRatios sc); by destruct h.
    + pose proof (fundamentalsFor_single parseFloat fetchComHeader reparseFundamentals
                    sc w1) as Hfm.
      rewrite Hn1, Hf1 in Hfm.
      destruct (getFundamentalsForBSEScripcodes _ _ _ _ _) as [fm w2].
      cbn [fst snd] in *. rewrite Hfm.
      destruct (FundamentalsCache.loadFundamentalsCache (now w) (fundamentalsFile w)
                ≫= (fun c => c !! sc)), (fetchRatios sc); by destruct h.
Qed.

(** X14: the record [getPortfolioWithRealtimeData] returns for a holding
    whose symbol resolves to a scripcode: the static part as it is; the
    [realtime] block recomputed from the cached price, else from the
    fetched one, and left as it is when there is neither; the
    fundamentals overlaid with the cached record, else with the fetched
    one, and left as they are when there is neither.  Price and
    fundamentals are applied independently of each other. *)
Theorem resolved_holding_record (w : World) (i : nat) (h : PortfolioHolding)
    (sc : string) :
  holdings !! i = Some h ->
  (resolve (symbol h) (ScripcodeCache.loadScripcodeCache (scripcodeFile w))).1.2
    = Some sc ->
  (aggregateAll w).1 !! i =
    Some {| symbol := symbol h; companyName := companyName h; sector := sector h;
            fixed := fixed h;
            realtime :=
              match PriceCache.loadPriceCache (now w) (priceFile w) !! sc with
              | Some cachedPrice => recompute numberToString h cachedPrice
              | None =>
                  match fetchPrice sc with
                  | Some fetched => recompute numberToString h fetched
                  | None => realtime h
                  end
              end;
            fundamentals :=
              match FundamentalsCache.loadFundamentalsCache (now w) (fundamentalsFile w)
                      ≫= (fun c => c !! sc) with
              | Some d => mapBSEFundamentalsToPortfolio d (fundamentals h)
              | None =>
                  match fetchRatios sc with
                  | Some d => mapBSEFundamentalsToPortfolio d (fundamentals h)
                  | None => fundamentals h
                  end
              end |}.
Proof. intros Hi Hres. by apply aggregateAll_resolved. Qed.

(** X15: for the first holding with a given symbol,
    [getHoldingWithRealtimeData] returns the record
    [getPortfolioWithRealtimeData] has at the position of that holding,
    from the same clock, files and vendor answers. *)
Theorem single_agrees_with_all (w : World) (i : nat) (h : PortfolioHolding) :
  holdings !! i = Some h ->
  findHolding holdings (symbol h) = Some h ->
  (aggregateOne (symbol h) w).1 = (aggregateAll w).1 !! i.
Proof.
  intros Hi Hfind.
  destruct ((resolve (symbol h) (ScripcodeCache.loadScripcodeCache (scripcodeFile w))).1.2)
    as [sc|] eqn:Hres.
  - by rewrite (aggregateOne_resolved w _ h sc Hfind Hres),
      (aggregateAll_resolved w i h sc Hi Hres).
  - rewrite (aggregateAll_unresolved w i h Hi Hres).
    unfold getHoldingWithRealtimeData. rewrite Hfind.
    destruct (resolve (symbol h) _) as [[s r] c1]. cbn in Hres. by subst r.
Qed.

(** A scripcode of [uniqueScripcodes] is what the symbol of some holding
    resolved to. *)
Lemma gathered_unique_inv (w : World) (sc : string) :
  sc ∈ uniqueScripcodes (gathered w) ->
  exists h, h ∈ holdings
    /\ (resolve (symbol h) (ScripcodeCache.loadScripcodeCache (scripcodeFile w))).1.2
       = Some sc.
Proof.
  destruct (gathered_rest w) as (_ & -> & _). intros Hsc.
  apply (proj1 (proj2 (uniq_spec _) sc)) in Hsc.
  apply recordResolved_values in Hsc as [s Hin].
  destruct (uniq_spec (symbol <$> holdings)) as [Hnd Hmem].
  set (cache := ScripcodeCache.loadScripcodeCache (scripcodeFile w)) in *.
  assert (Hs : s ∈ symbol <$> holdings).
  { apply Hmem. rewrite <- (resolveAll_symbols searchBSEScripcode _ cache).
    apply list_elem_of_fmap. by exists (s, Some sc). }
  apply list_elem_of_fmap in Hs as (h & -> & Hh). exists h. split; [done|].
  by rewrite (resolveAll_result searchBSEScripcode _ _ _ _ Hnd Hin).
Qed.

(** X16: a run of [getPortfolioWithRealtimeData] that has a price to
    fetch (on a directory that takes writes) leaves a price file that
    holds the fetched prices and only them: an entry for exactly the
    scripcodes that a holding resolves to, that had no valid price in
    the cache and whose fetch returned a record (the key ["__proto__"]
    apart, which is not written), each with the fetched record and the
    time at the end of the run; so the price fetched for the holding at
    hand is in the file, and every price that was valid in the cache
    before the run is no longer in it. *)
Theorem fetched_prices_replace_cached (w : World) (i : nat) (h : PortfolioHolding)
    (sc : string) :
  writable w = true ->
  holdings !! i = Some h ->
  (resolve (symbol h) (ScripcodeCache.loadScripcodeCache (scripcodeFile w))).1.2
    = Some sc ->
  PriceCache.loadPriceCache (now w) (priceFile w) !! sc = None ->
  exists doc,
    priceFile (aggregateAll w).2 = Some (Json doc)
    /\ (forall k cp,
          doc !! k = Some cp <->
          k <> "__proto__"%string
          /\ (exists h0, h0 ∈ holdings
                /\ (resolve (symbol h0)
                      (ScripcodeCache.loadScripcodeCache (scripcodeFile w))).1.2
                   = Some k)
          /\ PriceCache.loadPriceCache (now w) (priceFile w) !! k = None
          /\ exists d, fetchPrice k = Some d
                /\ cp = PriceCache.mkCachedPrice (now (aggregateAll w).2)
                          (reparsePrice d))
    /\ (sc <> "__proto__"%string ->
        doc !! sc
        = (fun d => PriceCache.mkCachedPrice (now (aggregateAll w).2) (reparsePrice d))
            <$> fetchPrice sc)
    /\ (forall k, is_Some (PriceCache.loadPriceCache (now w) (priceFile w) !! k) ->
          doc !! k = None).
Proof.
  intros Hw Hi Hres Hnone.
  assert (Hh : h ∈ holdings) by (by apply list_elem_of_lookup_2 with i).
  assert (Hmem : forall k,
            k ∈ uniqueScripcodes (gathered w) <->
            exists h0, h0 ∈ holdings
              /\ (resolve (symbol h0)
                    (ScripcodeCache.loadScripcodeCache (scripcodeFile w))).1.2 = Some k).
  { intros k. split; [apply gathered_unique_inv|].
    intros (h0 & Hh0 & Hres0). apply (gathered_unique w (symbol h0)).
    rewrite env_symbol; [done|]. apply list_elem_of_fmap. by exists h0. }
  unfold getPortfolioWithRealtimeData. cbn [snd].
  destruct (gathered_rest w) as (_ & Hu & _ & ->). rewrite Hu in Hmem.
  set (pc := PriceCache.loadPriceCache (now w) (priceFile w)) in *.
  set (l := uniq _) in *.
  pose proof (fun k => proj2 (env_split pc l k)) as Hsp.
  assert (Hin : sc ∈ (splitCached pc l).2).
  { apply Hsp. split; [|done]. apply Hmem. by exists h. }
  rewrite decide_True
    by (destruct ((splitCached pc l).2); [by apply elem_of_nil in Hin|cbn; lia]).
  match goal with
  | |- context [getFundamentalsForBSEScripcodes _ _ _ l ?w0] => set (w1 := w0)
  end.
  assert (Hw1 : writable w1 = true) by (unfold w1; by case_decide).
  destruct (fundamentalsFor_frame parseFloat fetchComHeader reparseFundamentals l w1)
    as (Hwr & _).
  cbn [now priceFile withPriceFile afterSteps]. rewrite Hwr, Hw1.
  rewrite savePriceCache_written.
  set (t := now (fundamentalsFor l w1).2 + elapsed (fetchPrices (splitCached pc l).2).2).
  eexists. split; [reflexivity|].
  assert (Hdoc : forall k,
            ((fun d => PriceCache.mkCachedPrice t (reparsePrice d))
               <$> delete "__proto__"%string (fetchPrices (splitCached pc l).2).1) !! k
            = if decide (k = "__proto__"%string) then None
              else if decide (k ∈ (splitCached pc l).2)
                   then (fun d => PriceCache.mkCachedPrice t (reparsePrice d))
                          <$> fetchPrice k
                   else None).
  { intros k. rewrite lookup_fmap.
    destruct (decide (k = "__proto__"%string)) as [->|Hne].
    - by rewrite lookup_delete_eq.
    - rewrite lookup_delete_ne by done.
      unfold BseIndia.fetchMultipleBSEData. rewrite fetchMultiple_lookup.
      by destruct (decide (k ∈ (splitCached pc l).2)). }
  split; [|split].
  - intros k cp. rewrite Hdoc. split.
    + destruct (decide (k = "__proto__"%string)) as [->|Hne]; [done|].
      destruct (decide (k ∈ (splitCached pc l).2)) as [Hk|Hk]; [|done].
      apply Hsp in Hk as [Hkl Hkc]. apply Hmem in Hkl.
      destruct (fetchPrice k) as [d|]; [|done]. cbn. intros [= <-].
      repeat split; [done|done|done|]. by exists d.
    + intros (Hne & Hres0 & Hkc & d & Hd & ->).
      rewrite decide_False by done.
      rewrite decide_True by (apply Hsp; split; [by apply Hmem|done]).
      by rewrite Hd.
  - intros Hne. by rewrite Hdoc, decide_False, decide_True by done.
  - intros k [d Hk]. rewrite Hdoc.
    destruct (decide (k = "__proto__"%string)); [done|].
    rewrite decide_False; [done|].
    intros [_ ?]%Hsp. congruence.
Qed.

(** The three maps of [gatherData] depend on the clock and on the three
    files only. *)
Lemma gathered_reads (w w' : World) :
  now w = now w' -> scripcodeFile w = scripcodeFile w' ->
  priceFile w = priceFile w' -> fundamentalsFile w = fundamentalsFile w' ->
  symbolToScripcode (gathered w) = symbolToScripcode (gathered w')
  /\ priceDataMap (gathered w) = priceDataMap (gathered w')
  /\ fundamentalsMap (gathered w) = fundamentalsMap (gathered w').
Proof.
  intros Hn Hs Hp Hf.
  destruct (env_components w) as [-> ->], (env_components w') as [-> ->].
  destruct (gathered_rest w) as (_ & _ & -> & _), (gathered_rest w') as (_ & _ & -> & _).
  rewrite Hn, Hs, Hp. split; [done|]. split; [done|].
  apply fundamentalsFor_reads.
  - by repeat case_decide.
  - by repeat case_decide.
Qed.

(** X17: the holdings [getPortfolioWithRealtimeData] returns depend on
    the clock and on the three cache files only, not on whether the
    cache directory takes writes; when it takes none, the three files
    are after the run what they were before. *)
Theorem cache_write_failure_harmless (w w' : World) :
  now w = now w' -> scripcodeFile w = scripcodeFile w' ->
  priceFile w = priceFile w' -> fundamentalsFile w = fundamentalsFile w' ->
  (aggregateAll w).1 = (aggregateAll w').1
  /\ (writable w = false ->
      scripcodeFile (aggregateAll w).2 = scripcodeFile w
      /\ priceFile (aggregateAll w).2 = priceFile w
      /\ fundamentalsFile (aggregateAll w).2 = fundamentalsFile w).
Proof.
  intros Hn Hs Hp Hf. split.
  - unfold getPortfolioWithRealtimeData. cbn [fst].
    by destruct (gathered_reads w w' Hn Hs Hp Hf) as (-> & -> & ->).
  - intros Hw. unfold getPortfolioWithRealtimeData. cbn [snd].
    destruct (gathered_rest w) as (_ & _ & _ & ->).
    match goal with
    | |- context [getFundamentalsForBSEScripcodes _ _ _ ?l ?w0] =>
        set (w1 := w0); set (l0 := l)
    end.
    assert (writable w1 = false /\ scripcodeFile w1 = scripcodeFile w
            /\ priceFile w1 = priceFile w /\ fundamentalsFile w1 = fundamentalsFile w)
      as (Hw1 & Hs1 & Hp1 & Hf1).
    { unfold w1. case_decide; [|done]. cbn. by rewrite Hw. }
    destruct (fundamentalsFor_frame parseFloat fetchComHeader reparseFundamentals l0 w1)
      as (Hwr & Hsf & Hpf & _).
    pose proof (fundamentalsFor_readonly parseFloat fetchComHeader reparseFundamentals
                  l0 w1 Hw1) as Hff.
    case_decide; cbn; [rewrite Hwr, Hw1; cbn|]; by rewrite ?Hsf, ?Hpf, ?Hff.
Qed.

(** X18: when the caches hold a price and a fundamentals record for
    every scripcode a holding resolves to, a run of
    [getPortfolioWithRealtimeData] runs no fetch batch, does not pause,
    and leaves the price file and the fundamentals file as they are. *)
Theorem warm_caches_no_request (w : World) :
  (forall h sc, h ∈ holdings ->
     (resolve (symbol h) (ScripcodeCache.loadScripcodeCache (scripcodeFile w))).1.2
       = Some sc ->
     is_Some (PriceCache.loadPriceCache (now w) (priceFile w) !! sc)
     /\ is_Some (FundamentalsCache.loadFundamentalsCache (now w) (fundamentalsFile w)
                   ≫= (fun c => c !! sc))) ->
  log (aggregateAll w).2 = log w
  /\ now (aggregateAll w).2 = now w
  /\ priceFile (aggregateAll w).2 = priceFile w
  /\ fundamentalsFile (aggregateAll w).2 = fundamentalsFile w.
Proof.
  intros Hwarm. unfold getPortfolioWithRealtimeData. cbn [snd].
  pose proof (gathered_unique_inv w) as Hinv.
  destruct (gathered_rest w) as (_ & Hu & _ & ->). rewrite Hu in Hinv.
  set (pc := PriceCache.loadPriceCache (now w) (priceFile w)) in *.
  set (l := uniq _) in *.
  match goal with
  | |- context [getFundamentalsForBSEScripcodes _ _ _ l ?w0] => set (w1 := w0)
  end.
  assert (log w1 = log w /\ now w1 = now w /\ priceFile w1 = priceFile w
          /\ fundamentalsFile w1 = fundamentalsFile w) as (Hl1 & Hn1 & Hp1 & Hf1)
    by (unfold w1; by case_decide).
  assert (Hsplit : (splitCached pc l).2 = []).
  { destruct ((splitCached pc l).2) as [|k rest] eqn:Hsp; [done|]. exfalso.
    assert (k ∈ (splitCached pc l).2) as Hk by (rewrite Hsp; apply elem_of_cons; by left).
    apply (proj2 (env_split pc l k)) in Hk as [Hkl Hnone].
    destruct (Hinv k Hkl) as (h & Hh & Hres).
    destruct (Hwarm h k Hh Hres) as [[d Hd] _]. congruence. }
  rewrite Hsplit. cbn [length]. rewrite decide_False by lia.
  assert (Hfw : (fundamentalsFor l w1).2 = w1).
  { apply fundamentalsFor_all_cached.
    match goal with |- ?x = [] => destruct x as [|k rest] eqn:Hm end; [done|]. exfalso.
    assert (k ∈ k :: rest) as Hk by (apply elem_of_cons; by left).
    rewrite <- Hm in Hk. apply missing_spec in Hk as [Hkl Hnone].
    destruct (Hinv k Hkl) as (h & Hh & Hres).
    destruct (Hwarm h k Hh Hres) as [_ [d Hd]].
    rewrite Hn1, Hf1 in Hnone.
    destruct (FundamentalsCache.loadFundamentalsCache (now w) (fundamentalsFile w));
      cbn in Hnone, Hd; congruence. }
  by rewrite Hfw.
Qed.

(** X19: what [getPortfolioWithRealtimeData] leaves alone in every
    record, resolved or not: the market capitalisation and sixteen of
    the nineteen fundamentals; [peTTM], [priceToBook] and
    [latestEarnings] are the static values or some number, never a
    [null] in place of a static value; the [realtime] block is the static
    one or one with the price source [bse]. *)
Theorem aggregateAll_touches (w : World) :
  Forall2
    (fun h h' =>
       marketCap (realtime h') = marketCap (realtime h)
       /\ (realtime h' = realtime h \/ priceSource (realtime h') = Some bse)
       /\ (peTTM (fundamentals h') = peTTM (fundamentals h)
           \/ is_Some (peTTM (fundamentals h')))
       /\ (priceToBook (fundamentals h') = priceToBook (fundamentals h)
           \/ is_Some (priceToBook (fundamentals h')))
       /\ (latestEarnings (fundamentals h') = latestEarnings (fundamentals h)
           \/ is_Some (latestEarnings (fundamentals h')))
       /\ revenueTTM (fundamentals h') = revenueTTM (fundamentals h)
       /\ ebitdaTTM (fundamentals h') = ebitdaTTM (fundamentals h)
       /\ ebitdaPercent (fundamentals h') = ebitdaPercent (fundamentals h)
       /\ pat (fundamentals h') = pat (fundamentals h)
       /\ patPercent (fundamentals h') = patPercent (fundamentals h)
       /\ cfoMarch24 (fundamentals h') = cfoMarch24 (fundamentals h)
       /\ cfo5Years (fundamentals h') = cfo5Years (fundamentals h)
       /\ debtToEquity (fundamentals h') = debtToEquity (fundamentals h)
       /\ bookValue (fundamentals h') = bookValue (fundamentals h)
       /\ revenueGrowth (fundamentals h') = revenueGrowth (fundamentals h)
       /\ ebitdaGrowth (fundamentals h') = ebitdaGrowth (fundamentals h)
       /\ profitGrowth (fundamentals h') = profitGrowth (fundamentals h)
       /\ marketCapGrowth (fundamentals h') = marketCapGrowth (fundamentals h)
       /\ priceToSales (fundamentals h') = priceToSales (fundamentals h)
       /\ cfoToEbitda (fundamentals h') = cfoToEbitda (fundamentals h)
       /\ cfoToPat (fundamentals h') = cfoToPat (fundamentals h))
    holdings (aggregateAll w).1.
Proof.
  unfold getPortfolioWithRealtimeData. cbn [fst].
  apply Forall2_fmap_r, Forall_Forall2_diag, Forall_forall. intros h _.
  assert (Hnull : forall (a b : option float), nullish a b = b \/ is_Some (nullish a b)).
  { intros [x|] b; [right; by eexists|by left]. }
  unfold compose, updateHolding. cbn beta zeta.
  destruct (symbolToScripcode (gathered w) !! symbol h) as [sc|];
    [|repeat split; first [done | by left]].
  destruct (Js.truthy (Some sc)); [|repeat split; first [done | by left]].
  destruct (priceDataMap (gathered w) !! sc), (fundamentalsMap (gathered w) !! sc);
    cbn; repeat split; first [done | by left | by right | apply Hnull].
Qed.
End AggregatorMore.

(** ** Route handlers *)

Section RouteFacts.
Context (parseFloat : string -> float)
        (isoNow : string)
        (fetchHeaderData : string -> Result (BseIndia.Response BseIndia.BSEResponse))
        (fetchComHeader :
           string -> Result (BseIndia.Response BseIndia.BSEFundamentalsResponse)).
Import Routes.

Lemma handler_cases {Data : Type} (fetchOne : string -> option Data) (failed : string)
    (scripcode : option string) :
  handler fetchOne failed scripcode =
    match scripcode with
    | None | Some EmptyString =>
        mkNextResponse 400 (ErrorBody "scripcode parameter is required")
    | Some sc =>
        if BseIndia.isBSEScripcode sc then
          match fetchOne sc with
          | Some d => mkNextResponse 200 (DataBody d)
          | None => mkNextResponse 500 (ErrorBody failed)
          end
        else mkNextResponse 400 (ErrorBody "Invalid scripcode format. Must be numeric.")
    end.
Proof.
  destruct scripcode as [[|c rest]|]; [done| |done].
  unfold handler. cbn [Js.truthy negb].
  destruct (BseIndia.isBSEScripcode (String c rest)); [|done]. cbn [negb].
  by destruct (fetchOne (String c rest)).
Qed.

Local Ltac route_case :=
  unfold not; intros;
  repeat match goal with
         | H : ex _ |- _ => destruct H
         | H : _ /\ _ |- _ => destruct H
         | H : Some _ = Some _ |- _ => injection H as <-
         | H : (ex _) -> False |- _ => exfalso; apply H; clear H
         end;
  cbn in *;
  first [done | congruence | by eauto 10 | by left | by right; left | by right; right].

(** X20: the two vendor routes answer 400 exactly when the [scripcode]
    parameter is missing, empty or not all digits, whatever the vendor
    would say; 200 with the record exactly when the parameter is all
    digits and the fetch returns a record; 500 with the message of a
    failed fetch exactly when the parameter is all digits and the fetch
    returns [null].  No other status occurs, and the answer
    ["Internal server error"] of the [catch] block never. *)
Theorem vendor_route_status (scripcode : option string) :
  let price := Bse.GET parseFloat isoNow fetchHeaderData scripcode in
  let ratios := Fundamentals.GET parseFloat fetchComHeader scripcode in
  let numeric :=
    exists sc, scripcode = Some sc /\ BseIndia.isBSEScripcode sc = true in
  (status price = 400 <-> ~ numeric)
  /\ (status ratios = 400 <-> ~ numeric)
  /\ (status price = 200 <->
      exists sc d, scripcode = Some sc /\ BseIndia.isBSEScripcode sc = true
        /\ BseIndia.fetchBSEData parseFloat isoNow fetchHeaderData sc = Some d
        /\ body price = DataBody d)
  /\ (status ratios = 200 <->
      exists sc d, scripcode = Some sc /\ BseIndia.isBSEScripcode sc = true
        /\ BseIndia.fetchBSEFundamentals parseFloat fetchComHeader sc = Some d
        /\ body ratios = DataBody d)
  /\ (status price = 500 <->
      exists sc, scripcode = Some sc /\ BseIndia.isBSEScripcode sc = true
        /\ BseIndia.fetchBSEData parseFloat isoNow fetchHeaderData sc = None
        /\ body price = ErrorBody "Failed to fetch data from BSE API")
  /\ (status ratios = 500 <->
      exists sc, scripcode = Some sc /\ BseIndia.isBSEScripcode sc = true
        /\ BseIndia.fetchBSEFundamentals parseFloat fetchComHeader sc = None
        /\ body ratios = ErrorBody "Failed to fetch fundamentals from BSE API")
  /\ (status price = 200 \/ status price = 400 \/ status price = 500)
  /\ (status ratios = 200 \/ status ratios = 400 \/ status ratios = 500)
  /\ body price <> ErrorBody "Internal server error"
  /\ body ratios <> ErrorBody "Internal server error".
Proof.
  cbn zeta. unfold Bse.GET, Fundamentals.GET. rewrite !handler_cases.
  destruct scripcode as [[|c rest]|].
  - cbn. repeat split; route_case.
  - destruct (BseIndia.isBSEScripcode (String c rest)) eqn:Hd.
    + destruct (BseIndia.fetchBSEData _ _ _ _) as [d|] eqn:Hp,
        (BseIndia.fetchBSEFundamentals _ _ _) as [f|] eqn:Hf; cbn;
        repeat split; route_case.
    + cbn. repeat split; route_case.
  - cbn. repeat split; route_case.
Qed.
End RouteFacts.

(** ** Formatting *)

Section HelperFacts.
Context (numberToString : float -> string).
Import Helpers.

(** What [Prim2SF] makes of a number below zero. *)
Lemma negative_cases (x : float) :
  PrimFloat.ltb x 0 = true ->
  Prim2SF x = S754_infinity true \/ exists m e, Prim2SF x = S754_finite true m e.
Proof.
  rewrite ltb_spec. change (Prim2SF 0) with (S754_zero false).
  destruct (Prim2SF x) as [s|[|]| |[|] m e]; cbn; try done; [by left|right; eauto].
Qed.

Lemma negative_below (x c : float) (m : positive) (e : Z) :
  Prim2SF c = S754_finite false m e ->
  PrimFloat.ltb x 0 = true -> PrimFloat.leb c x = false.
Proof.
  intros Hc Hx. rewrite leb_spec, Hc.
  by destruct (negative_cases x Hx) as [->|(m' & e' & ->)].
Qed.

(** X21: an amount below zero is never shortened by [formatCurrency]
    to thousands, lakhs or crores, however large the loss: it is printed
    in full with two decimals after the rupee sign; [formatPercentage]
    prints it without a plus sign; the minus sign is the one of
    [toFixed]. *)
Theorem negative_amounts_in_full (value : float) :
  PrimFloat.ltb value 0 = true ->
  formatCurrency numberToString value
    = (rupee ++ Js.toFixed numberToString 2 value)%string
  /\ formatPercentage numberToString (inr value)
     = (Js.toFixed numberToString 2 value ++ "%")%string
  /\ exists digits, Js.toFixed numberToString 2 value = ("-" ++ digits)%string.
Proof.
  intros Hneg. split; [|split].
  - unfold formatCurrency.
    rewrite (negative_below value 10000000 5368709120000000 (-29)) by done.
    rewrite (negative_below value 100000 6871947673600000 (-36)) by done.
    by rewrite (negative_below value 1000 8796093022208000 (-43)) by done.
  - unfold formatPercentage.
    assert (PrimFloat.leb 0 value = false) as ->; [|done].
    rewrite leb_spec. change (Prim2SF 0) with (S754_zero false).
    by destruct (negative_cases value Hneg) as [->|(m' & e' & ->)].
  - unfold Js.toFixed.
    destruct (negative_cases value Hneg) as [->|(m' & e' & ->)]; by eexists.
Qed.
End HelperFacts.

(** ** Sector summaries *)

Section SectorFacts.
Import StockData.

Local Abbreviation step :=
  (fun (sectorMap : list (string * list PortfolioData.PortfolioHolding))
       (holding : PortfolioData.PortfolioHolding) =>
     let sector := sectorOf holding in
     let sectorMap :=
       if has sector sectorMap then sectorMap else sectorMap ++ [(sector, [])] in
     push sector holding sectorMap).

(** What [sectorMap] holds once a prefix of the holdings has gone in. *)
Local Abbreviation grouped :=
  (fun (seen : list PortfolioData.PortfolioHolding)
       (sectorMap : list (string * list PortfolioData.PortfolioHolding)) =>
     NoDup sectorMap.*1
     /\ (forall k hs, (k, hs) ∈ sectorMap ->
           hs <> [] /\ hs = filter (fun h => sectorOf h = k) seen)
     /\ (forall h, h ∈ seen -> sectorOf h ∈ sectorMap.*1)).

Lemma push_keys (k : string) (h : PortfolioData.PortfolioHolding)
    (m : list (string * list PortfolioData.PortfolioHolding)) :
  (push k h m).*1 = m.*1.
Proof.
  unfold push. rewrite <- list_fmap_compose. apply list_fmap_ext.
  intros i [k' hs] _. cbn. by destruct (decide (k' = k)).
Qed.

Lemma push_elem (k : string) (h : PortfolioData.PortfolioHolding)
    (m : list (string * list PortfolioData.PortfolioHolding)) (k' : string)
    (hs' : list PortfolioData.PortfolioHolding) :
  (k', hs') ∈ push k h m ->
  exists hs, (k', hs) ∈ m /\ hs' = if decide (k' = k) then hs ++ [h] else hs.
Proof.
  unfold push. intros ([k0 hs0] & Heq & Hin)%list_elem_of_fmap. cbn in Heq.
  destruct (decide (k0 = k)) as [->|Hne]; injection Heq as -> ->.
  - exists hs0. by rewrite decide_True.
  - exists hs0. by rewrite decide_False.
Qed.

Lemma grouped_step (seen : list PortfolioData.PortfolioHolding)
    (m : list (string * list PortfolioData.PortfolioHolding))
    (h : PortfolioData.PortfolioHolding) :
  grouped seen m -> grouped (seen ++ [h]) (step m h).
Proof.
  intros (Hnd & Hall & Hcov). cbn beta zeta.
  set (k := sectorOf h).
  set (m0 := if has k m then m else m ++ [(k, [])]).
  assert (Hkeys : m0.*1 = if has k m then m.*1 else m.*1 ++ [k]).
  { unfold m0. destruct (has k m); [done|]. by rewrite fmap_app. }
  assert (Hk0 : k ∈ m0.*1).
  { rewrite Hkeys. unfold has. case_bool_decide; [done|].
    apply elem_of_app. right. by apply list_elem_of_singleton. }
  assert (Hsub : forall x, x ∈ m.*1 -> x ∈ m0.*1).
  { intros x Hx. rewrite Hkeys. destruct (has k m); [done|].
    apply elem_of_app. by left. }
  split; [|split].
  - rewrite push_keys, Hkeys. unfold has. case_bool_decide as Hin; [done|].
    apply NoDup_app. split; [done|]. split; [|apply NoDup_singleton].
    intros x Hx ->%list_elem_of_singleton. done.
  - intros k' hs' Hin. apply push_elem in Hin as (hs & Hin & ->).
    rewrite filter_app, filter_cons, filter_nil.
    assert (Hm0 : (k', hs) ∈ m \/ (has k m = false /\ k' = k /\ hs = [])).
    { unfold m0 in Hin. destruct (has k m); [by left|].
      apply elem_of_app in Hin as [?|Hin]; [by left|].
      apply list_elem_of_singleton in Hin as [= -> ->]. by right. }
    destruct Hm0 as [Hold|(Hnew & -> & ->)].
    + destruct (Hall k' hs Hold) as [Hne ->].
      destruct (decide (k' = k)) as [->|Hk].
      * rewrite decide_True by done. split; [|done]. by destruct (filter _ seen).
      * rewrite decide_False by (fold k; congruence). by rewrite app_nil_r.
    + rewrite !decide_True by done. split; [done|].
      assert (filter (fun h0 => sectorOf h0 = k) seen = []) as ->; [|done].
      destruct (filter _ seen) as [|x xs] eqn:Hf; [done|]. exfalso.
      assert (x ∈ filter (fun h0 => sectorOf h0 = k) seen) as Hx
        by (rewrite Hf; apply elem_of_cons; by left).
      apply list_elem_of_filter in Hx as [Hxk Hxs].
      apply Hcov in Hxs. rewrite Hxk in Hxs.
      unfold has in Hnew. by apply bool_decide_eq_false in Hnew.
  - intros h0 Hin. rewrite push_keys.
    apply elem_of_app in Hin as [Hin|Hin].
    + by apply Hsub, Hcov.
    + by apply list_elem_of_singleton in Hin as ->.
Qed.

Lemma groupBySector_grouped (l : list PortfolioData.PortfolioHolding) :
  grouped l (groupBySector l).
Proof.
  unfold groupBySector.
  cut (forall seen m, grouped seen m -> grouped (seen ++ l) (foldl step m l)).
  { intros H. apply (H [] []). cbn. split; [apply NoDup_nil_2|].
    split; [by intros ? ? ?%elem_of_nil|by intros ? ?%elem_of_nil]. }
  induction l as [|h rest IH]; intros seen m Hg.
  - by rewrite app_nil_r.
  - cbn [foldl]. rewrite (cons_middle h seen rest), app_assoc.
    apply IH. by apply grouped_step.
Qed.

(** X22: [getSectorSummaries] returns one summary for each sector that
    occurs, with no sector twice; a summary holds the holdings of its
    sector, all of them and in the order of the input, and is never
    empty; its totals are the sums over these holdings, added up from
    0 in that order, and its gain is present value less investment;
    every holding is in the summary of its sector, a holding with an
    empty sector in the one of ["Others"]. *)
Theorem sector_summaries_partition
    (sort : (SectorSummary -> SectorSummary -> float) ->
            list SectorSummary -> list SectorSummary)
    (l : list PortfolioData.PortfolioHolding) :
  (forall cmp summaries, sort cmp summaries ≡ₚ summaries) ->
  let out := getSectorSummaries sort l in
  NoDup (sector <$> out)
  /\ (forall s, s ∈ out ->
        holdings s <> []
        /\ holdings s = filter (fun h => sectorOf h = sector s) l
        /\ totalInvestment s
           = foldl (fun sum h =>
                      (sum + PortfolioData.investment (PortfolioData.fixed h))%float)
               0%float (holdings s)
        /\ totalPresentValue s
           = foldl (fun sum h =>
                      (sum + PortfolioData.presentValue (PortfolioData.realtime h))%float)
               0%float (holdings s)
        /\ totalGainLoss s = (totalPresentValue s - totalInvestment s)%float)
  /\ (forall h, h ∈ l ->
        exists s, s ∈ out /\ h ∈ holdings s
                  /\ sector s = if decide (PortfolioData.sector h = ""%string)
                                then "Others"%string else PortfolioData.sector h).
Proof.
  intros Hsort out.
  destruct (groupBySector_grouped l) as (Hnd & Hall & Hcov).
  assert (Hperm : out ≡ₚ summarize <$> groupBySector l) by apply Hsort.
  assert (Hkeys : sector <$> (summarize <$> groupBySector l) = (groupBySector l).*1).
  { rewrite <- list_fmap_compose. apply list_fmap_ext. by intros i [k hs] _. }
  split; [|split].
  - rewrite Hperm, Hkeys. exact Hnd.
  - intros s Hs. rewrite Hperm in Hs.
    apply list_elem_of_fmap in Hs as ([k hs] & -> & Hin).
    destruct (Hall k hs Hin) as [Hne Hhs]. cbn. by repeat split.
  - intros h Hh. pose proof (Hcov h Hh) as Hk.
    apply list_elem_of_fmap in Hk as ([k hs] & Hkeq & Hin). cbn in Hkeq.
    exists (summarize (k, hs)). split; [|split].
    + rewrite Hperm. apply list_elem_of_fmap. by exists (k, hs).
    + cbn. destruct (Hall k hs Hin) as [_ ->].
      apply list_elem_of_filter. by split.
    + cbn. rewrite <- Hkeq. unfold sectorOf.
      by destruct (PortfolioData.sector h).
Qed.
End SectorFacts.

Lemma insertBy_perm {A : Type} (compareFn : A -> A -> float) (x : A) (l : list A) :
  MoreSamples.insertBy compareFn x l ≡ₚ x :: l.
Proof.
  induction l as [|y rest IH]; [done|]. cbn.
  destruct (PrimFloat.ltb 0 (compareFn y x)); [done|].
  rewrite IH. apply Permutation_swap.
Qed.

Lemma sortBy_perm {A : Type} (compareFn : A -> A -> float) (l : list A) :
  MoreSamples.sortBy compareFn l ≡ₚ l.
Proof.
  unfold MoreSamples.sortBy.
  cut (forall acc, foldl (fun sorted x => MoreSamples.insertBy compareFn x sorted) acc l
                   ≡ₚ acc ++ l).
  { intros H. apply (H []). }
  induction l as [|x rest IH]; intros acc; [by rewrite app_nil_r|].
  cbn [foldl]. rewrite IH, insertBy_perm. cbn. apply Permutation_middle.
Qed.

(** ** The added properties on the small portfolio *)

Lemma savePriceCache_replaces_witness :
  PriceCache.loadPriceCache 1000
    (PriceCache.savePriceCache id true 0 {["500180" := 120%nat]}
       (Some (Json {["500112" := PriceCache.mkCachedPrice 0 80%nat]})))
  = id <$> delete "__proto__"%string {["500180" := 120%nat]}
  /\ PriceCache.loadPriceCache 1000
       (PriceCache.savePriceCache id true 0 {["500180" := 120%nat]}
          (Some (Json {["500112" := PriceCache.mkCachedPrice 0 80%nat]}))) !! "500112"
     = None.
Proof.
  destruct (savePriceCache_replaces id 1000 0 {["500180" := 120%nat]}
              (Some (Json {["500112" := PriceCache.mkCachedPrice 0 80%nat]})) "500112")
    as (Hall & _ & Hgone & _); [reflexivity|].
  split; [exact Hall|]. apply Hgone. reflexivity.
Defined.

Lemma price_entries_only_expire_witness :
  PriceCache.loadPriceCache 200000
    (PriceCache.savePriceCache id true 100000 {["500180" := 120%nat]} None)
  ⊆ PriceCache.loadPriceCache 150000
      (PriceCache.savePriceCache id true 100000 {["500180" := 120%nat]} None).
Proof.
  apply (price_entries_only_expire 150000 200000). lia.
Defined.

Lemma fundamentals_only_expire_witness :
  FundamentalsCache.loadFundamentalsCache 1000
    (FundamentalsCache.saveFundamentalsCache id true 1000 {["500180" := 7%nat]} None)
  = Some {["500180" := 7%nat]}.
Proof.
  apply (fundamentals_only_expire 1000 2000); [lia|reflexivity].
Defined.

Lemma fundamentals_second_call_witness :
  let first :=
    PortfolioData.getFundamentalsForBSEScripcodes Sample.parseFloat Sample.fetchComHeader
      id ["500180"] Sample.world0 in
  let second :=
    PortfolioData.getFundamentalsForBSEScripcodes Sample.parseFloat Sample.fetchComHeader
      id ["500180"] first.2 in
  second.2 = first.2 /\ (second.1 = first.1 \/ second.1 = id <$> first.1).
Proof.
  apply (fundamentals_second_call Sample.parseFloat Sample.fetchComHeader id
           ["500180"] Sample.world0); [reflexivity|reflexivity|].
  intros sc ->%list_elem_of_singleton. vm_compute. by eexists.
Defined.

Lemma fetch_order_irrelevant_witness :
  (BseIndia.fetchMultipleBSEData Sample.parseFloat Sample.isoNow Sample.fetchHeaderData
     ["500180"; "500112"]).1
  = (BseIndia.fetchMultipleBSEData Sample.parseFloat Sample.isoNow Sample.fetchHeaderData
       ["500112"; "500180"; "500112"]).1.
Proof.
  apply (fetch_order_irrelevant Sample.parseFloat Sample.isoNow Sample.fetchHeaderData
           Sample.fetchComHeader ["500180"; "500112"] ["500112"; "500180"; "500112"]).
  intros sc. rewrite !elem_of_cons, elem_of_nil. tauto.
Defined.

Lemma searched_scripcodes_not_saved_witness :
  PortfolioData.scripcodeFile (Sample.run [Sample.hdfc; Sample.unknown]).2 = None
  /\ (Sample.run [Sample.hdfc; Sample.unknown]).1 !! 0%nat
     = (Sample.run Sample.portfolio).1 !! 0%nat.
Proof.
  split; [|by vm_compute].
  apply (searched_scripcodes_not_saved [Sample.hdfc; Sample.unknown] Sample.parseFloat
           Sample.numberToString Sample.isoNow Sample.fetchHeaderData
           Sample.fetchComHeader Sample.searchBSEScripcode id id Sample.world0 "HDFCBANK").
  repeat constructor.
Defined.

Lemma resolved_holding_record_witness :
  exists h',
    (Sample.run Sample.portfolio).1 !! 0%nat = Some h'
    /\ PortfolioData.priceSource (PortfolioData.realtime h') = Some PortfolioData.bse
    /\ PortfolioData.peTTM (PortfolioData.fundamentals h') = Some 120%float
    /\ PortfolioData.priceToBook (PortfolioData.fundamentals h') = Some 2.5%float.
Proof.
  eexists. split.
  - apply (resolved_holding_record Sample.portfolio Sample.parseFloat
             Sample.numberToString Sample.isoNow Sample.fetchHeaderData
             Sample.fetchComHeader Sample.searchBSEScripcode id id Sample.world0
             0 Sample.hdfc "500180"); reflexivity.
  - by vm_compute.
Defined.

Lemma single_agrees_with_all_witness :
  (PortfolioData.getHoldingWithRealtimeData Sample.portfolio Sample.parseFloat
     Sample.numberToString Sample.isoNow Sample.fetchHeaderData Sample.fetchComHeader
     Sample.searchBSEScripcode id id "HDFCBANK" Sample.world0).1
  = (Sample.run Sample.portfolio).1 !! 0%nat.
Proof.
  apply (single_agrees_with_all Sample.portfolio Sample.parseFloat
           Sample.numberToString Sample.isoNow Sample.fetchHeaderData
           Sample.fetchComHeader Sample.searchBSEScripcode id id Sample.world0
           0 Sample.hdfc); reflexivity.
Defined.

Lemma fetched_prices_replace_cached_witness :
  exists doc,
    PortfolioData.priceFile (Sample.run Sample.portfolio).2 = Some (Json doc)
    /\ doc !! "500180"%string
       = (fun d => PriceCache.mkCachedPrice
                     (PortfolioData.now (Sample.run Sample.portfolio).2) d)
           <$> BseIndia.fetchBSEData Sample.parseFloat Sample.isoNow
                 Sample.fetchHeaderData "500180".
Proof.
  destruct (fetched_prices_replace_cached Sample.portfolio Sample.parseFloat
              Sample.numberToString Sample.isoNow Sample.fetchHeaderData
              Sample.fetchComHeader Sample.searchBSEScripcode id id Sample.world0
              0 Sample.hdfc "500180") as (doc & Hfile & _ & Hown & _);
    [reflexivity|reflexivity|reflexivity|reflexivity|].
  exists doc. split; [exact Hfile|]. by apply Hown.
Defined.

Lemma cache_write_failure_harmless_witness :
  (Sample.run Sample.portfolio).1
  = (PortfolioData.getPortfolioWithRealtimeData Sample.portfolio Sample.parseFloat
       Sample.numberToString Sample.isoNow Sample.fetchHeaderData Sample.fetchComHeader
       Sample.searchBSEScripcode id id
       {| PortfolioData.now := 1767605400000; PortfolioData.writable := false;
          PortfolioData.scripcodeFile := None; PortfolioData.priceFile := None;
          PortfolioData.fundamentalsFile := None; PortfolioData.log := [] |}).1.
Proof.
  apply (cache_write_failure_harmless Sample.portfolio Sample.parseFloat
           Sample.numberToString Sample.isoNow Sample.fetchHeaderData
           Sample.fetchComHeader Sample.searchBSEScripcode id id); reflexivity.
Defined.

Lemma warm_caches_no_request_witness :
  PortfolioData.log
    (PortfolioData.getPortfolioWithRealtimeData [Sample.hdfc] Sample.parseFloat
       Sample.numberToString Sample.isoNow Sample.fetchHeaderData Sample.fetchComHeader
       Sample.searchBSEScripcode id id MoreSamples.warm).2
  = PortfolioData.log MoreSamples.warm.
Proof.
  apply (warm_caches_no_request [Sample.hdfc] Sample.parseFloat
           Sample.numberToString Sample.isoNow Sample.fetchHeaderData
           Sample.fetchComHeader Sample.searchBSEScripcode id id MoreSamples.warm).
  intros h sc ->%list_elem_of_singleton Hres.
  vm_compute in Hres. injection Hres as <-.
  split; vm_compute; by eexists.
Defined.

Lemma negative_amounts_in_full_witness :
  Helpers.formatCurrency Sample.numberToString (-2500000)
  = (Helpers.rupee ++ "-2500000.00")%string
  /\ Helpers.formatCurrency Sample.numberToString 2500000
     = (Helpers.rupee ++ "25.00L")%string.
Proof.
  split; [|by vm_compute].
  destruct (negative_amounts_in_full Sample.numberToString (-2500000)) as [-> _];
    [reflexivity|].
  by vm_compute.
Defined.

Lemma sector_summaries_partition_witness :
  let out := StockData.getSectorSummaries (@MoreSamples.sortBy _) MoreSamples.bySector in
  NoDup (StockData.sector <$> out)
  /\ StockData.sector <$> out = ["Financials"; "Others"]%string.
Proof.
  split; [|by vm_compute].
  apply (sector_summaries_partition (@MoreSamples.sortBy _) MoreSamples.bySector).
  intros cmp summaries. apply sortBy_perm.
Defined.
